(** * ai_project_cli: a shallow embedding of the assistant's command loop

    The program is one Python module: a conversation engine
    ([chat_with_ai]) that posts the running history to a remote model and
    parses the reply, an action executor ([execute_action]) that turns a
    parsed action into file-system effects, the persistence pair
    [save_project_state] / [load_project_state], and the interactive loop
    in [main].

    Python values that come out of [json.loads] are modelled by the
    inductive [json]; the interpreter's exceptions by [exn]; the process
    (console, network, clock, file system, module globals) by the record
    [St], threaded through a state-and-exception monad [M].  The operating
    system, [pathlib] and the [json] codec are interfaces ([Os], [Json]);
    their contracts are stated separately ([OsLaws], [JsonLaws]) and a
    reference implementation ([Ref]) is given for evaluation.

    Limits of the model.  Text is held in UTF-8, one [ascii] per byte:
    [len] counts characters, [strip] knows the white space of
    [str.isspace], and [bytes.decode] is the strict UTF-8 decoder.
    [str.lower] acts on the letters A to Z only: it is [str.lower] on
    ASCII text, and on any text it agrees with [str.lower] on whether the
    result is one of the ASCII words the program compares it with; what is
    said of a lowered text beyond that is said for ASCII text.  The
    reference implementation joins paths as texts, which is [pathlib] on
    plain relative paths ([Ref.plain]), and its codec reads back the
    documents it writes.  JSON numbers are integers.
    The global [chat_history] is a list; a state file whose "chat_history"
    is not a list takes the program outside the model ([Unmodelled]).  The
    text of [get_base_prompt] reaches [main] as a parameter.  [response.json()]
    on a body that is not JSON is taken to raise the [JSONDecodeError] of
    requests 2.27 and later, which is a [RequestException].  A loop that
    may not end takes fuel and answers [OutOfFuel] when it runs out. *)

From Stdlib Require Import String Ascii List ZArith Bool Lia DecimalString DecimalZ.
From Stdlib Require Import OrderedTypeEx Sorted.
From stdpp Require Import base strings gmap.
Import ListNotations.

(** ** Strings *)

Module Str.

Definition nl : string := String (ascii_of_nat 10) "".

Definition lower_char (c : ascii) : ascii :=
  let n := nat_of_ascii c in
  if (65 <=? n)%nat && (n <=? 90)%nat then ascii_of_nat (n + 32) else c.

(** [str.lower] where it acts on the letters A to Z only: on ASCII text
    it is [str.lower]; the bytes of other characters are kept.  No
    character outside ASCII lowers to one of the letters of "y", "exit"
    or "quit", so the comparisons of the program with these words come out
    as in Python on every text. *)
Fixpoint lower (s : string) : string :=
  match s with
  | EmptyString => EmptyString
  | String c s' => String (lower_char c) (lower s')
  end.

(** [old] is known to be non-empty here; [skip] counts the characters of
    a match that are still to be dropped. *)
Fixpoint replace_from (old new : string) (skip : nat) (s : string) : string :=
  match s with
  | EmptyString => EmptyString
  | String c s' =>
      match skip with
      | S k => replace_from old new k s'
      | O =>
          if String.prefix old s
          then new +:+ replace_from old new (String.length old - 1) s'
          else String c (replace_from old new 0 s')
      end
  end.

Fixpoint intersperse (new s : string) : string :=
  match s with
  | EmptyString => new
  | String c s' => new +:+ String c (intersperse new s')
  end.

(** [s.replace(old, new)]: every non-overlapping occurrence, left to
    right; an empty [old] matches between all characters. *)
Definition replace (old new s : string) : string :=
  match old with
  | EmptyString => intersperse new s
  | _ => replace_from old new 0 s
  end.

Fixpoint count_from (sub : string) (skip : nat) (s : string) : nat :=
  match s with
  | EmptyString => 0
  | String c s' =>
      match skip with
      | S k => count_from sub k s'
      | O =>
          if String.prefix sub s
          then S (count_from sub (String.length sub - 1) s')
          else count_from sub 0 s'
      end
  end.

(** [s.count(sub)] for a non-empty [sub]. *)
Definition count (sub s : string) : nat := count_from sub 0 s.

(** [sep.join(l)] *)
Fixpoint join (sep : string) (l : list string) : string :=
  match l with
  | [] => ""
  | [x] => x
  | x :: l' => x +:+ sep +:+ join sep l'
  end.

Fixpoint repeat (s : string) (n : nat) : string :=
  match n with
  | O => ""
  | S k => s +:+ repeat s k
  end.

(** The number a byte stands for. *)
Definition byte (c : ascii) : nat := nat_of_ascii c.

(** Text is held in UTF-8.  A byte [10xxxxxx] continues a character. *)
Definition continuation (c : ascii) : bool :=
  (128 <=? byte c)%nat && (byte c <=? 191)%nat.

(** [len(s)]: the number of characters. *)
Fixpoint len (s : string) : nat :=
  match s with
  | EmptyString => 0
  | String c s' => if continuation c then len s' else S (len s')
  end.

Definition is_ascii (s : string) : bool :=
  forallb (fun c => (byte c <? 128)%nat) (list_ascii_of_string s).

(** The characters [str.isspace] accepts, by the length of their UTF-8
    form.  One byte: U+0009 to U+000D, U+001C to U+001F and U+0020. *)
Definition is_space (c : ascii) : bool :=
  let n := byte c in
  (n =? 32)%nat || ((9 <=? n)%nat && (n <=? 13)%nat) || ((28 <=? n)%nat && (n <=? 31)%nat).

(** Two bytes: U+0085 and U+00A0. *)
Definition is_space2 (a b : ascii) : bool :=
  (byte a =? 194)%nat && ((byte b =? 133)%nat || (byte b =? 160)%nat).

(** Three bytes: U+1680, U+2000 to U+200A, U+2028, U+2029, U+202F, U+205F
    and U+3000. *)
Definition is_space3 (a b c : ascii) : bool :=
  ((byte a =? 225)%nat && (byte b =? 154)%nat && (byte c =? 128)%nat)
  || ((byte a =? 226)%nat && (byte b =? 128)%nat
      && (((128 <=? byte c)%nat && (byte c <=? 138)%nat)
          || (byte c =? 168)%nat || (byte c =? 169)%nat || (byte c =? 175)%nat))
  || ((byte a =? 226)%nat && (byte b =? 129)%nat && (byte c =? 159)%nat)
  || ((byte a =? 227)%nat && (byte b =? 128)%nat && (byte c =? 128)%nat).

(** [w] is one white-space character. *)
Definition space_char (w : string) : bool :=
  match w with
  | String a EmptyString => is_space a
  | String a (String b EmptyString) => is_space2 a b
  | String a (String b (String c EmptyString)) => is_space3 a b c
  | _ => false
  end.

(** Text made of white-space characters only. *)
Inductive spaces : string -> Prop :=
| spaces_nil : spaces EmptyString
| spaces_cons (w s : string) : space_char w = true -> spaces s -> spaces (w +:+ s).

Definition starts_with_space (s : string) : Prop :=
  exists w r, space_char w = true /\ s = w +:+ r.

Definition ends_with_space (s : string) : Prop :=
  exists w p, space_char w = true /\ s = p +:+ w.

(** [s.lstrip()] *)
Fixpoint lstrip (s : string) : string :=
  match s with
  | EmptyString => EmptyString
  | String a s1 =>
      if is_space a then lstrip s1 else
      match s1 with
      | String b s2 =>
          if is_space2 a b then lstrip s2 else
          match s2 with
          | String c s3 => if is_space3 a b c then lstrip s3 else s
          | EmptyString => s
          end
      | EmptyString => s
      end
  end.

(** Nothing but white space, or nothing at all. *)
Definition blank (s : string) : bool :=
  match lstrip s with EmptyString => true | _ => false end.

(** [s.rstrip()]: the text up to where only white space follows. *)
Fixpoint rstrip (s : string) : string :=
  match s with
  | EmptyString => EmptyString
  | String c s' => if blank s then EmptyString else String c (rstrip s')
  end.

(** [s.strip()] *)
Definition strip (s : string) : string := rstrip (lstrip s).

(** *** [bytes.decode()] *)

Definition hex_digit (n : nat) : ascii :=
  match String.get n "0123456789abcdef" with
  | Some c => c
  | None => "0"%char
  end.

(** [%02x] of a byte *)
Definition hex2 (n : nat) : string :=
  String (hex_digit (n / 16)) (String (hex_digit (n mod 16)) EmptyString).

Definition unexpected_end : string := "unexpected end of data".
Definition invalid_start : string := "invalid start byte".
Definition invalid_continuation : string := "invalid continuation byte".

(** The strict UTF-8 decoder's verdict on the bytes [s], which start at
    offset [pos]: [None] when they are well formed, else the offsets
    where the bytes in error start and stop, and the reason. *)
Fixpoint utf8_error (pos : nat) (s : string) : option (nat * nat * string) :=
  match s with
  | EmptyString => None
  | String a s1 =>
      let n := byte a in
      if (n <? 128)%nat then utf8_error (S pos) s1
      else if (n <? 194)%nat then Some (pos, pos + 1, invalid_start)
      else if (n <? 224)%nat then
        match s1 with
        | EmptyString => Some (pos, pos + 1, unexpected_end)
        | String b s2 =>
            if continuation b then utf8_error (pos + 2) s2
            else Some (pos, pos + 1, invalid_continuation)
        end
      else if (n <? 240)%nat then
        match s1 with
        | EmptyString => Some (pos, pos + 1, unexpected_end)
        | String b s2 =>
            if negb (continuation b)
               || (if (byte b <? 160)%nat then (n =? 224)%nat else (n =? 237)%nat)
            then Some (pos, pos + 1, invalid_continuation)
            else
              match s2 with
              | EmptyString => Some (pos, pos + 2, unexpected_end)
              | String c s3 =>
                  if continuation c then utf8_error (pos + 3) s3
                  else Some (pos, pos + 2, invalid_continuation)
              end
        end
      else if (n <? 245)%nat then
        match s1 with
        | EmptyString => Some (pos, pos + 1, unexpected_end)
        | String b s2 =>
            if negb (continuation b)
               || (if (byte b <? 144)%nat then (n =? 240)%nat else (n =? 244)%nat)
            then Some (pos, pos + 1, invalid_continuation)
            else
              match s2 with
              | EmptyString => Some (pos, pos + 2, unexpected_end)
              | String c s3 =>
                  if negb (continuation c) then Some (pos, pos + 2, invalid_continuation)
                  else
                    match s3 with
                    | EmptyString => Some (pos, pos + 3, unexpected_end)
                    | String d s4 =>
                        if continuation d then utf8_error (pos + 4) s4
                        else Some (pos, pos + 3, invalid_continuation)
                    end
              end
        end
      else Some (pos, pos + 1, invalid_start)
  end.

(** The bytes [s] are well-formed UTF-8. *)
Definition utf8 (s : string) : bool :=
  match utf8_error 0 s with None => true | Some _ => false end.

(** Text after the last ["/"]: [os.path.basename] on POSIX. *)
Fixpoint basename_from (acc s : string) : string :=
  match s with
  | EmptyString => acc
  | String c s' =>
      if Ascii.eqb c "/"%char then basename_from "" s'
      else basename_from (acc +:+ String c "") s'
  end.

Definition basename (s : string) : string := basename_from "" s.

(** Decimal rendering of a natural number, as in an f-string. *)
Definition of_nat (n : nat) : string := NilEmpty.string_of_uint (Nat.to_uint n).

Definition of_Z (n : Z) : string := NilZero.string_of_int (Z.to_int n).

Definition nonempty (s : string) : bool :=
  match s with EmptyString => false | _ => true end.

End Str.

(** ** Values produced by [json.loads] *)

(** A [JObj] lists a [dict]'s items in insertion order. *)
#[warnings="-register-all"]
Inductive json : Type :=
| JNull
| JBool (b : bool)
| JNum (n : Z)
| JStr (s : string)
| JArr (l : list json)
| JObj (kvs : list (string * json)).

(** ** Exceptions *)

Inductive exn : Type :=
| UnboundLocalError (var : string)
| KeyError (key : string)
| IndexError (msg : string)
| TypeError (msg : string)
| AttributeError (msg : string)
| EOFError
| FileNotFoundError (msg : string)
| OSError (msg : string)
| JSONDecodeError (msg : string)
| RequestException (msg : string)
| Unmodelled (what : string)
| UnicodeDecodeError (msg : string).

(** [str(e)] *)
Definition exn_str (e : exn) : string :=
  match e with
  | UnboundLocalError v =>
      "cannot access local variable '" +:+ v +:+ "' where it is not associated with a value"
  | KeyError k => k
  | IndexError m | TypeError m | AttributeError m
  | FileNotFoundError m | OSError m | JSONDecodeError m
  | RequestException m | Unmodelled m | UnicodeDecodeError m => m
  | EOFError => "EOF when reading a line"
  end.

(** ** Python's dynamic operations on JSON-born values *)

Module Py.

Definition type_name (v : json) : string :=
  match v with
  | JNull => "NoneType"
  | JBool _ => "bool"
  | JNum _ => "int"
  | JStr _ => "str"
  | JArr _ => "list"
  | JObj _ => "dict"
  end.

(** Truth value, as tested by [if v:] and [not v]. *)
Definition truthy (v : json) : bool :=
  match v with
  | JNull => false
  | JBool b => b
  | JNum n => negb (n =? 0)%Z
  | JStr s => Str.nonempty s
  | JArr l => match l with [] => false | _ => true end
  | JObj kvs => match kvs with [] => false | _ => true end
  end.

(** [v == "literal"] *)
Definition eq_str (v : json) (s : string) : bool :=
  match v with
  | JStr t => String.eqb t s
  | _ => false
  end.

Fixpoint lookup (kvs : list (string * json)) (k : string) : option json :=
  match kvs with
  | [] => None
  | (k', v) :: rest => if String.eqb k' k then Some v else lookup rest k
  end.

Definition no_attribute (v : json) (attr : string) : exn :=
  AttributeError ("'" +:+ type_name v +:+ "' object has no attribute '" +:+ attr +:+ "'").

(** [v.get(k, default)] *)
Definition get (v : json) (k : string) (default : json) : exn + json :=
  match v with
  | JObj kvs => inr (match lookup kvs k with Some x => x | None => default end)
  | _ => inl (no_attribute v "get")
  end.

(** [v.items()] *)
Definition items (v : json) : exn + list (string * json) :=
  match v with
  | JObj kvs => inr kvs
  | _ => inl (no_attribute v "items")
  end.

(** [v[k]] for a string key *)
Definition getitem (v : json) (k : string) : exn + json :=
  match v with
  | JObj kvs =>
      match lookup kvs k with
      | Some x => inr x
      | None => inl (KeyError ("'" +:+ k +:+ "'"))
      end
  | JArr _ => inl (TypeError "list indices must be integers or slices, not str")
  | JStr _ => inl (TypeError "string indices must be integers, not 'str'")
  | _ => inl (TypeError ("'" +:+ type_name v +:+ "' object is not subscriptable"))
  end.

(** [v[0]] *)
Definition getitem0 (v : json) : exn + json :=
  match v with
  | JObj _ => inl (KeyError "0")
  | JArr (x :: _) => inr x
  | JArr [] => inl (IndexError "list index out of range")
  | JStr (String c _) => inr (JStr (String c ""))
  | JStr EmptyString => inl (IndexError "string index out of range")
  | _ => inl (TypeError ("'" +:+ type_name v +:+ "' object is not subscriptable"))
  end.

(** [str(e)] of the [UnicodeDecodeError] for the bytes [b] in error from
    offset [start] up to [stop]. *)
Definition decode_errmsg (b : string) (start stop : nat) (reason : string) : string :=
  if (stop =? S start)%nat then
    "'utf-8' codec can't decode byte 0x"
    +:+ Str.hex2 (match String.get start b with Some c => Str.byte c | None => 0 end)
    +:+ " in position " +:+ Str.of_nat start +:+ ": " +:+ reason
  else
    "'utf-8' codec can't decode bytes in position " +:+ Str.of_nat start
    +:+ "-" +:+ Str.of_nat (stop - 1) +:+ ": " +:+ reason.

(** [b.decode()]: the text that the bytes [b] hold in UTF-8. *)
Definition decode (b : string) : exn + string :=
  match Str.utf8_error 0 b with
  | None => inr b
  | Some (start, stop, reason) => inl (UnicodeDecodeError (decode_errmsg b start stop reason))
  end.

Fixpoint chars (s : string) : list json :=
  match s with
  | EmptyString => []
  | String c s' => JStr (String c "") :: chars s'
  end.

(** The items a [for] loop over [v] visits. *)
Definition iter (v : json) : exn + list json :=
  match v with
  | JArr l => inr l
  | JObj kvs => inr (map (fun kv => JStr (fst kv)) kvs)
  | JStr s => inr (chars s)
  | _ => inl (TypeError ("'" +:+ type_name v +:+ "' object is not iterable"))
  end.

End Py.

(** ** Interfaces to the interpreter's libraries and to the system *)

(** The [json] module, and [str()] of a value. *)
Class Json := {
  json_dumps : json -> string;          (* json.dump(v, f, indent=2) text *)
  json_loads : string -> option json;   (* None: JSONDecodeError *)
  json_errmsg : string -> string;       (* str(e) of that error *)
  py_repr : json -> string              (* str(v) for a non-string v *)
}.

(** What the program relies on: a dumped document loads back. *)
Class JsonLaws (J : Json) : Prop := {
  json_loads_dumps : forall v, json_loads (json_dumps v) = Some v
}.

(** [pathlib] paths and the file system.  File-system calls either fail
    with an exception or give the next file system. *)
Class Os := {
  Path : Type;
  FS : Type;
  path_str : Path -> string;            (* str(p) *)
  path_of_str : string -> Path;         (* Path(s) *)
  path_div : Path -> string -> Path;    (* p / s *)
  path_parent : Path -> Path;           (* p.parent *)
  path_name : Path -> string;           (* p.name *)
  path_cwd : Path;                      (* Path.cwd() *)
  fs_exists : FS -> Path -> bool;       (* p.exists() *)
  fs_mkdir_p : FS -> Path -> exn + FS;  (* p.mkdir(parents=True, exist_ok=True) *)
  fs_open_w : FS -> Path -> exn + FS;   (* open(p, 'w'): create or truncate *)
  fs_write : FS -> Path -> string -> exn + FS;   (* f.write(s) on that handle *)
  fs_read : FS -> Path -> exn + string; (* open(p, 'r') and read it all *)
  fs_walk : FS -> Path -> list (string * list string * list string)  (* os.walk(p) *)
}.

Class OsLaws (O : Os) : Prop := {
  path_of_str_str : forall p, path_of_str (path_str p) = p;
  path_str_nonempty : forall p, path_str p <> "";
  fs_open_w_read : forall fs p fs',
    fs_open_w fs p = inr fs' -> fs_read fs' p = inr "" /\ fs_exists fs' p = true;
  fs_write_read : forall fs p s c fs',
    fs_write fs p s = inr fs' -> fs_read fs p = inr c ->
    fs_read fs' p = inr (c +:+ s) /\ fs_exists fs' p = true
}.

(** ** The remote endpoint *)

(** What one [requests.post] gives.  [NoResponse]: the call itself raised
    a [RequestException] (connection error, timeout) and returned no
    response object.  [Response http_error content]: a response arrived;
    [raise_for_status] raises an [HTTPError] with message [m] when
    [http_error = Some m]; [content] is the body. *)
Inductive Reply : Type :=
| NoResponse (err : string)
| Response (http_error : option string) (content : string).

(** ** Configuration *)

Definition MILESTONE_FILE : string := "milestones.json".
Definition STATE_FILE : string := "project_config.json".
Definition API_KEY_FILE : string := "api_key.txt".
Definition CREATE_DIR : string := "__CREATE_DIR__".

(** ** The system prompt *)

(** The double quote, which a string literal cannot hold. *)
Definition dq : string := String (ascii_of_nat 34) "".

(** [get_base_prompt()]: the first message of a new conversation. *)
Definition get_base_prompt : string :=
  Str.nl
  +:+ "You are a junior developer and project manager AI assistant. Your purpose is to assist a user in" +:+ Str.nl
  +:+ "creating, managing, and improving their projects on their local machine. You are conversational and helpful," +:+ Str.nl
  +:+ "but your primary function is to provide structured JSON responses that the user's CLI tool can" +:+ Str.nl
  +:+ "understand and act upon." +:+ Str.nl
  +:+ Str.nl
  +:+ "Your responses MUST be a single JSON object with three keys:" +:+ Str.nl
  +:+ "- " +:+ dq +:+ "message" +:+ dq +:+ ": A conversational, friendly string that briefly acknowledges the user's request. It should not contain a detailed description of the action, as the client application will handle that." +:+ Str.nl
  +:+ "- " +:+ dq +:+ "requires_approval" +:+ dq +:+ ": A boolean value. Set to 'true' if the action will modify the file system (e.g., creating a file). Set to 'false' for read-only actions (e.g., listing files or simple conversation)." +:+ Str.nl
  +:+ "- " +:+ dq +:+ "action" +:+ dq +:+ ": An object describing the file system operations to perform or a plan to follow." +:+ Str.nl
  +:+ Str.nl
  +:+ "The " +:+ dq +:+ "action" +:+ dq +:+ " object MUST have the following structure:" +:+ Str.nl
  +:+ "- " +:+ dq +:+ "command" +:+ dq +:+ ": A string. Valid commands are " +:+ dq +:+ "init_project" +:+ dq +:+ ", " +:+ dq +:+ "create_files" +:+ dq +:+ ", " +:+ dq +:+ "list_files" +:+ dq +:+ ", " +:+ dq +:+ "no_action" +:+ dq +:+ ", " +:+ dq +:+ "milestones" +:+ dq +:+ ", or " +:+ dq +:+ "create_presentation_plan" +:+ dq +:+ "." +:+ Str.nl
  +:+ "    - " +:+ dq +:+ "init_project" +:+ dq +:+ ": Sets up the new project directory and any initial files. This command should only be used as the very first action for a new project." +:+ Str.nl
  +:+ "    - " +:+ dq +:+ "create_files" +:+ dq +:+ ": Creates new files/directories and updates existing ones within the current project." +:+ Str.nl
  +:+ "    - " +:+ dq +:+ "list_files" +:+ dq +:+ ": Lists the contents of the project directory." +:+ Str.nl
  +:+ "    - " +:+ dq +:+ "no_action" +:+ dq +:+ ": The conversation continues without any file system changes." +:+ Str.nl
  +:+ "    - " +:+ dq +:+ "milestones" +:+ dq +:+ ": Acknowledges a request to manage milestones." +:+ Str.nl
  +:+ "    - " +:+ dq +:+ "create_presentation_plan" +:+ dq +:+ ": Creates a Markdown file with a presentation plan." +:+ Str.nl
  +:+ "- " +:+ dq +:+ "payload" +:+ dq +:+ ": An object containing the details for the command." +:+ Str.nl
  +:+ "    - If " +:+ dq +:+ "command" +:+ dq +:+ " is " +:+ dq +:+ "init_project" +:+ dq +:+ ", the payload is an object with a " +:+ dq +:+ "project_name" +:+ dq +:+ " key (e.g., " +:+ dq +:+ "new_app" +:+ dq +:+ ")." +:+ Str.nl
  +:+ "    - If " +:+ dq +:+ "command" +:+ dq +:+ " is " +:+ dq +:+ "create_files" +:+ dq +:+ ", the payload is an object where keys are file paths (e.g., " +:+ dq +:+ "src/main.py" +:+ dq +:+ ")" +:+ Str.nl
  +:+ "      and values are the content to be written. To explicitly create a directory, the value for the path should be the string " +:+ dq +:+ "__CREATE_DIR__" +:+ dq +:+ ". For an empty file, the value should be an empty string " +:+ dq +:+ dq +:+ "." +:+ Str.nl
  +:+ "    - If " +:+ dq +:+ "command" +:+ dq +:+ " is " +:+ dq +:+ "list_files" +:+ dq +:+ ", the payload is an object with a " +:+ dq +:+ "directory" +:+ dq +:+ " key (e.g., " +:+ dq +:+ "." +:+ dq +:+ ")." +:+ Str.nl
  +:+ "    - If " +:+ dq +:+ "command" +:+ dq +:+ " is " +:+ dq +:+ "no_action" +:+ dq +:+ ", the payload is an empty object `{}`." +:+ Str.nl
  +:+ "    - If " +:+ dq +:+ "command" +:+ dq +:+ " is " +:+ dq +:+ "milestones" +:+ dq +:+ ", the payload is an object with a " +:+ dq +:+ "milestones" +:+ dq +:+ " key, which is a list of milestone objects." +:+ Str.nl
  +:+ "      Each milestone object should have " +:+ dq +:+ "name" +:+ dq +:+ ", " +:+ dq +:+ "status" +:+ dq +:+ " (e.g., " +:+ dq +:+ "Not Started" +:+ dq +:+ ", " +:+ dq +:+ "In Progress" +:+ dq +:+ ", " +:+ dq +:+ "Complete" +:+ dq +:+ "), and " +:+ dq +:+ "notes" +:+ dq +:+ "." +:+ Str.nl
  +:+ "      The CLI will update a file named " +:+ dq +:+ MILESTONE_FILE +:+ dq +:+ " with this payload." +:+ Str.nl
  +:+ "    - If " +:+ dq +:+ "command" +:+ dq +:+ " is " +:+ dq +:+ "create_presentation_plan" +:+ dq +:+ ", the payload is an object with a " +:+ dq +:+ "title" +:+ dq +:+ ", " +:+ dq +:+ "audience" +:+ dq +:+ ", and " +:+ dq +:+ "slides" +:+ dq +:+ " key. The " +:+ dq +:+ "slides" +:+ dq +:+ Str.nl
  +:+ "      key is an array of slide objects, each having a " +:+ dq +:+ "heading" +:+ dq +:+ " and " +:+ dq +:+ "content" +:+ dq +:+ " key." +:+ Str.nl
  +:+ Str.nl
  +:+ "The user will provide you with file contents in the prompt when they ask you to review or test code." +:+ Str.nl
  +:+ "You can assume the existence of files named " +:+ dq +:+ MILESTONE_FILE +:+ dq +:+ " and a state file named " +:+ dq +:+ STATE_FILE +:+ dq +:+ " for tracking state." +:+ Str.nl
  +:+ "You can generate a README.md or CHANGELOG.md file by responding with a " +:+ dq +:+ "create_files" +:+ dq +:+ " command and a markdown payload when the user asks for project documentation." +:+ Str.nl
  +:+ "Start the conversation by greeting the user and asking them what they'd like to work on today." +:+ Str.nl.

(** ** Outcomes *)

(** [OutOfFuel]: the computation was still running when the fuel given to
    its loops ran out. *)
Inductive res (A : Type) : Type :=
| Ret (a : A)
| Raise (e : exn)
| OutOfFuel.
Arguments Ret {A} a.
Arguments Raise {A} e.
Arguments OutOfFuel {A}.

(** Local variables of the retry loop in [chat_with_ai]; [response] is
    [None] while the name is unbound. *)
Record locals : Type := mkLocals {
  retries : nat;
  response : option string
}.

Inductive iteration : Type :=
| Again (lv : locals)
| Returned (v : json).

(** Messages of the conversation, as the dictionaries the program builds. *)
Definition message (role text : string) : json :=
  JObj [("role", JStr role); ("parts", JArr [JObj [("text", JStr text)]])].

Definition decline_notice : string :=
  "I did not approve the previous action. Let's try something else.".

Section Program.

Context {Jsn : Json} {Sys : Os}.

(** The process: the world it acts on and its module globals. *)
Record St : Type := mkSt {
  fs : FS;                         (* the file system *)
  out : list string;               (* what was printed, oldest first *)
  inp : list string;               (* lines the operator will type *)
  sent : list (list json);         (* "contents" of each request posted *)
  slept : list Z;                  (* arguments of time.sleep, oldest first *)
  root_dir : option Path;          (* global root_dir *)
  chat_history : list json;        (* global chat_history *)
  API_KEY : option string          (* global API_KEY *)
}.

Definition set_fs (f : FS) (st : St) : St :=
  mkSt f (out st) (inp st) (sent st) (slept st) (root_dir st) (chat_history st) (API_KEY st).
Definition set_out (o : list string) (st : St) : St :=
  mkSt (fs st) o (inp st) (sent st) (slept st) (root_dir st) (chat_history st) (API_KEY st).
Definition set_inp (i : list string) (st : St) : St :=
  mkSt (fs st) (out st) i (sent st) (slept st) (root_dir st) (chat_history st) (API_KEY st).
Definition set_sent (s : list (list json)) (st : St) : St :=
  mkSt (fs st) (out st) (inp st) s (slept st) (root_dir st) (chat_history st) (API_KEY st).
Definition set_slept (s : list Z) (st : St) : St :=
  mkSt (fs st) (out st) (inp st) (sent st) s (root_dir st) (chat_history st) (API_KEY st).
Definition set_root_dir (r : option Path) (st : St) : St :=
  mkSt (fs st) (out st) (inp st) (sent st) (slept st) r (chat_history st) (API_KEY st).
Definition set_chat_history (h : list json) (st : St) : St :=
  mkSt (fs st) (out st) (inp st) (sent st) (slept st) (root_dir st) h (API_KEY st).
Definition set_API_KEY (k : option string) (st : St) : St :=
  mkSt (fs st) (out st) (inp st) (sent st) (slept st) (root_dir st) (chat_history st) k.

(** *** The monad of statements *)

Definition M (A : Type) : Type := St -> res A * St.

Definition ret {A} (a : A) : M A := fun st => (Ret a, st).
Definition raise {A} (e : exn) : M A := fun st => (Raise e, st).
Definition out_of_fuel {A} : M A := fun st => (OutOfFuel, st).

Definition bind {A B} (m : M A) (k : A -> M B) : M B :=
  fun st =>
    match m st with
    | (Ret a, st') => k a st'
    | (Raise e, st') => (Raise e, st')
    | (OutOfFuel, st') => (OutOfFuel, st')
    end.

(** [try: m  except Exception as e: h e] *)
Definition try_except {A} (m : M A) (h : exn -> M A) : M A :=
  fun st =>
    match m st with
    | (Raise e, st') => h e st'
    | r => r
    end.

(** An expression that may raise. *)
Definition lift {A} (x : exn + A) : M A :=
  match x with
  | inl e => raise e
  | inr a => ret a
  end.

Definition gets {A} (f : St -> A) : M A := fun st => (Ret (f st), st).
Definition modify (f : St -> St) : M unit := fun st => (Ret tt, f st).

End Program.

Declare Scope prog_scope.
Delimit Scope prog_scope with prog.
Notation "x <- m ;; k" := (bind m (fun x => k))
  (at level 100, m at next level, right associativity) : prog_scope.
Notation "m ;; k" := (bind m (fun _ => k))
  (at level 100, right associativity) : prog_scope.
Open Scope prog_scope.

Section Statements.

Context {Jsn : Json} {Sys : Os}.

(** [print(s)] *)
Definition print (s : string) : M unit :=
  modify (fun st => set_out (out st ++ [s]) st).

(** [input(prompt)]: [EOFError] when the operator has left. *)
Definition input (prompt : string) : M string :=
  fun st =>
    let st1 := set_out (out st ++ [prompt]) st in
    match inp st with
    | [] => (Raise EOFError, st1)
    | line :: rest => (Ret line, set_inp rest st1)
    end.

(** [time.sleep(n)] *)
Definition sleep (n : Z) : M unit :=
  modify (fun st => set_slept (slept st ++ [n]) st).

(** [chat_history.append(m)] *)
Definition history_append (m : json) : M unit :=
  modify (fun st => set_chat_history (chat_history st ++ [m]) st).

(** A file-system call on the process's file system. *)
Definition on_fs (op : FS -> exn + FS) : M unit :=
  fun st =>
    match op (fs st) with
    | inl e => (Raise e, st)
    | inr f => (Ret tt, set_fs f st)
  end.

Definition mkdir_p (p : Path) : M unit := on_fs (fun f => fs_mkdir_p f p).
Definition open_w (p : Path) : M unit := on_fs (fun f => fs_open_w f p).
Definition write (p : Path) (s : string) : M unit := on_fs (fun f => fs_write f p s).

Definition read_text (p : Path) : M string :=
  fun st =>
    match fs_read (fs st) p with
    | inl e => (Raise e, st)
    | inr s => (Ret s, st)
    end.

(** [str(v)] as used by f-strings and [print]. *)
Definition py_str (v : json) : string :=
  match v with
  | JStr s => s
  | _ => py_repr v
  end.

(** [str(root_dir)] when the global may be [None]. *)
Definition str_of_root (r : option Path) : string :=
  match r with
  | Some p => path_str p
  | None => "None"
  end.

End Statements.

(** ** The program *)

Section Persistence.

Context {Jsn : Json} {Sys : Os}.

(** The document [save_project_state] dumps. *)
Definition state_document (r : Path) (h : list json) : json :=
  JObj [("root_dir", JStr (path_str r)); ("chat_history", JArr h)].

Definition save_project_state : M unit :=
  rd <- gets root_dir;;
  match rd with
  | Some r =>
      h <- gets chat_history;;
      let state := state_document r h in
      let f := path_of_str STATE_FILE in
      open_w f;;
      write f (json_dumps state)
  | None => ret tt
  end.

(** [json.load(f)] *)
Definition json_load_text (text : string) : exn + json :=
  match json_loads text with
  | Some v => inr v
  | None => inl (JSONDecodeError (json_errmsg text))
  end.

Definition load_project_state : M bool :=
  files <- gets fs;;
  let f := path_of_str STATE_FILE in
  if fs_exists files f then
    text <- read_text f;;
    state <- lift (json_load_text text);;
    root_dir_str <- lift (Py.get state "root_dir" JNull);;
    (if Py.truthy root_dir_str then
       match root_dir_str with
       | JStr s => modify (set_root_dir (Some (path_of_str s)))
       | v => raise (TypeError ("expected str, bytes or os.PathLike object, not "
                                 +:+ Py.type_name v))
       end
     else ret tt);;
    h <- lift (Py.get state "chat_history" (JArr []));;
    match h with
    | JArr l => modify (set_chat_history l)
    | _ => raise (Unmodelled "chat_history loaded from the state file is not a list")
    end;;
    rd <- gets root_dir;;
    print ("Loaded project state from '" +:+ STATE_FILE
           +:+ "'. Current project directory is: " +:+ str_of_root rd);;
    print "Resuming previous conversation...";;
    ret true
  else ret false.

Definition load_api_key : M (option string) :=
  fun st =>
    match fs_read (fs st) (path_of_str API_KEY_FILE) with
    | inr text =>
        let key := Str.strip text in
        if negb (Str.nonempty key) || (Str.len key <? 30)%nat then
          (print ("Error: The API key in '" +:+ API_KEY_FILE
                  +:+ "' is invalid or incomplete.");;
           ret None) st
        else ret (Some key) st
    | inl (FileNotFoundError _) =>
        (print ("Error: The API key file '" +:+ API_KEY_FILE +:+ "' was not found.");;
         print ("Please create a file named '" +:+ API_KEY_FILE
                +:+ "' in this directory and paste your API key inside.");;
         ret None) st
    | inl e => (Raise e, st)
    end.

End Persistence.

Section Conversation.

Context {Jsn : Json} {Sys : Os}.

(** The remote endpoint: the reply to the [n]-th request of the run. *)
Variable srv : nat -> Reply.

(** [requests.post(...)]: the body carries the history as it is now. *)
Definition post : M Reply :=
  fun st => (Ret (srv (length (sent st))), set_sent (sent st ++ [chat_history st]) st).

Definition and_then {A B} (x : exn + A) (k : A -> exn + B) : exn + B :=
  match x with
  | inl e => inl e
  | inr a => k a
  end.

(** [response_json['candidates'][0]['content']['parts'][0]['text']] *)
Definition raw_content_of (response_json : json) : exn + json :=
  and_then (Py.getitem response_json "candidates") (fun c =>
  and_then (Py.getitem0 c) (fun c0 =>
  and_then (Py.getitem c0 "content") (fun ct =>
  and_then (Py.getitem ct "parts") (fun ps =>
  and_then (Py.getitem0 ps) (fun p0 =>
  Py.getitem p0 "text"))))).

(** [json.loads(raw_content)] *)
Definition loads_value (raw_content : json) : exn + (string * json) :=
  match raw_content with
  | JStr s =>
      match json_loads s with
      | Some v => inr (s, v)
      | None => inl (JSONDecodeError (json_errmsg s))
      end
  | v => inl (TypeError ("the JSON object must be str, bytes or bytearray, not "
                          +:+ Py.type_name v))
  end.

(** The statements of the [try] block after the post: the raw text and
    the parsed reply, or the exception raised.  [response.json()] on a
    body that is not JSON raises requests' own [JSONDecodeError], a
    [RequestException]. *)
Definition try_block (r : Reply) : exn + (string * json) :=
  match r with
  | NoResponse err => inl (RequestException err)
  | Response (Some err) _ => inl (RequestException err)
  | Response None content =>
      match json_loads content with
      | None => inl (RequestException (json_errmsg content))
      | Some response_json => and_then (raw_content_of response_json) loads_value
      end
  end.

(** The assignment [response = requests.post(...)] happens only when the
    call returns. *)
Definition assign_response (r : Reply) (lv : locals) : locals :=
  match r with
  | NoResponse _ => lv
  | Response _ content => mkLocals (retries lv) (Some content)
  end.

Definition retry_prompt (e : exn) : string :=
  "The previous response was not a valid JSON object. Please re-format your response into a single JSON object with 'message' and 'action' keys. The error was: "
  +:+ exn_str e.

(** One pass through the body of [while retries < 5]. *)
Definition loop_body (lv : locals) : M iteration :=
  r <- post;;
  let lv1 := assign_response r lv in
  match try_block r with
  | inr (raw_content, parsed_json) =>
      history_append (message "model" raw_content);;
      ret (Returned parsed_json)
  | inl (RequestException e) =>
      let n := S (retries lv1) in
      print ("API communication error (attempt " +:+ Str.of_nat n +:+ "/5): " +:+ e);;
      match response lv1 with
      | None => raise (UnboundLocalError "response")
      | Some content =>
          if Str.nonempty content
          then text <- lift (Py.decode content);;
               print ("Server response content: " +:+ text)
          else ret tt
      end;;
      sleep (2 ^ Z.of_nat n);;
      ret (Again (mkLocals n (response lv1)))
  | inl (JSONDecodeError m as e) | inl (KeyError m as e) =>
      print ("Error parsing API response: " +:+ exn_str e);;
      history_append (message "user" (retry_prompt e));;
      ret (Again lv1)
  | inl e => raise e
  end.

(** [while retries < 5: ...], then the fall-through [return None]. *)
Fixpoint retry_loop (fuel : nat) (lv : locals) : M json :=
  if (retries lv <? 5)%nat then
    match fuel with
    | O => out_of_fuel
    | S fuel' =>
        it <- loop_body lv;;
        match it with
        | Again lv' => retry_loop fuel' lv'
        | Returned v => ret v
        end
    end
  else
    print "Failed to get a valid response after multiple retries.";;
    ret JNull.

Definition chat_with_ai (fuel : nat) (user_input : string) : M json :=
  history_append (message "user" user_input);;
  retry_loop fuel (mkLocals 0 None).

End Conversation.

Section Executor.

Context {Jsn : Json} {Sys : Os}.

(** [p / v] for a value [v] taken from a payload. *)
Definition div_value (p : Path) (v : json) : exn + Path :=
  match v with
  | JStr s => inr (path_div p s)
  | _ => inl (TypeError ("unsupported operand type(s) for /: 'PosixPath' and '"
                          +:+ Py.type_name v +:+ "'"))
  end.

(** [f.write(v)] *)
Definition write_value (p : Path) (v : json) : M unit :=
  match v with
  | JStr s => write p s
  | JNull => raise (TypeError "write() argument must be str, not None")
  | _ => raise (TypeError ("write() argument must be str, not " +:+ Py.type_name v))
  end.

(** The body of the [for path, content in payload.items()] loop of
    create_files. *)
Definition create_item (root : Path) (path : string) (content : json) : M unit :=
  let item_path := path_div root path in
  if Py.eq_str content CREATE_DIR then
    mkdir_p item_path;;
    print ("  - Created directory: " +:+ path_str item_path)
  else
    mkdir_p (path_parent item_path);;
    open_w item_path;;
    write_value item_path content;;
    print ("  - Created file: " +:+ path_str item_path).

Fixpoint create_files_loop (root : Path) (items : list (string * json)) : M unit :=
  match items with
  | [] => ret tt
  | (path, content) :: rest =>
      create_item root path content;;
      create_files_loop root rest
  end.

Fixpoint insert_sorted {A} (key : A -> string) (x : A) (l : list A) : list A :=
  match l with
  | [] => [x]
  | y :: l' =>
      if String.ltb (key x) (key y) then x :: l
      else y :: insert_sorted key x l'
  end.

(** [sorted(l)], comparing entries by [key]. *)
Definition sorted {A} (key : A -> string) (l : list A) : list A :=
  fold_left (fun acc x => insert_sorted key x acc) l [].

Fixpoint print_each (prefix : string) (l : list string) : M unit :=
  match l with
  | [] => ret tt
  | x :: l' => print (prefix +:+ x);; print_each prefix l'
  end.

(** The [for item in sorted(os.walk(root_dir))] loop of list_files. *)
Fixpoint list_files_loop (root : Path)
    (items : list (string * list string * list string)) : M unit :=
  match items with
  | [] => ret tt
  | (dir, dirs, files) :: rest =>
      let level := Str.count "/" (Str.replace (path_str root) "" dir) in
      let indent := Str.repeat " " (4 * level) in
      print (indent +:+ Str.basename dir +:+ "/");;
      let subindent := Str.repeat " " (4 * (level + 1)) in
      print_each subindent (sorted (fun f => f) files);;
      list_files_loop root rest
  end.

(** The [for i, slide in enumerate(...)] loop of create_presentation_plan;
    [i] is the index of the first slide of [slides]. *)
Fixpoint write_slides (p : Path) (i : nat) (slides : list json) : M unit :=
  match slides with
  | [] => ret tt
  | slide :: rest =>
      heading <- lift (Py.get slide "heading" (JStr "Slide Heading"));;
      write p ("## Slide " +:+ Str.of_nat (i + 1) +:+ ": " +:+ py_str heading
               +:+ Str.nl +:+ Str.nl);;
      content <- lift (Py.get slide "content" (JStr "Slide content here."));;
      write p (py_str content +:+ Str.nl +:+ Str.nl +:+ "---" +:+ Str.nl +:+ Str.nl);;
      write_slides p (S i) rest
  end.

(** [title.replace(" ", "-").lower()] *)
Definition slugify (title : json) : exn + string :=
  match title with
  | JStr s => inr (Str.lower (Str.replace " " "-" s))
  | v => inl (Py.no_attribute v "replace")
  end.

Definition execute_action (action : json) : M unit :=
  command <- lift (Py.get action "command" JNull);;
  payload <- lift (Py.get action "payload" (JObj []));;
  if Py.eq_str command "init_project" then
    project_name <- lift (Py.get payload "project_name" JNull);;
    project_name <-
      (if Py.truthy project_name then ret project_name
       else s <- input "What's the name of the new project? ";; ret (JStr s));;
    r <- lift (div_value path_cwd project_name);;
    modify (set_root_dir (Some r));;
    mkdir_p r;;
    print ("Project directory created at: " +:+ path_str r);;
    save_project_state
  else if Py.eq_str command "create_files" then
    rd <- gets root_dir;;
    match rd with
    | None =>
        print "Error: You must first initialize a project. Please ask me to 'init_project' with a name."
    | Some root =>
        items <- lift (Py.items payload);;
        create_files_loop root items
    end
  else if Py.eq_str command "list_files" then
    rd <- gets root_dir;;
    match rd with
    | None => print "Please create a project first."
    | Some root =>
        print ("Directory structure for '" +:+ path_name root +:+ "':");;
        files <- gets fs;;
        list_files_loop root (sorted (fun it => fst (fst it)) (fs_walk files root))
    end
  else if Py.eq_str command "milestones" then
    rd <- gets root_dir;;
    match rd with
    | None => print "Please create a project first."
    | Some root =>
        let milestone_path := path_div root MILESTONE_FILE in
        try_except
          (open_w milestone_path;;
           write milestone_path (json_dumps payload);;
           print ("  - Updated milestones in '" +:+ path_str milestone_path +:+ "'"))
          (fun e => print ("Error writing to milestone file: " +:+ exn_str e))
    end
  else if Py.eq_str command "create_presentation_plan" then
    rd <- gets root_dir;;
    match rd with
    | None => print "Please create a project first."
    | Some root =>
        title <- lift (Py.get payload "title" (JStr "presentation-plan"));;
        title_slug <- lift (slugify title);;
        let presentation_path := path_div root (title_slug +:+ ".md") in
        try_except
          (open_w presentation_path;;
           title <- lift (Py.get payload "title" (JStr "Presentation Title"));;
           write presentation_path ("# " +:+ py_str title +:+ Str.nl);;
           audience <- lift (Py.get payload "audience" (JStr "General"));;
           write presentation_path
             ("**Audience:** " +:+ py_str audience
              +:+ Str.nl +:+ Str.nl +:+ "---" +:+ Str.nl +:+ Str.nl);;
           slides <- lift (Py.get payload "slides" (JArr []));;
           slides <- lift (Py.iter slides);;
           write_slides presentation_path 0 slides;;
           print ("  - Created presentation plan at: '"
                  +:+ path_str presentation_path +:+ "'"))
          (fun e => print ("Error writing presentation plan: " +:+ exn_str e))
    end
  else if Py.eq_str command "no_action" then
    ret tt
  else
    print ("Unknown command received from AI: " +:+ py_str command).

End Executor.

Section Main.

Context {Jsn : Json} {Sys : Os}.

Variable srv : nat -> Reply.

Definition paths_where (keep : json -> bool) (items : list (string * json)) : list string :=
  map fst (List.filter (fun kv => keep (snd kv)) items).

(** The description shown at the approval gate. *)
Definition action_description (command payload : json) : exn + string :=
  if Py.eq_str command "init_project" then
    and_then (Py.get payload "project_name" JNull) (fun project_name =>
    inr ("create the project directory named '" +:+ py_str project_name +:+ "'."))
  else if Py.eq_str command "create_files" then
    and_then (Py.items payload) (fun items =>
    let files_to_create := paths_where (fun c => negb (Py.eq_str c CREATE_DIR)) items in
    let dirs_to_create := paths_where (fun c => Py.eq_str c CREATE_DIR) items in
    match files_to_create, dirs_to_create with
    | _ :: _, _ :: _ =>
        inr ("create the following directories: " +:+ Str.join ", " dirs_to_create
             +:+ " and files: " +:+ Str.join ", " files_to_create +:+ ".")
    | _ :: _, [] =>
        inr ("create the following files: " +:+ Str.join ", " files_to_create +:+ ".")
    | [], _ :: _ =>
        inr ("create the following directories: " +:+ Str.join ", " dirs_to_create +:+ ".")
    | [], [] => inr ""
    end)
  else if Py.eq_str command "milestones" then
    inr "update the project milestones."
  else if Py.eq_str command "create_presentation_plan" then
    and_then (Py.get payload "title" (JStr "presentation plan")) (fun title =>
    inr ("create a Markdown file for the '" +:+ py_str title +:+ "' presentation."))
  else inr "".

(** The body of the main loop after [response = chat_with_ai(user_input)]. *)
Definition handle_response (response : json) : M unit :=
  if Py.truthy response then
    m <- lift (Py.getitem response "message");;
    print (Str.nl +:+ "AI: " +:+ py_str m);;
    action <- lift (Py.get response "action" JNull);;
    requires_approval <- lift (Py.get response "requires_approval" (JBool false));;
    if Py.truthy action && Py.truthy requires_approval then
      command <- lift (Py.get action "command" JNull);;
      payload <- lift (Py.get action "payload" (JObj []));;
      description <- lift (action_description command payload);;
      (if Str.nonempty description
       then print (Str.nl +:+ "With your approval, I will " +:+ description)
       else ret tt);;
      approval <- input "Do you approve this action? (y/n): ";;
      if String.eqb (Str.lower approval) "y" then
        execute_action action;;
        save_project_state
      else
        print "Action cancelled. Please provide new instructions.";;
        history_append (message "user" decline_notice)
    else if Py.truthy action then
      execute_action action;;
      save_project_state
    else ret tt
  else
    print "Sorry, I encountered an error. Please try again.".

(** [while True: ...]; [fuel] bounds the turns taken, and the passes of
    the retry loop within each turn. *)
Fixpoint main_loop (fuel : nat) : M unit :=
  match fuel with
  | O => out_of_fuel
  | S fuel' =>
      user_input <- input (Str.nl +:+ "You: ");;
      let cmd := Str.lower user_input in
      if String.eqb cmd "exit" || String.eqb cmd "quit" then
        print "Goodbye!"
      else
        response <- chat_with_ai srv fuel' user_input;;
        handle_response response;;
        main_loop fuel'
  end.

(** [base_prompt] is the text [get_base_prompt()] returns. *)
Definition main (base_prompt : string) (fuel : nat) : M unit :=
  key <- load_api_key;;
  modify (set_API_KEY key);;
  match key with
  | None => ret tt
  | Some _ =>
      loaded <- load_project_state;;
      (if loaded then ret tt
       else
         print "Welcome to the AI Dev Assistant! Type 'exit' to quit.";;
         history_append (message "user" base_prompt);;
         first_response <- chat_with_ai srv fuel "Greet me.";;
         if Py.truthy first_response then
           m <- lift (Py.getitem first_response "message");;
           print (Str.nl +:+ "AI: " +:+ py_str m)
         else ret tt);;
      main_loop fuel
  end.

End Main.

(** An action as the model sends it. *)
Definition action_of (command : string) (payload : json) : json :=
  JObj [("command", JStr command); ("payload", payload)].

(** ** A reference implementation of the interfaces

    A compact JSON codec and an in-memory POSIX-like file system, so that
    the program can be run on concrete inputs. *)

Module Ref.

(** *** Codec *)

(** A codec for the documents the program writes itself: [print_value]
    writes compact JSON, escaping the quote and the backslash, and [loads]
    reads back exactly such text ([RefFacts.codec_laws]).  On other texts
    it is not Python's [json]: white space between tokens and the escapes
    of control characters are not read, and a repeated key is kept. *)

Definition dquote : ascii := ascii_of_nat 34.
Definition backslash : ascii := ascii_of_nat 92.

Fixpoint escape (s : string) : string :=
  match s with
  | EmptyString => EmptyString
  | String c s' =>
      if Ascii.eqb c dquote || Ascii.eqb c backslash
      then String backslash (String c (escape s'))
      else String c (escape s')
  end.

Definition quote (s : string) : string :=
  String dquote (escape s +:+ String dquote "").

Definition print_items {A} (pr : A -> string) (close : string) : list A -> string :=
  fix tail (l : list A) : string :=
    match l with
    | [] => close
    | x :: l' => "," +:+ pr x +:+ tail l'
    end.

Definition print_list {A} (pr : A -> string) (close : string) (l : list A) : string :=
  match l with
  | [] => close
  | x :: l' => pr x +:+ print_items pr close l'
  end.

Fixpoint print_value (v : json) : string :=
  match v with
  | JNull => "null"
  | JBool true => "true"
  | JBool false => "false"
  | JNum n => Str.of_Z n
  | JStr s => quote s
  | JArr l => "[" +:+ print_list print_value "]" l
  | JObj kvs =>
      "{" +:+ print_list (fun kv => quote (fst kv) +:+ ":" +:+ print_value (snd kv)) "}" kvs
  end.

Fixpoint strip_prefix (p s : string) : option string :=
  match p, s with
  | EmptyString, _ => Some s
  | String a p', String b s' => if Ascii.eqb a b then strip_prefix p' s' else None
  | String _ _, EmptyString => None
  end.

(** After the opening quote: the text up to the closing quote. *)
Fixpoint parse_string_body (s : string) : option (string * string) :=
  match s with
  | EmptyString => None
  | String c r =>
      if Ascii.eqb c dquote then Some ("", r)
      else if Ascii.eqb c backslash then
        match r with
        | String d r' =>
            match parse_string_body r' with
            | Some (t, rest) => Some (String d t, rest)
            | None => None
            end
        | EmptyString => None
        end
      else
        match parse_string_body r with
        | Some (t, rest) => Some (String c t, rest)
        | None => None
        end
  end.

Definition is_digit (c : ascii) : bool :=
  let n := nat_of_ascii c in (48 <=? n)%nat && (n <=? 57)%nat.

Fixpoint take_digits (s : string) : string * string :=
  match s with
  | EmptyString => ("", "")
  | String c r =>
      if is_digit c
      then let (d, rest) := take_digits r in (String c d, rest)
      else ("", s)
  end.

Definition parse_number (s : string) : option (json * string) :=
  let (sign, body) :=
    match s with
    | String c r => if Ascii.eqb c "-" then ("-", r) else ("", s)
    | EmptyString => ("", s)
    end in
  let (ds, rest) := take_digits body in
  match ds with
  | EmptyString => None
  | _ =>
      match NilZero.int_of_string (sign +:+ ds) with
      | Some d => Some (JNum (Z.of_int d), rest)
      | None => None
      end
  end.

(** [item] ([,] [item])* [close] *)
Fixpoint parse_items {A} (item : string -> option (A * string)) (close : ascii)
    (n : nat) (s : string) : option (list A * string) :=
  match n with
  | O => None
  | S n' =>
      match item s with
      | Some (x, String c rest) =>
          if Ascii.eqb c close then Some ([x], rest)
          else if Ascii.eqb c "," then
            match parse_items item close n' rest with
            | Some (l, rest') => Some (x :: l, rest')
            | None => None
            end
          else None
      | _ => None
      end
  end.

Definition parse_member (value : string -> option (json * string)) (s : string)
    : option ((string * json) * string) :=
  match s with
  | String c r =>
      if Ascii.eqb c dquote then
        match parse_string_body r with
        | Some (k, String c' r') =>
            if Ascii.eqb c' ":" then
              match value r' with
              | Some (v, rest) => Some ((k, v), rest)
              | None => None
              end
            else None
        | _ => None
        end
      else None
  | EmptyString => None
  end.

Definition starts_with (c : ascii) (s : string) : bool :=
  match s with
  | String d _ => Ascii.eqb c d
  | EmptyString => false
  end.

Definition tail_of (s : string) : string :=
  match s with
  | String _ r => r
  | EmptyString => EmptyString
  end.

Fixpoint parse_value (fuel : nat) (s : string) : option (json * string) :=
  match fuel with
  | O => None
  | S f =>
      match s with
      | EmptyString => None
      | String c r =>
          if Ascii.eqb c "n" then option_map (pair JNull) (strip_prefix "ull" r)
          else if Ascii.eqb c "t" then option_map (pair (JBool true)) (strip_prefix "rue" r)
          else if Ascii.eqb c "f" then option_map (pair (JBool false)) (strip_prefix "alse" r)
          else if Ascii.eqb c dquote then
            match parse_string_body r with
            | Some (t, rest) => Some (JStr t, rest)
            | None => None
            end
          else if Ascii.eqb c "[" then
            if starts_with "]" r then Some (JArr [], tail_of r)
            else
              match parse_items (parse_value f) "]" f r with
              | Some (l, rest) => Some (JArr l, rest)
              | None => None
              end
          else if Ascii.eqb c "{" then
            if starts_with "}" r then Some (JObj [], tail_of r)
            else
              match parse_items (parse_member (parse_value f)) "}" f r with
              | Some (l, rest) => Some (JObj l, rest)
              | None => None
              end
          else parse_number s
      end
  end.

(** Vocabulary of the codec's correctness proof: texts made of digits,
    texts that cannot continue a number, characters that open a value. *)
Fixpoint all_digits (s : string) : bool :=
  match s with
  | EmptyString => true
  | String c r => is_digit c && all_digits r
  end.

Definition no_digit_ahead (s : string) : bool :=
  match s with
  | EmptyString => true
  | String c _ => negb (is_digit c)
  end.

Definition opens_value (c : ascii) : bool :=
  is_digit c || Ascii.eqb c "-" || Ascii.eqb c "n" || Ascii.eqb c "t"
  || Ascii.eqb c "f" || Ascii.eqb c dquote || Ascii.eqb c "[" || Ascii.eqb c "{".

(** Fuel that [parse_value] needs to read back the text of [v]. *)
Fixpoint size (v : json) : nat :=
  match v with
  | JArr l => S (fold_right (fun x n => S (size x + n)) 0 l)
  | JObj kvs => S (fold_right (fun kv n => S (size (snd kv) + n)) 0 kvs)
  | _ => 1
  end.

Definition loads (s : string) : option json :=
  match parse_value (S (String.length s)) s with
  | Some (v, EmptyString) => Some v
  | _ => None
  end.

Fixpoint contains (c : ascii) (s : string) : bool :=
  match s with
  | EmptyString => false
  | String d s' => Ascii.eqb c d || contains c s'
  end.

(** The body of [repr(s)] between the quotes [q], for ASCII text; the
    bytes of other characters are kept. *)
Fixpoint repr_body (q : ascii) (s : string) : string :=
  match s with
  | EmptyString => EmptyString
  | String c s' =>
      let n := nat_of_ascii c in
      (if Ascii.eqb c q || Ascii.eqb c backslash then String backslash (String c "")
       else if (n =? 9)%nat then String backslash "t"
       else if (n =? 10)%nat then String backslash "n"
       else if (n =? 13)%nat then String backslash "r"
       else if (n <? 32)%nat || (n =? 127)%nat then String backslash ("x" +:+ Str.hex2 n)
       else String c "")
      +:+ repr_body q s'
  end.

(** [repr(s)]: single quotes, unless the text holds one and no double
    quote. *)
Definition repr_str (s : string) : string :=
  let q := if contains "'" s && negb (contains dquote s) then dquote else "'"%char in
  String q (repr_body q s +:+ String q "").

(** [repr(v)], which is [str(v)] for a value that is not a text. *)
Fixpoint repr (v : json) : string :=
  match v with
  | JNull => "None"
  | JBool true => "True"
  | JBool false => "False"
  | JNum n => Str.of_Z n
  | JStr s => repr_str s
  | JArr l => "[" +:+ Str.join ", " (map repr l) +:+ "]"
  | JObj kvs =>
      "{" +:+ Str.join ", " (map (fun kv => repr_str (fst kv) +:+ ": " +:+ repr (snd kv)) kvs)
      +:+ "}"
  end.

#[export] Instance codec : Json := {|
  json_dumps := print_value;
  json_loads := loads;
  json_errmsg := fun _ => "Expecting value: line 1 column 1 (char 0)";
  py_repr := repr
|}.

(** *** Paths and files *)

(** A path is its text, which is never empty. *)
Definition path : Type := ascii * string.

Definition str (p : path) : string := String (fst p) (snd p).

Definition of_str (s : string) : path :=
  match s with
  | EmptyString => ("."%char, "")
  | String c r => (c, r)
  end.

Definition ends_with_slash (s : string) : bool :=
  match String.get (String.length s - 1) s with
  | Some c => Ascii.eqb c "/"
  | None => false
  end.

(** [p / s]: the texts joined by one ["/"], or [s] alone when it is
    absolute.  This is [pathlib] when [s] is a plain relative path
    ([plain]); ["."], doubled and trailing ["/"] are kept as they are. *)
Definition div (p : path) (s : string) : path :=
  match s with
  | EmptyString => p
  | String c _ =>
      if Ascii.eqb c "/" then of_str s
      else if ends_with_slash (str p) then of_str (str p +:+ s)
      else of_str (str p +:+ "/" +:+ s)
  end.

(** The components of a path text: the texts between its ["/"]. *)
Fixpoint components_from (acc s : string) : list string :=
  match s with
  | EmptyString => [acc]
  | String c s' =>
      if Ascii.eqb c "/" then acc :: components_from "" s'
      else components_from (acc +:+ String c "") s'
  end.

Definition components (s : string) : list string := components_from "" s.

(** A relative path text that [pathlib] keeps as it is, and that names its
    file by its text alone: no component is empty (so no ["/"] leads,
    trails or is doubled), ["."] or [".."]. *)
Definition plain (s : string) : bool :=
  forallb (fun c => negb (String.eqb c "" || String.eqb c "." || String.eqb c ".."))
    (components s).

(** [dirname_from seen pending s]: the text of [s] before its last ["/"],
    where [seen] is the prefix up to the last ["/"] met so far. *)
Fixpoint dirname_from (seen pending s : string) : string :=
  match s with
  | EmptyString => seen
  | String c s' =>
      if Ascii.eqb c "/" then dirname_from (seen +:+ pending) "/" s'
      else dirname_from seen (pending +:+ String c "") s'
  end.

Definition parent_str (s : string) : string :=
  match dirname_from "" "" s with
  | EmptyString => if starts_with "/" s then "/" else "."
  | d => d
  end.

Definition parent (p : path) : path := of_str (parent_str (str p)).

Definition cwd : path := of_str "/work".

Inductive node : Type :=
| Dir
| File (content : string).

(** Keys are absolute path texts. *)
Definition absolute (p : path) : string :=
  if starts_with "/" (str p) then str p else str (div cwd (str p)).

Fixpoint mkdir_from (fuel : nat) (files : gmap string node) (k : string)
    : exn + gmap string node :=
  match files !! k with
  | Some Dir => inr files
  | Some (File _) => inl (OSError ("[Errno 17] File exists: '" +:+ k +:+ "'"))
  | None =>
      match fuel with
      | O => inl (OSError ("[Errno 2] No such file or directory: '" +:+ k +:+ "'"))
      | S fuel' =>
          match mkdir_from fuel' files (parent_str k) with
          | inl e => inl e
          | inr files' => inr (<[k := Dir]> files')
          end
      end
  end.

Definition mkdir (files : gmap string node) (p : path) : exn + gmap string node :=
  mkdir_from (String.length (absolute p)) files (absolute p).

Definition open_for_writing (files : gmap string node) (p : path)
    : exn + gmap string node :=
  let k := absolute p in
  match files !! k with
  | Some Dir => inl (OSError ("[Errno 21] Is a directory: '" +:+ k +:+ "'"))
  | _ =>
      match files !! parent_str k with
      | Some Dir => inr (<[k := File ""]> files)
      | Some (File _) => inl (OSError ("[Errno 20] Not a directory: '" +:+ k +:+ "'"))
      | None =>
          inl (FileNotFoundError ("[Errno 2] No such file or directory: '" +:+ k +:+ "'"))
      end
  end.

Definition append_text (files : gmap string node) (p : path) (s : string)
    : exn + gmap string node :=
  let k := absolute p in
  match files !! k with
  | Some (File c) => inr (<[k := File (c +:+ s)]> files)
  | _ => inl (OSError "[Errno 9] Bad file descriptor")
  end.

Definition read (files : gmap string node) (p : path) : exn + string :=
  let k := absolute p in
  match files !! k with
  | Some (File c) => inr c
  | Some Dir => inl (OSError ("[Errno 21] Is a directory: '" +:+ k +:+ "'"))
  | None =>
      inl (FileNotFoundError ("[Errno 2] No such file or directory: '" +:+ k +:+ "'"))
  end.

Definition exists_ (files : gmap string node) (p : path) : bool :=
  match files !! absolute p with
  | Some _ => true
  | None => false
  end.

Definition children (files : gmap string node) (d : string) (dirs : bool) : list string :=
  map (fun kn => Str.basename (fst kn))
    (List.filter (fun kn : string * node =>
                    String.eqb (parent_str (fst kn)) d
                    && negb (String.eqb (fst kn) d)
                    && Bool.eqb (match snd kn with Dir => true | File _ => false end) dirs)
       (map_to_list files)).

Definition under (root k : string) : bool :=
  String.eqb root k || String.prefix (root +:+ "/") k.

Definition walk (files : gmap string node) (p : path)
    : list (string * list string * list string) :=
  let root := absolute p in
  map (fun kn => (fst kn, children files (fst kn) true, children files (fst kn) false))
    (List.filter (fun kn : string * node =>
                    under root (fst kn)
                    && match snd kn with Dir => true | File _ => false end)
       (map_to_list files)).

#[export] Instance os : Os := {|
  Path := path;
  FS := gmap string node;
  path_str := str;
  path_of_str := of_str;
  path_div := div;
  path_parent := parent;
  path_name := fun p => Str.basename (str p);
  path_cwd := cwd;
  fs_exists := exists_;
  fs_mkdir_p := mkdir;
  fs_open_w := open_for_writing;
  fs_write := append_text;
  fs_read := read;
  fs_walk := walk
|}.

(** No file holds the sentinel text in [files'] unless it already did in
    [files]. *)
Definition no_new_sentinel (files files' : gmap string node) : Prop :=
  forall k, files' !! k = Some (File CREATE_DIR) -> files !! k = Some (File CREATE_DIR).

(** Every directory of [files] is still one in [files']. *)
Definition dirs_kept (files files' : gmap string node) : Prop :=
  forall k, files !! k = Some Dir -> files' !! k = Some Dir.

(** [files'] is [files] with some missing directories created. *)
Definition only_adds_dirs (files files' : gmap string node) : Prop :=
  forall j, files' !! j = files !! j \/ (files !! j = None /\ files' !! j = Some Dir).

(** A change of the file system that creates no sentinel file and removes
    no directory. *)
Definition benign (files files' : gmap string node) : Prop :=
  no_new_sentinel files files' /\ dirs_kept files files'.

(** A fresh process in an empty working directory. *)
Definition disk : gmap string node := <["/work" := Dir]> (<["/" := Dir]> ∅).

Definition boot : St := mkSt disk [] [] [] [] None [] None.

(** *** Scenarios *)

(** The process after the model's [init_project] for a project "proj". *)
Definition project : St :=
  snd (execute_action (action_of "init_project" (JObj [("project_name", JStr "proj")]))
         boot).

Definition project_root : Path := of_str "/work/proj".

(** The body the endpoint sends when the model's text is [text]. *)
Definition envelope (text : string) : json :=
  JObj [("candidates",
         JArr [JObj [("content", JObj [("parts", JArr [JObj [("text", JStr text)]])])]])].

(** Every connection attempt is refused. *)
Definition server_down (n : nat) : Reply := NoResponse "Connection refused".

(** Every reply carries text that is not JSON. *)
Definition server_garbled (n : nat) : Reply :=
  Response None (print_value (envelope "oops")).

(** A reply that asks for approval before creating a file. *)
Definition approval_request : json :=
  JObj [("message", JStr "I will add a notes file.");
        ("requires_approval", JBool true);
        ("action", action_of "create_files" (JObj [("notes.txt", JStr "hi")]))].

(** A fresh process whose working directory holds a credible API key. *)
Definition keyed : St :=
  set_fs (<["/work/api_key.txt" := File "0123456789012345678901234567890123456789"]> disk)
    boot.

(** The reply of a well-behaved endpoint whose model answers [response]. *)
Definition reply_of (response : json) : Reply :=
  Response None (print_value (envelope (print_value response))).

Definition greeting : json :=
  JObj [("message", JStr "Hello!"); ("requires_approval", JBool false);
        ("action", action_of "no_action" (JObj []))].

Definition init_request : json :=
  JObj [("message", JStr "Creating."); ("requires_approval", JBool true);
        ("action", action_of "init_project" (JObj [("project_name", JStr "proj")]))].

(** Files to create, one of them below a path that is itself a file. *)
Definition clashing_files : list (string * json) :=
  [("a", JStr "x"); ("a/b", JStr "y"); ("c", JStr "z")].

Definition clash_request : json :=
  JObj [("message", JStr "ok"); ("requires_approval", JBool false);
        ("action", action_of "create_files" (JObj clashing_files))].

(** A session: greeting, project creation, then the clashing files. *)
Definition server_script (n : nat) : Reply :=
  match n with
  | 0 => reply_of greeting
  | 1 => reply_of init_request
  | _ => reply_of clash_request
  end.

End Ref.

(** ** Further scenarios on the reference implementation *)

Module Scenes.
Import Ref.

(** An endpoint that answers every request with an HTTP error. *)
Definition server_busy (n : nat) : Reply :=
  Response (Some "503 Server Error: Service Unavailable") "busy".

(** An endpoint that answers with an HTTP error and a body that is not
    UTF-8. *)
Definition server_binary (n : nat) : Reply :=
  Response (Some "500 Server Error: Internal Server Error") (String (ascii_of_nat 255) "").

(** Two HTTP errors, then the greeting. *)
Definition server_flaky (n : nat) : Reply :=
  if (n <? 2)%nat then server_busy n else reply_of greeting.

(** Two replies whose text is not JSON, then the greeting. *)
Definition server_confused (n : nat) : Reply :=
  if (n <? 2)%nat then server_garbled n else reply_of greeting.

(** An endpoint whose model always greets. *)
Definition server_greets (n : nat) : Reply := reply_of greeting.

(** A process whose project root names a directory that is not there. *)
Definition gone_root : Path := of_str "/work/gone".

Definition lost : St := set_root_dir (Some gone_root) boot.

(** A working directory where "notes" is a file. *)
Definition cluttered : St := set_fs (<["/work/notes" := File "x"]> disk) boot.

(** A working directory with a key and a state file holding [text]. *)
Definition restarted (text : string) : St :=
  set_fs (<["/work/project_config.json" := File text]> (fs keyed)) boot.

(** The project "proj" created by a process that has its key file. *)
Definition keyed_project : St :=
  snd (execute_action (action_of "init_project" (JObj [("project_name", JStr "proj")]))
         keyed).

(** A key file as an editor leaves it: a space before the key, a line end
    after it. *)
Definition padded_key : St :=
  set_fs (<["/work/api_key.txt" :=
            File (" 0123456789012345678901234567890123456789" +:+ Str.nl)]> disk) boot.

(** A key file with 29 letters between two unit separators (U+001F). *)
Definition unit_separator : string := String (ascii_of_nat 31) "".

Definition short_key : St :=
  set_fs (<["/work/api_key.txt" :=
            File (unit_separator +:+ "abcdefghijklmnopqrstuvwxyzabc" +:+ unit_separator)]>
            disk) boot.

(** A reply that carries an action but no message. *)
Definition mute_reply : json :=
  JObj [("requires_approval", JBool false); ("action", action_of "no_action" (JObj []))].

End Scenes.

(** ** Vocabulary of the properties *)

(** The commands that work inside the project directory. *)
Definition needs_root (command : string) : Prop :=
  In command ["create_files"; "list_files"; "milestones"; "create_presentation_plan"].

Section Observations.

Context {Jsn : Json} {Sys : Os}.

(** The operator's next answer is an approval. *)
Definition affirmed (st : St) : Prop :=
  exists a rest, inp st = a :: rest /\ Str.lower a = "y".

(** Between [st] and [st'] the operator gave one answer, and it was not an
    approval. *)
Definition declined (st st' : St) : Prop :=
  exists a, inp st = a :: inp st' /\ Str.lower a <> "y".

(** What the executor prints after writing the milestone file. *)
Definition milestones_report (root : Path) : string :=
  "  - Updated milestones in '" +:+ path_str (path_div root MILESTONE_FILE) +:+ "'".

(** What the executor prints after writing a presentation plan. *)
Definition presentation_report (p : Path) : string :=
  "  - Created presentation plan at: '" +:+ path_str p +:+ "'".

(** The document held by the state file, if it can be read and decoded. *)
Definition persisted (files : FS) : option json :=
  match fs_read files (path_of_str STATE_FILE) with
  | inr text => json_loads text
  | inl _ => None
  end.

(** The state file records the globals of [st]. *)
Definition in_sync (st : St) : Prop :=
  exists r, root_dir st = Some r
            /\ persisted (fs st) = Some (state_document r (chat_history st)).

(** The document held by the milestone file of the project at [root]. *)
Definition stored_milestones (root : Path) (files : FS) : option json :=
  match fs_read files (path_div root MILESTONE_FILE) with
  | inr text => json_loads text
  | inl _ => None
  end.

(** [f.write] of each chunk in turn on an open file. *)
Fixpoint write_all (files : FS) (p : Path) (chunks : list string) : exn + FS :=
  match chunks with
  | [] => inr files
  | c :: rest =>
      match fs_write files p c with
      | inl e => inl e
      | inr files' => write_all files' p rest
      end
  end.

(** The delays slept by [k] failed attempts after [done] earlier ones. *)
Fixpoint backoff (done k : nat) : list Z :=
  match k with
  | O => []
  | S k' => (2 ^ Z.of_nat (S done))%Z :: backoff (S done) k'
  end.

(** The reply makes the [try] block end in the handler that asks the
    model to re-format. *)
Definition reply_malformed (r : Reply) : bool :=
  match try_block r with
  | inl (JSONDecodeError _) | inl (KeyError _) => true
  | _ => false
  end.

End Observations.

(** *** Vocabulary of the further properties *)

Section MoreObservations.

Context {Jsn : Json} {Sys : Os}.

(** A response object arrived, the [try] block ended in the handler for
    transport errors (an HTTP error status, or a body that is not JSON),
    and the handler can show the body: its bytes are UTF-8. *)
Definition exchange_failed (r : Reply) : bool :=
  match r with
  | NoResponse _ => false
  | Response _ content =>
      Str.utf8 content
      && match try_block r with
         | inl (RequestException _) => true
         | _ => false
         end
  end.

(** A message that asks the model to re-format its last reply. *)
Definition corrective (m : json) : Prop :=
  exists e, m = message "user" (retry_prompt e).

(** The line printed when the retry loop falls through. *)
Definition failure_notice : string :=
  "Failed to get a valid response after multiple retries.".

(** Between [st] and [st'] the conversation, the network, the clock and
    the key were left alone, and the console only gained lines. *)
Definition quiet (st st' : St) : Prop :=
  chat_history st' = chat_history st /\ sent st' = sent st
  /\ slept st' = slept st /\ API_KEY st' = API_KEY st
  /\ exists lines, out st' = out st ++ lines.

(** Moreover the project root is the same and no input was read. *)
Definition steady (st st' : St) : Prop :=
  quiet st st' /\ root_dir st' = root_dir st /\ inp st' = inp st.

(** The commands whose branch of [execute_action] calls the file system
    for writing. *)
Definition writes_files (command : json) : bool :=
  Py.eq_str command "init_project" || Py.eq_str command "create_files"
  || Py.eq_str command "milestones" || Py.eq_str command "create_presentation_plan".

(** The text of one slide section of a presentation plan; [i] counts the
    slides before it. *)
Definition slide_text (i : nat) (slide : json) : exn + string :=
  and_then (Py.get slide "heading" (JStr "Slide Heading")) (fun heading =>
  and_then (Py.get slide "content" (JStr "Slide content here.")) (fun content =>
  inr ("## Slide " +:+ Str.of_nat (i + 1) +:+ ": " +:+ py_str heading
       +:+ Str.nl +:+ Str.nl
       +:+ py_str content +:+ Str.nl +:+ Str.nl +:+ "---" +:+ Str.nl +:+ Str.nl))).

Fixpoint slides_text (i : nat) (slides : list json) : exn + string :=
  match slides with
  | [] => inr ""
  | slide :: rest =>
      and_then (slide_text i slide) (fun a =>
      and_then (slides_text (S i) rest) (fun b => inr (a +:+ b)))
  end.

(** The Markdown document create_presentation_plan means to write. *)
Definition plan_text (payload : json) : exn + string :=
  and_then (Py.get payload "title" (JStr "Presentation Title")) (fun title =>
  and_then (Py.get payload "audience" (JStr "General")) (fun audience =>
  and_then (Py.get payload "slides" (JArr [])) (fun slides =>
  and_then (Py.iter slides) (fun slides =>
  and_then (slides_text 0 slides) (fun body =>
  inr ("# " +:+ py_str title +:+ Str.nl
       +:+ "**Audience:** " +:+ py_str audience
       +:+ Str.nl +:+ Str.nl +:+ "---" +:+ Str.nl +:+ Str.nl
       +:+ body)))))).

(** The file create_presentation_plan writes for a title. *)
Definition plan_path (root : Path) (title : string) : Path :=
  path_div root (Str.lower (Str.replace " " "-" title) +:+ ".md").


(** In the order of [sorted], [a] does not come after [b]. *)
Definition not_after {A} (key : A -> string) (a b : A) : Prop :=
  String.ltb (key b) (key a) = false.

(** The lines list_files prints for one entry of [os.walk]: the directory,
    then its files. *)
Definition dir_lines (root : Path) (it : string * list string * list string)
    : list string :=
  let level := Str.count "/" (Str.replace (path_str root) "" (fst (fst it))) in
  (Str.repeat " " (4 * level) +:+ Str.basename (fst (fst it)) +:+ "/")
  :: map (fun f => Str.repeat " " (4 * (level + 1)) +:+ f)
       (sorted (fun f => f) (snd it)).

End MoreObservations.

(** ** The examples of the specification *)

Definition mvp : json :=
  JObj [("name", JStr "MVP"); ("status", JStr "In Progress"); ("notes", JStr "half done")].

Definition mvp_payload : json := JObj [("milestones", JArr [mvp])].

Definition q3_payload : json :=
  JObj [("title", JStr "Q3 Review"); ("audience", JStr "Execs");
        ("slides", JArr [JObj [("heading", JStr "Intro"); ("content", JStr "Hello")]])].

Definition q3_document : string :=
  "# Q3 Review" +:+ Str.nl
  +:+ "**Audience:** Execs" +:+ Str.nl +:+ Str.nl
  +:+ "---" +:+ Str.nl +:+ Str.nl
  +:+ "## Slide 1: Intro" +:+ Str.nl +:+ Str.nl
  +:+ "Hello" +:+ Str.nl +:+ Str.nl
  +:+ "---" +:+ Str.nl +:+ Str.nl.

(** * Properties *)

#[local] Arguments String.append !s1 s2 : simpl nomatch.

(** ** Facts about strings *)

Lemma append_assoc (a b c : string) : (a +:+ b) +:+ c = a +:+ (b +:+ c).
Proof. induction a as [|x a IH]; simpl; [reflexivity | now rewrite IH]. Qed.

Lemma append_nil_r (a : string) : a +:+ "" = a.
Proof. induction a as [|x a IH]; simpl; [reflexivity | now rewrite IH]. Qed.

Lemma length_append (a b : string) :
  String.length (a +:+ b) = String.length a + String.length b.
Proof. induction a as [|x a IH]; simpl; [reflexivity | now rewrite IH]. Qed.

Module RefFacts.
Import Ref.

Lemma json_induction (P : json -> Prop) :
  P JNull -> (forall b, P (JBool b)) -> (forall n, P (JNum n)) ->
  (forall s, P (JStr s)) ->
  (forall l, Forall P l -> P (JArr l)) ->
  (forall kvs, Forall (fun kv => P (snd kv)) kvs -> P (JObj kvs)) ->
  forall v, P v.
Proof.
  intros Hnull Hbool Hnum Hstr Harr Hobj.
  fix IH 1. intros [ | b | n | s | l | kvs ].
  - exact Hnull.
  - apply Hbool.
  - apply Hnum.
  - apply Hstr.
  - apply Harr. induction l as [|x l IHl]; constructor; [apply IH | exact IHl].
  - apply Hobj. induction kvs as [|[k x] kvs IHl]; constructor; [apply IH | exact IHl].
Qed.

(** *** Strings *)

Lemma parse_string_body_escape (s rest : string) :
  parse_string_body (escape s +:+ String dquote rest) = Some (s, rest).
Proof.
  induction s as [|c s IH]; simpl.
  - reflexivity.
  - destruct (Ascii.eqb c dquote) eqn:Hq; simpl.
    + apply Ascii.eqb_eq in Hq. subst c. simpl. now rewrite IH.
    + destruct (Ascii.eqb c backslash) eqn:Hb; simpl.
      * now rewrite IH.
      * rewrite Hq, Hb. now rewrite IH.
Qed.

Lemma parse_quote (s rest : string) :
  exists body, quote s +:+ rest = String dquote body
               /\ parse_string_body body = Some (s, rest).
Proof.
  exists (escape s +:+ String dquote rest). split.
  - unfold quote. simpl. now rewrite append_assoc.
  - apply parse_string_body_escape.
Qed.

(** *** Numbers *)

Lemma take_digits_app (a rest : string) :
  all_digits a = true -> no_digit_ahead rest = true ->
  take_digits (a +:+ rest) = (a, rest).
Proof.
  intros Ha Hr. induction a as [|c a IH]; simpl in *.
  - destruct rest as [|d rest]; [reflexivity|]. simpl in *.
    destruct (is_digit d); [discriminate | reflexivity].
  - apply andb_true_iff in Ha as [Hc Ha]. rewrite Hc, (IH Ha). reflexivity.
Qed.

Lemma string_of_uint_digits (d : Decimal.uint) :
  all_digits (NilEmpty.string_of_uint d) = true.
Proof. induction d; simpl; auto. Qed.

Lemma string_of_uint_nonempty (d : Decimal.uint) :
  d <> Decimal.Nil ->
  exists c r, NilEmpty.string_of_uint d = String c r /\ Ascii.eqb c "-" = false.
Proof. destruct d; intros H; [congruence | ..]; simpl; eauto. Qed.

Lemma parse_number_print (n : Z) (rest : string) :
  no_digit_ahead rest = true ->
  parse_number (Str.of_Z n +:+ rest) = Some (JNum n, rest).
Proof.
  intros Hr. unfold Str.of_Z.
  assert (Hpos : forall d, d <> Decimal.Nil ->
            parse_number (NilEmpty.string_of_uint d +:+ rest)
            = option_map (fun i => (JNum (Z.of_int i), rest))
                (NilZero.int_of_string (NilEmpty.string_of_uint d))).
  { intros d Hd. destruct (string_of_uint_nonempty d Hd) as (c & r & E & Hc).
    unfold parse_number. pose proof (string_of_uint_digits d) as Hdig.
    rewrite E in *. pose proof (take_digits_app _ _ Hdig Hr) as Ht.
    change (String c r +:+ rest) with (String c (r +:+ rest)) in Ht.
    simpl. rewrite Hc, Ht. simpl. rewrite Hc.
    destruct (NilZero.uint_of_string (String c r)); reflexivity. }
  assert (Hneg : forall d, d <> Decimal.Nil ->
            parse_number (String "-" (NilEmpty.string_of_uint d) +:+ rest)
            = option_map (fun i => (JNum (Z.of_int i), rest))
                (NilZero.int_of_string (String "-" (NilEmpty.string_of_uint d)))).
  { intros d Hd. destruct (string_of_uint_nonempty d Hd) as (c & r & E & Hc).
    unfold parse_number. pose proof (string_of_uint_digits d) as Hdig.
    rewrite E in *. pose proof (take_digits_app _ _ Hdig Hr) as Ht.
    simpl in Ht |- *. rewrite Ht. simpl.
    destruct (NilZero.uint_of_string (String c r)); reflexivity. }
  assert (E : forall p, NilZero.string_of_uint (Pos.to_uint p)
                        = NilEmpty.string_of_uint (Pos.to_uint p)).
  { intros p. pose proof (DecimalPos.Unsigned.to_uint_nonnil p) as Hp.
    destruct (Pos.to_uint p); [contradiction | reflexivity ..]. }
  pose proof (DecimalZ.of_to n) as Hn.
  pose proof (NilZero.isi (Z.to_int n)) as Hisi.
  destruct n as [|p|p].
  - change (NilZero.string_of_int (Z.to_int 0))
      with (NilEmpty.string_of_uint (Decimal.D0 Decimal.Nil)).
    rewrite Hpos by discriminate. reflexivity.
  - change (NilZero.string_of_int (Z.to_int (Z.pos p)))
      with (NilZero.string_of_uint (Pos.to_uint p)) in *.
    rewrite E in *.
    rewrite Hpos by apply DecimalPos.Unsigned.to_uint_nonnil.
    pose proof (DecimalPos.Unsigned.to_uint_nonnil p) as Hp.
    rewrite Hisi by (simpl; congruence).
    cbn [option_map]. now rewrite Hn.
  - change (NilZero.string_of_int (Z.to_int (Z.neg p)))
      with (String "-" (NilZero.string_of_uint (Pos.to_uint p))) in *.
    rewrite E in *.
    rewrite Hneg by apply DecimalPos.Unsigned.to_uint_nonnil.
    pose proof (DecimalPos.Unsigned.to_uint_nonnil p) as Hp.
    rewrite Hisi by (simpl; congruence).
    cbn [option_map]. now rewrite Hn.
Qed.

(** *** Lists of items *)

Lemma parse_items_print {A} (item : string -> option (A * string))
    (pr : A -> string) (close : ascii) (l : list A) :
  Ascii.eqb "," close = false -> is_digit close = false ->
  forall x n rest,
    (forall y rest', In y (x :: l) -> no_digit_ahead rest' = true ->
                     item (pr y +:+ rest') = Some (y, rest')) ->
    length l < n ->
    parse_items item close n
      (pr x +:+ print_items pr (String close "") l +:+ rest)
    = Some (x :: l, rest).
Proof.
  intros Hsep Hclose. induction l as [|y l IH]; intros x n rest Hitem Hn.
  - destruct n as [|n]; [lia|]. simpl.
    rewrite Hitem; [| now left | simpl; now rewrite Hclose].
    now rewrite Ascii.eqb_refl.
  - destruct n as [|n]; [simpl in Hn; lia|].
    cbn [print_items parse_items].
    change ((("," +:+ pr y +:+ print_items pr (String close "") l) +:+ rest))
      with (String "," ((pr y +:+ print_items pr (String close "") l) +:+ rest)).
    rewrite Hitem; [| now left | reflexivity].
    rewrite Hsep, Ascii.eqb_refl.
    rewrite append_assoc, IH; [reflexivity | | simpl in Hn; lia].
    intros z rest' Hz. apply Hitem. now right.
Qed.

(** *** First characters *)

Lemma of_Z_head (n : Z) :
  exists c r, Str.of_Z n = String c r /\ (is_digit c = true \/ c = "-"%char).
Proof.
  unfold Str.of_Z. destruct n as [|p|p].
  - exists "0"%char, "". split; [reflexivity | now left].
  - pose proof (DecimalPos.Unsigned.to_uint_nonnil p) as Hp.
    pose proof (string_of_uint_digits (Pos.to_uint p)) as Hd.
    simpl. destruct (Pos.to_uint p); [contradiction | ..];
      simpl in *; eexists _, _; (split; [reflexivity | now left]).
  - eexists _, _. split; [reflexivity | now right].
Qed.

Lemma print_value_head (v : json) :
  exists c r, print_value v = String c r /\ opens_value c = true.
Proof.
  destruct v as [ | [|] | n | s | l | kvs ]; try (eexists _, _; split; reflexivity).
  destruct (of_Z_head n) as (c & r & E & [Hc | Hc]); exists c, r; split; auto.
  - unfold opens_value. now rewrite Hc.
  - subst c. reflexivity.
Qed.

Lemma starts_with_print (k : ascii) (v : json) (tail : string) :
  opens_value k = false -> starts_with k (print_value v +:+ tail) = false.
Proof.
  intros Hk. destruct (print_value_head v) as (c & r & E & Hc). rewrite E.
  change (String c r +:+ tail) with (String c (r +:+ tail)).
  unfold starts_with. destruct (Ascii.eqb k c) eqn:Ec; [|reflexivity].
  apply Ascii.eqb_eq in Ec. congruence.
Qed.

Lemma parse_value_number (f : nat) (c : ascii) (r : string) :
  is_digit c = true \/ c = "-"%char ->
  parse_value (S f) (String c r) = parse_number (String c r).
Proof.
  intros Hc. cbn [parse_value].
  repeat match goal with
  | |- context [Ascii.eqb c ?k] =>
      let E := fresh "E" in
      destruct (Ascii.eqb c k) eqn:E;
        [apply Ascii.eqb_eq in E; subst c; destruct Hc; discriminate |]
  end.
  reflexivity.
Qed.

(** *** Fuel *)

Lemma size_in_arr (l : list json) (y : json) :
  In y l -> size y < fold_right (fun x n => S (size x + n)) 0 l.
Proof.
  induction l as [|x l IH]; simpl; [tauto|]. intros [-> | H]; [lia|].
  specialize (IH H). lia.
Qed.

Lemma length_le_arr (l : list json) :
  length l <= fold_right (fun x n => S (size x + n)) 0 l.
Proof. induction l; simpl; lia. Qed.

Lemma size_in_obj (kvs : list (string * json)) (kv : string * json) :
  In kv kvs -> size (snd kv) < fold_right (fun kv n => S (size (snd kv) + n)) 0 kvs.
Proof.
  induction kvs as [|x l IH]; simpl; [tauto|]. intros [-> | H]; [lia|].
  specialize (IH H). lia.
Qed.

Lemma length_le_obj (kvs : list (string * json)) :
  length kvs <= fold_right (fun kv n => S (size (snd kv) + n)) 0 kvs.
Proof. induction kvs; simpl; lia. Qed.

(** *** Reading back what was printed *)

Lemma parse_member_print (value : string -> option (json * string))
    (kv : string * json) (rest : string) :
  value (print_value (snd kv) +:+ rest) = Some (snd kv, rest) ->
  parse_member value ((quote (fst kv) +:+ ":" +:+ print_value (snd kv)) +:+ rest)
  = Some (kv, rest).
Proof.
  intros Hv. destruct kv as [k v]. cbn [fst snd] in *.
  destruct (parse_quote k ((":" +:+ print_value v) +:+ rest)) as (body & E & Hb).
  rewrite append_assoc, E. unfold parse_member.
  rewrite Ascii.eqb_refl, Hb.
  change ((":" +:+ print_value v) +:+ rest)
    with (String ":" (print_value v +:+ rest)).
  cbv beta iota. now rewrite Ascii.eqb_refl, Hv.
Qed.

Lemma parse_print (v : json) :
  forall fuel rest,
    size v <= fuel -> no_digit_ahead rest = true ->
    parse_value fuel (print_value v +:+ rest) = Some (v, rest).
Proof.
  induction v as [ | b | n | s | l IH | kvs IH ] using json_induction;
    intros [|f] rest Hf Hr; try (simpl in Hf; lia).
  - reflexivity.
  - destruct b; reflexivity.
  - destruct (of_Z_head n) as (c & r & E & Hc).
    pose proof (parse_number_print n rest Hr) as Hn.
    cbn [print_value]. rewrite E in *.
    change (String c r +:+ rest) with (String c (r +:+ rest)) in *.
    now rewrite parse_value_number.
  - cbn [print_value].
    destruct (parse_quote s rest) as (body & E & Hb). rewrite E.
    cbn [parse_value]. change (Ascii.eqb dquote "n") with false.
    change (Ascii.eqb dquote "t") with false.
    change (Ascii.eqb dquote "f") with false.
    cbn iota. now rewrite Ascii.eqb_refl, Hb.
  - cbn [print_value size] in *.
    change (("[" +:+ print_list print_value "]" l) +:+ rest)
      with (String "[" (print_list print_value "]" l +:+ rest)).
    cbn [parse_value]. cbn.
    destruct l as [|x l]; [reflexivity|].
    cbn [print_list].
    rewrite append_assoc, starts_with_print by reflexivity.
    rewrite (parse_items_print (parse_value f) print_value "]" l); try reflexivity.
    + intros y rest' Hy Hr'. rewrite Forall_forall in IH.
      apply IH; [now apply list_elem_of_In | | assumption].
      pose proof (size_in_arr (x :: l) y Hy). lia.
    + pose proof (length_le_arr (x :: l)). simpl in *. lia.
  - cbn [print_value size] in *.
    set (pr := fun kv : string * json => quote (fst kv) +:+ ":" +:+ print_value (snd kv)).
    change (("{" +:+ print_list pr "}" kvs) +:+ rest)
      with (String "{" (print_list pr "}" kvs +:+ rest)).
    cbn [parse_value]. cbn.
    destruct kvs as [|x l]; [reflexivity|].
    cbn [print_list].
    assert (Hs : starts_with "}" ((pr x +:+ print_items pr "}" l) +:+ rest) = false).
    { reflexivity. }
    rewrite Hs, append_assoc.
    rewrite (parse_items_print (parse_member (parse_value f)) pr "}" l); try reflexivity.
    + intros y rest' Hy Hr'. apply parse_member_print.
      rewrite Forall_forall in IH.
      apply IH; [now apply list_elem_of_In | | assumption].
      pose proof (size_in_obj (x :: l) y Hy). lia.
    + pose proof (length_le_obj (x :: l)). simpl in *. lia.
Qed.

Lemma length_print_list {A} (pr : A -> string) (sz : A -> nat) (l : list A) :
  Forall (fun x => sz x <= String.length (pr x)) l ->
  fold_right (fun x n => S (sz x + n)) 0 l
  <= String.length (print_list pr (String "]" "") l)
  /\ fold_right (fun x n => S (sz x + n)) 0 l
     <= String.length (print_list pr (String "}" "") l).
Proof.
  intros H. destruct l as [|x l]; [simpl; lia|].
  inversion H as [|? ? Hx Hl]; subst. cbn [print_list fold_right].
  rewrite !length_append.
  assert (forall close, fold_right (fun x n => S (sz x + n)) 0 l
            < String.length (print_items pr (String close "") l)) as Htail.
  { intros close. clear Hx H. induction Hl as [|y l Hy Hl IH]; [simpl; lia|].
    cbn [print_items fold_right].
    change (String.length ("," +:+ pr y +:+ print_items pr (String close "") l))
      with (S (String.length (pr y +:+ print_items pr (String close "") l))).
    rewrite length_append. lia. }
  pose proof (Htail "]"%char). pose proof (Htail "}"%char). lia.
Qed.

Lemma size_le_length (v : json) : size v <= String.length (print_value v).
Proof.
  induction v as [ | b | n | s | l IH | kvs IH ] using json_induction.
  - simpl; lia.
  - destruct b; simpl; lia.
  - destruct (of_Z_head n) as (c & r & E & _). cbn [print_value size].
    rewrite E. simpl. lia.
  - simpl. lia.
  - cbn [print_value size].
    change (String.length ("[" +:+ print_list print_value "]" l))
      with (S (String.length (print_list print_value "]" l))).
    pose proof (length_print_list print_value size l IH) as [H _]. lia.
  - cbn [print_value size].
    set (pr := fun kv : string * json => quote (fst kv) +:+ ":" +:+ print_value (snd kv)).
    change (String.length ("{" +:+ print_list pr "}" kvs))
      with (S (String.length (print_list pr "}" kvs))).
    assert (Hm : Forall (fun kv => size (snd kv) <= String.length (pr kv)) kvs).
    { eapply Forall_impl; [exact IH|]. intros [k x] Hx. unfold pr.
      rewrite !length_append. simpl in *. lia. }
    pose proof (length_print_list pr (fun kv => size (snd kv)) kvs Hm) as [_ H]. lia.
Qed.

Lemma loads_print (v : json) : loads (print_value v) = Some v.
Proof.
  unfold loads.
  rewrite <- (append_nil_r (print_value v)) at 2.
  rewrite parse_print; [reflexivity | | reflexivity].
  pose proof (size_le_length v). lia.
Qed.

Lemma codec_laws : JsonLaws codec.
Proof. constructor. exact loads_print. Qed.

(** *** The file system *)

Ltac case_lookup m :=
  match goal with
  | |- context [match ?f ?k m with _ => _ end] => destruct (f k m) as [[|?]|]
  end.

Lemma os_laws : OsLaws os.
Proof.
  constructor.
  - intros [c s]. reflexivity.
  - intros [c s]. discriminate.
  - intros files p files'. cbn. unfold open_for_writing, read, exists_.
    case_lookup files; [discriminate | |];
      (case_lookup files; [|discriminate..]);
      intros [= <-]; now rewrite lookup_insert_eq.
  - intros files p s c files'. cbn. unfold append_text, read, exists_.
    case_lookup files; try discriminate.
    intros [= <-] [= <-]. now rewrite lookup_insert_eq.
Qed.
End RefFacts.

Section MonadFacts.
Context {Jsn : Json} {Sys : Os}.

Lemma bind_inv {A B} (m : M A) (k : A -> M B) (st st' : St) (r : res B) :
  bind m k st = (r, st') ->
  (exists a st1, m st = (Ret a, st1) /\ k a st1 = (r, st'))
  \/ (exists e, m st = (Raise e, st') /\ r = Raise e)
  \/ (m st = (OutOfFuel, st') /\ r = OutOfFuel).
Proof.
  unfold bind. destruct (m st) as [[a | e | ] st1]; intros H.
  - left. eauto.
  - right. left. injection H as <- <-. eauto.
  - right. right. injection H as <- <-. eauto.
Qed.

Lemma try_except_inv {A} (m : M A) (h : exn -> M A) (st st' : St) (r : res A) :
  try_except m h st = (r, st') ->
  (exists e st1, m st = (Raise e, st1) /\ h e st1 = (r, st'))
  \/ (m st = (r, st') /\ forall e, r <> Raise e).
Proof.
  unfold try_except. destruct (m st) as [[a | e | ] st1]; intros H.
  - right. injection H as <- <-. split; [reflexivity | discriminate].
  - left. eauto.
  - right. injection H as <- <-. split; [reflexivity | discriminate].
Qed.
End MonadFacts.

(** Take apart a run [H : m st = (r, st')] along the structure of [m]. *)
Ltac run_inv :=
  match goal with
  | E : _ = inr _ |- _ => progress cbn in E
  | E : _ = inl _ |- _ => progress cbn in E
  | H : bind _ _ _ = (_, _) |- _ =>
      apply bind_inv in H;
      destruct H as [(? & ? & ? & H) | [(? & H & ?) | (H & ?)]]
  | H : ret _ _ = (_, _) |- _ => unfold ret in H
  | H : raise _ _ = (_, _) |- _ => unfold raise in H
  | H : out_of_fuel _ = (_, _) |- _ => unfold out_of_fuel in H
  | H : gets _ _ = (_, _) |- _ => unfold gets in H
  | H : modify _ _ = (_, _) |- _ => unfold modify in H
  | H : print _ _ = (_, _) |- _ => unfold print, modify in H
  | H : sleep _ _ = (_, _) |- _ => unfold sleep, modify in H
  | H : history_append _ _ = (_, _) |- _ =>
      unfold history_append, modify in H
  | H : lift ?x _ = (_, _) |- _ =>
      let E := fresh "E" in
      destruct x eqn:E; unfold lift, ret, raise in H; cbn in E
  | H : write_slides _ _ _ _ = (_, _) |- _ => progress cbn [write_slides] in H
  | H : write_value _ _ _ = (_, _) |- _ => unfold write_value in H
  | H : mkdir_p _ _ = (_, _) |- _ => unfold mkdir_p in H
  | H : open_w _ _ = (_, _) |- _ => unfold open_w in H
  | H : write _ _ _ = (_, _) |- _ => unfold write in H
  | H : try_except _ _ _ = (_, _) |- _ =>
      apply try_except_inv in H;
      destruct H as [(? & ? & ? & H) | (H & ?)]
  | H : input _ ?st = (_, _) |- _ =>
      let E := fresh "Einp" in
      unfold input in H; destruct (inp st) eqn:E
  | H : on_fs _ _ = (_, _) |- _ =>
      let E := fresh "Efs" in
      unfold on_fs in H; cbv beta in H;
      match type of H with
      | context [match ?x with _ => _ end] => destruct x eqn:E
      end
  | H : (if ?b then _ else _) _ = (_, _) |- _ =>
      first
        [ let v := eval cbv in b in
          match v with
          | true => change b with true in H
          | false => change b with false in H
          end; cbv iota in H
        | let E := fresh "Eif" in destruct b eqn:E ]
  | H : (match ?x with _ => _ end) _ = (_, _) |- _ =>
      let E := fresh "Ematch" in destruct x eqn:E
  end; simplify_eq;
  try match goal with
      | Hne : forall e, Raise ?x <> Raise e |- _ => exfalso; exact (Hne x eq_refl)
      end.

Section ConversationFacts.
Context {Jsn : Json} {Sys : Os}.
Variable srv : nat -> Reply.

(** One pass of the loop on a malformed reply: the corrective prompt joins
    the history, the retry counter stays. *)
Lemma loop_body_malformed (lv : locals) (st : St) :
  reply_malformed (srv (List.length (sent st))) = true ->
  exists e st',
    loop_body srv lv st = (Ret (Again (assign_response (srv (List.length (sent st))) lv)), st')
    /\ sent st' = sent st ++ [chat_history st]
    /\ chat_history st' = chat_history st ++ [message "user" (retry_prompt e)]
    /\ slept st' = slept st /\ fs st' = fs st /\ inp st' = inp st
    /\ root_dir st' = root_dir st.
Proof.
  unfold reply_malformed, loop_body, bind, post. cbn.
  destruct (try_block (srv (List.length (sent st)))) as [e | [raw parsed]];
    [| discriminate].
  destruct e as [ | key | | | | | | | msg | | | ]; try discriminate; intros _;
    [exists (KeyError key) | exists (JSONDecodeError msg)];
    eexists; repeat split.
Qed.

Lemma retries_assign_response (r : Reply) (lv : locals) :
  retries (assign_response r lv) = retries lv.
Proof. destruct r; reflexivity. Qed.

Lemma retry_loop_malformed (fuel : nat) :
  (forall n, reply_malformed (srv n) = true) ->
  forall lv st,
    retries lv < 5 ->
    exists st',
      retry_loop srv fuel lv st = (OutOfFuel, st')
      /\ List.length (sent st') = List.length (sent st) + fuel
      /\ List.length (chat_history st') = List.length (chat_history st) + fuel
      /\ slept st' = slept st /\ fs st' = fs st.
Proof.
  intros Hbad. induction fuel as [|fuel IH]; intros lv st Hlt.
  - exists st. destruct lv as [n resp]. simpl in *.
    destruct (Nat.ltb_spec n 5); [|lia]. cbn. repeat split; lia.
  - destruct (loop_body_malformed lv st (Hbad _))
      as (e & st1 & Hbody & Hsent & Hhist & Hslept & Hfs & _).
    destruct (IH (assign_response (srv (List.length (sent st))) lv) st1)
      as (st' & Hloop & Hs' & Hh' & Hsl' & Hfs').
    { now rewrite retries_assign_response. }
    exists st'. cbn [retry_loop].
    destruct (Nat.ltb_spec (retries lv) 5); [|lia].
    unfold bind at 1. rewrite Hbody, Hloop.
    rewrite Hs', Hh', Hsl', Hfs', Hsent, Hhist, Hslept, Hfs, !length_app. cbn.
    repeat split; lia.
Qed.

(** Claim C1 (termination of the retry loop), on the code: the handler for a
    reply that does not parse appends the corrective prompt and goes round
    again without touching [retries].  So when every reply is malformed the
    loop is still running after any number of passes: with fuel for [fuel]
    passes the call has posted [fuel] requests, has added the user turn and
    [fuel] corrective prompts to the history, has never slept, and has not
    returned.  The five-attempt budget does not bound the repair loop. *)
Theorem chat_with_ai_malformed_replies_never_return :
  (forall n, reply_malformed (srv n) = true) ->
  forall (fuel : nat) (user_input : string) (st : St),
    exists st',
      chat_with_ai srv fuel user_input st = (OutOfFuel, st')
      /\ List.length (sent st') = List.length (sent st) + fuel
      /\ List.length (chat_history st') = List.length (chat_history st) + 1 + fuel
      /\ slept st' = slept st.
Proof.
  intros Hbad fuel user_input st. unfold chat_with_ai, bind, history_append, modify.
  destruct (retry_loop_malformed fuel Hbad (mkLocals 0 None)
              (set_chat_history (chat_history st ++ [message "user" user_input]) st))
    as (st' & Hloop & Hs & Hh & Hsl & _); [cbn; lia|].
  exists st'. rewrite Hloop. cbn in *. rewrite length_app in Hh. cbn in Hh.
  repeat split; auto; lia.
Qed.

(** Claim C3 (five attempts with doubling delays, then Failure), on the
    code: when the first [requests.post] of a turn raises (connection error,
    timeout) the local [response] has never been assigned, and the handler's
    test [response is not None] raises [UnboundLocalError].  The call ends
    after one attempt, without sleeping and without returning [None]; the
    history holds the user turn and no model message. *)
Theorem chat_with_ai_no_response_raises (err : string) (fuel : nat)
    (user_input : string) (st : St) :
  srv (List.length (sent st)) = NoResponse err ->
  let history := chat_history st ++ [message "user" user_input] in
  chat_with_ai srv (S fuel) user_input st
  = (Raise (UnboundLocalError "response"),
     set_out (out st ++ ["API communication error (attempt 1/5): " +:+ err])
       (set_sent (sent st ++ [history]) (set_chat_history history st))).
Proof.
  intros Hsrv. unfold chat_with_ai, bind, history_append, modify. cbn.
  unfold bind, loop_body, bind, post. cbn. rewrite Hsrv. reflexivity.
Qed.

(** Bytes that are well-formed UTF-8 decode to the text they hold. *)
Lemma decode_utf8 (content : string) :
  Str.utf8 content = true -> Py.decode content = inr content.
Proof.
  unfold Str.utf8, Py.decode. now destruct (Str.utf8_error 0 content).
Qed.

(** One pass of the loop on a failed exchange that did produce a response
    object, whose body can be shown. *)
Lemma loop_body_http_error (lv : locals) (st : St) (err content : string) :
  srv (List.length (sent st)) = Response (Some err) content ->
  Str.utf8 content = true ->
  exists st',
    loop_body srv lv st = (Ret (Again (mkLocals (S (retries lv)) (Some content))), st')
    /\ sent st' = sent st ++ [chat_history st]
    /\ chat_history st' = chat_history st
    /\ slept st' = slept st ++ [2 ^ Z.of_nat (S (retries lv))]%Z
    /\ fs st' = fs st.
Proof.
  intros Hsrv Hutf. unfold loop_body, bind, post. rewrite Hsrv. cbn.
  destruct (Str.nonempty content); cbn; unfold bind; rewrite ?(decode_utf8 _ Hutf);
    cbn; eexists; repeat split.
Qed.

Lemma retry_loop_http_errors :
  (forall n, exists err content,
      srv n = Response (Some err) content /\ Str.utf8 content = true) ->
  forall k lv fuel st,
    retries lv + k = 5 -> k <= fuel ->
    exists st',
      retry_loop srv fuel lv st = (Ret JNull, st')
      /\ slept st' = slept st ++ backoff (retries lv) k
      /\ List.length (sent st') = List.length (sent st) + k
      /\ chat_history st' = chat_history st /\ fs st' = fs st.
Proof.
  intros Hsrv. induction k as [|k IH]; intros lv fuel st Hk Hfuel.
  - assert (retries lv = 5) as E by lia.
    exists (set_out (out st ++ ["Failed to get a valid response after multiple retries."]) st).
    destruct fuel; cbn [retry_loop]; rewrite E; cbn;
      rewrite app_nil_r; repeat split; lia.
  - destruct fuel as [|fuel]; [lia|].
    destruct (Hsrv (List.length (sent st))) as (err & content & Hr & Hutf).
    destruct (loop_body_http_error lv st err content Hr Hutf)
      as (st1 & Hbody & Hsent & Hhist & Hslept & Hfs).
    destruct (IH (mkLocals (S (retries lv)) (Some content)) fuel st1)
      as (st' & Hloop & Hsl' & Hs' & Hh' & Hfs'); [cbn; lia | lia |].
    exists st'. cbn [retry_loop].
    destruct (Nat.ltb_spec (retries lv) 5); [|lia].
    unfold bind at 1. rewrite Hbody, Hloop.
    rewrite Hsl', Hs', Hh', Hfs', Hsent, Hhist, Hslept, Hfs, length_app.
    cbn [retries backoff List.length]. rewrite <- app_assoc. cbn [app].
    repeat split; lia.
Qed.

(** When every attempt ends in a transport error that did produce a
    response object (an HTTP error status) with a body in UTF-8, the call
    makes five attempts, sleeps 2, 4, 8, 16 and 32 seconds after them, and
    returns [None] with only the user turn added to the history. *)
Lemma chat_with_ai_http_errors_give_up :
  (forall n, exists err content,
      srv n = Response (Some err) content /\ Str.utf8 content = true) ->
  forall (fuel : nat) (user_input : string) (st : St),
    5 <= fuel ->
    exists st',
      chat_with_ai srv fuel user_input st = (Ret JNull, st')
      /\ slept st' = slept st ++ [2; 4; 8; 16; 32]%Z
      /\ List.length (sent st') = List.length (sent st) + 5
      /\ chat_history st' = chat_history st ++ [message "user" user_input]
      /\ fs st' = fs st.
Proof.
  intros Hsrv fuel user_input st Hfuel.
  destruct (retry_loop_http_errors Hsrv 5 (mkLocals 0 None) fuel
              (set_chat_history (chat_history st ++ [message "user" user_input]) st))
    as (st' & Hloop & Hsl & Hs & Hh & Hfs); [reflexivity | assumption |].
  exists st'. unfold chat_with_ai, bind, history_append, modify. rewrite Hloop.
  repeat split; assumption.
Qed.
End ConversationFacts.

Section PersistenceFacts.
Context {Jsn : Json} {Sys : Os}.
Context {JL : JsonLaws Jsn} {OL : OsLaws Sys}.

Lemma nonempty_true (s : string) : s <> "" -> Str.nonempty s = true.
Proof. destruct s; [congruence | reflexivity]. Qed.

(** A save that returns has put the current globals in the state file and
    touched nothing but the file system. *)
Lemma save_project_state_written (st st' : St) (r : Path) :
  root_dir st = Some r ->
  save_project_state st = (Ret tt, st') ->
  st' = set_fs (fs st') st
  /\ fs_exists (fs st') (path_of_str STATE_FILE) = true
  /\ fs_read (fs st') (path_of_str STATE_FILE)
     = inr (json_dumps (state_document r (chat_history st))).
Proof.
  intros Hr. unfold save_project_state, bind, gets, open_w, write, on_fs.
  rewrite Hr. cbn.
  destruct (fs_open_w (fs st) (path_of_str STATE_FILE)) as [e | f1] eqn:Ho;
    [discriminate|]. cbn.
  destruct (fs_write f1 (path_of_str STATE_FILE) _) as [e | f2] eqn:Hw;
    [discriminate|].
  intros [= <-]. cbn.
  destruct (fs_open_w_read _ _ _ Ho) as [Hread _].
  destruct (fs_write_read _ _ _ _ _ Hw Hread) as [Hread' Hex].
  auto.
Qed.

Lemma save_project_state_in_sync (st st' : St) (r : Path) :
  root_dir st = Some r ->
  save_project_state st = (Ret tt, st') ->
  in_sync st' /\ root_dir st' = Some r /\ chat_history st' = chat_history st.
Proof.
  intros Hr Hs. destruct (save_project_state_written st st' r Hr Hs) as (E & _ & Hread).
  assert (root_dir st' = Some r) as Hr' by (rewrite E; exact Hr).
  assert (chat_history st' = chat_history st) as Hh by (rewrite E; reflexivity).
  repeat split; auto. exists r. split; [assumption|].
  unfold persisted. rewrite Hread, json_loads_dumps, Hh. reflexivity.
Qed.

Lemma save_project_state_no_root (st : St) :
  root_dir st = None -> save_project_state st = (Ret tt, st).
Proof. intros Hr. unfold save_project_state, bind, gets. now rewrite Hr. Qed.

(** Claim C9 (round trip of the persisted state): when [root_dir] is set
    and [save_project_state] returns, [load_project_state] run by any process
    that sees the same file system returns [True] and leaves exactly the
    saved root directory and the saved history, in order, in its globals. *)
Theorem save_then_load_roundtrip (st st1 : St) (r : Path) :
  root_dir st = Some r ->
  save_project_state st = (Ret tt, st1) ->
  forall st2, fs st2 = fs st1 ->
    exists st3,
      load_project_state st2 = (Ret true, st3)
      /\ root_dir st3 = Some r
      /\ chat_history st3 = chat_history st.
Proof.
  intros Hr Hs st2 Hfs.
  destruct (save_project_state_written st st1 r Hr Hs) as (_ & Hex & Hread).
  unfold load_project_state, bind, gets, read_text, lift, json_load_text.
  set (p := path_of_str STATE_FILE) in *. clearbody p.
  destruct st2 as [f2 o2 i2 s2 sl2 r2 h2 k2]. cbn in Hfs. subst f2. cbn.
  rewrite Hex. cbn. rewrite Hread. cbn. rewrite json_loads_dumps. cbn.
  rewrite (nonempty_true _ (path_str_nonempty r)). cbn.
  rewrite path_of_str_str. eexists. repeat split.
Qed.
End PersistenceFacts.

Section ExecutorFacts.
Context {Jsn : Json} {Sys : Os}.

(** Claim C4 (commands that need a project root): for create_files,
    list_files, milestones and create_presentation_plan, when [root_dir] is
    unset [execute_action] returns normally and changes nothing but the
    console, where it prints the notice of the command: for create_files
    the line that asks for an init_project first, for the other three
    "Please create a project first.".  In particular the file system is
    untouched and no exception leaves the call. *)
Theorem execute_action_without_root (kvs : list (string * json)) (command : string) (st : St) :
  Py.lookup kvs "command" = Some (JStr command) ->
  needs_root command ->
  root_dir st = None ->
  let notice :=
    if String.eqb command "create_files"
    then "Error: You must first initialize a project. Please ask me to 'init_project' with a name."
    else "Please create a project first." in
  execute_action (JObj kvs) st = (Ret tt, set_out (out st ++ [notice]) st).
Proof.
  intros Hc Hn Hr. unfold execute_action, bind, lift, gets, ret. cbn [Py.get].
  rewrite Hc.
  destruct Hn as [<- | [<- | [<- | [<- | []]]]]; cbn; rewrite Hr; reflexivity.
Qed.
End ExecutorFacts.

Section GateFacts.
Context {Jsn : Json} {Sys : Os}.

Lemma handle_response_not_approved (response ra : json) (st st' : St) (r : res unit) :
  Py.get response "requires_approval" (JBool false) = inr ra ->
  Py.truthy ra = true ->
  (forall a rest, inp st = a :: rest -> Str.lower a <> "y") ->
  handle_response response st = (r, st') ->
  fs st' = fs st /\ root_dir st' = root_dir st
  /\ ((chat_history st' = chat_history st /\ inp st' = inp st)
      \/ (exists a, inp st = a :: inp st' /\ r = Ret tt
                    /\ chat_history st' = chat_history st ++ [message "user" decline_notice])).
Proof.
  intros Hra Ht Hin H. unfold handle_response in H.
  repeat run_inv; cbn in *; auto.
  all: try (rewrite Hra in *; simplify_eq).
  all: try (rewrite Ht in *; rewrite ?andb_true_r in *; simplify_eq).
  all: try match goal with
           | E : String.eqb _ "y" = true |- _ =>
               apply String.eqb_eq in E; exfalso; eapply Hin; eauto
           end.
  all: repeat split; auto; right; eexists; repeat split; eauto.
Qed.
End GateFacts.

Section GateTheorems.
Context {Jsn : Json} {Sys : Os}.

Lemma handle_response_declined (response ra : json) (st st' : St) (r : res unit) :
  Py.get response "requires_approval" (JBool false) = inr ra ->
  Py.truthy ra = true ->
  handle_response response st = (r, st') ->
  declined st st' ->
  r = Ret tt /\ fs st' = fs st
  /\ chat_history st' = chat_history st ++ [message "user" decline_notice].
Proof.
  intros Hra Ht H (a & Hi & Hy).
  destruct (handle_response_not_approved response ra st st' r Hra Ht) as (Hfs & _ & Hd);
    [| exact H |].
  - intros a' rest' Hi'. rewrite Hi in Hi'. now injection Hi' as <- _.
  - destruct Hd as [[_ Hsame] | (a' & _ & -> & Hh)]; [|auto].
    rewrite Hsame in Hi. apply (f_equal (@List.length string)) in Hi.
    cbn in Hi. lia.
Qed.

(** Claim C5 (the approval gate): for a reply whose [requires_approval] is
    true, the file system changes only if the operator's next answer is an
    approval ('y', in either case); and when the operator is asked and
    declines, the turn returns normally, the file system is unchanged and
    exactly one message, the fixed notice, is appended to the history. *)
Theorem approval_gate (response ra : json) (st st' : St) (r : res unit) :
  Py.get response "requires_approval" (JBool false) = inr ra ->
  Py.truthy ra = true ->
  handle_response response st = (r, st') ->
  (~ affirmed st -> fs st' = fs st)
  /\ (declined st st' ->
      r = Ret tt /\ fs st' = fs st
      /\ chat_history st' = chat_history st ++ [message "user" decline_notice]).
Proof.
  intros Hra Ht H. split.
  - intros Hno.
    apply (handle_response_not_approved response ra st st' r Hra Ht); [|exact H].
    intros a rest Hi Hy. apply Hno. now exists a, rest.
  - now apply (handle_response_declined response ra).
Qed.
End GateTheorems.

Section StateFileTheorems.
Context {Jsn : Json} {Sys : Os}.
Context {JL : JsonLaws Jsn} {OL : OsLaws Sys}.

Lemma saved_in_sync (s st' : St) :
  save_project_state s = (Ret tt, st') -> root_dir st' <> None -> in_sync st'.
Proof.
  intros Hs Hr. destruct (root_dir s) as [r|] eqn:E.
  - now destruct (save_project_state_in_sync s st' r E Hs).
  - rewrite (save_project_state_no_root s E) in Hs. injection Hs as <-. congruence.
Qed.

(** Claim C6 (lifecycle of the state file), as the code has it: the file
    records the globals once init_project has returned, and again after
    every executed action that returns while a root directory is set; a
    declined approval writes nothing: the file system, and with it the state
    file, is as before, while the notice is only in the in-memory history. *)
Theorem state_file_follows_executed_actions :
  (forall payload st st',
      execute_action (action_of "init_project" payload) st = (Ret tt, st') ->
      in_sync st')
  /\ (forall response action ra st st',
        Py.get response "action" JNull = inr action -> Py.truthy action = true ->
        Py.get response "requires_approval" (JBool false) = inr ra ->
        Py.truthy ra = false \/ affirmed st ->
        handle_response response st = (Ret tt, st') ->
        root_dir st' <> None ->
        in_sync st')
  /\ (forall response ra st st' r,
        Py.get response "requires_approval" (JBool false) = inr ra ->
        Py.truthy ra = true ->
        handle_response response st = (r, st') ->
        declined st st' ->
        persisted (fs st') = persisted (fs st)
        /\ chat_history st' = chat_history st ++ [message "user" decline_notice]).
Proof.
  split; [|split].
  - intros payload st st' H. unfold execute_action, action_of in H.
    repeat run_inv.
    all: match goal with
         | Hs : save_project_state ?s = (Ret tt, _) |- _ =>
             eapply (save_project_state_in_sync s); [reflexivity | exact Hs]
         end.
  - intros response action ra st st' Ha Hta Hra Hgo H Hroot.
    unfold handle_response in H. repeat run_inv.
    all: try (eapply saved_in_sync; eassumption).
    all: exfalso; cbn in *.
    all: try (apply andb_true_iff in Eif0 as [_ Hra']).
    all: try (apply andb_false_iff in Eif0 as [Hf | Hf]; congruence).
    all: try (destruct Hgo as [Hf | (a & rest & Hi & Hy)]; [congruence|];
              rewrite Hi in Einp; injection Einp as -> ->;
              apply String.eqb_neq in Eif1; contradiction).
    destruct response as [ | | | | | [|] ]; cbn in *; simplify_eq.
  - intros response ra st st' r Hra Ht H Hd.
    destruct (handle_response_declined response ra st st' r Hra Ht H Hd)
      as (_ & Hfs & Hh).
    now rewrite Hfs.
Qed.
End StateFileTheorems.

(** From the successful [open] and [write] calls of a run, the content of
    the file they produced. *)
Ltac chain_reads :=
  repeat match goal with
  | E : fs_open_w _ _ = inr _ |- _ =>
      pose proof (fs_open_w_read _ _ _ E) as [? _]; clear E
  | E : fs_write ?f _ _ = inr _, R : fs_read ?f _ = inr _ |- _ =>
      pose proof (fs_write_read _ _ _ _ _ E R) as [? _]; clear E R
  end.

Section WriterTheorems.
Context {Jsn : Json} {Sys : Os}.
Context {JL : JsonLaws Jsn} {OL : OsLaws Sys}.

Lemma last_line_inv (l : list string) (a b : string) :
  l ++ [a] = l ++ [b] -> a = b.
Proof. intros H. apply app_inv_head in H. now injection H. Qed.

(** The milestones command always returns; when it reports the update, the
    milestone file decodes to the payload it was given. *)
Lemma milestones_written (root : Path) (payload : json) (st st' : St) (r : res unit) :
  root_dir st = Some root ->
  execute_action (action_of "milestones" payload) st = (r, st') ->
  r = Ret tt /\ root_dir st' = Some root
  /\ (out st' = out st ++ [milestones_report root] ->
      stored_milestones root (fs st') = Some payload).
Proof.
  intros Hr H. unfold execute_action, action_of in H.
  repeat run_inv; cbn in *; simplify_eq.
  all: repeat split; auto; intros Hout.
  all: try (apply last_line_inv in Hout; discriminate).
  chain_reads. unfold stored_milestones.
  match goal with R : fs_read _ _ = inr _ |- _ => rewrite R end.
  cbn. apply json_loads_dumps.
Qed.

(** Claim C7 (the milestone file), as the code has it: whenever the
    milestones command reports the update, the milestone file decodes to the
    whole payload object; for the example that is the object whose
    "milestones" entry is the one-element list.  A second command replaces
    the file: its content is the second payload, whatever the first was. *)
Theorem milestones_file_holds_payload (root : Path) :
  (forall st st' r,
      root_dir st = Some root ->
      execute_action (action_of "milestones" mvp_payload) st = (r, st') ->
      out st' = out st ++ [milestones_report root] ->
      stored_milestones root (fs st') = Some mvp_payload
      /\ Py.get mvp_payload "milestones" JNull = inr (JArr [mvp]))
  /\ (forall p1 p2 st st1 st2 r1 r2,
        root_dir st = Some root ->
        execute_action (action_of "milestones" p1) st = (r1, st1) ->
        execute_action (action_of "milestones" p2) st1 = (r2, st2) ->
        out st2 = out st1 ++ [milestones_report root] ->
        stored_milestones root (fs st2) = Some p2).
Proof.
  split.
  - intros st st' r Hr H Hout. split; [|reflexivity].
    now apply (milestones_written root mvp_payload st st' r Hr H).
  - intros p1 p2 st st1 st2 r1 r2 Hr H1 H2 Hout.
    destruct (milestones_written root p1 st st1 r1 Hr H1) as (_ & Hr1 & _).
    now apply (milestones_written root p2 st1 st2 r2 Hr1 H2).
Qed.

(** Claim C8 (the presentation plan for "Q3 Review"): whenever the command
    reports the creation, the file it reports is [q3-review.md] under the
    root, and that file holds, in order, the title heading, the audience
    line and a rule, then the one slide section with "Intro" and "Hello"
    closed by a rule. *)
Theorem presentation_plan_q3_review (root : Path) (st st' : St) (r : res unit) :
  root_dir st = Some root ->
  execute_action (action_of "create_presentation_plan" q3_payload) st = (r, st') ->
  out st' = out st ++ [presentation_report (path_div root "q3-review.md")] ->
  r = Ret tt
  /\ fs_read (fs st') (path_div root "q3-review.md") = inr q3_document.
Proof.
  intros Hr H Hout. unfold execute_action, action_of, q3_payload in H.
  repeat run_inv; cbn in *; simplify_eq.
  all: try (apply last_line_inv in Hout; discriminate).
  split; [reflexivity|].
  chain_reads. assumption.
Qed.
End WriterTheorems.

Section CreateFilesFacts.
Context {Jsn : Json} {Sys : Os}.

(** The two branches of the loop body: a sentinel content goes to [mkdir]
    and nothing is written; any other text is written as it is. *)
Lemma create_item_sentinel (root : Path) (path : string) :
  create_item root path (JStr CREATE_DIR)
  = (mkdir_p (path_div root path);;
     print ("  - Created directory: " +:+ path_str (path_div root path))).
Proof. reflexivity. Qed.

Lemma create_item_text (root : Path) (path content : string) :
  content <> CREATE_DIR ->
  create_item root path (JStr content)
  = (mkdir_p (path_parent (path_div root path));;
     open_w (path_div root path);;
     write (path_div root path) content;;
     print ("  - Created file: " +:+ path_str (path_div root path))).
Proof.
  intros Hc. unfold create_item. cbn [Py.eq_str write_value].
  destruct (String.eqb_spec content CREATE_DIR); [contradiction | reflexivity].
Qed.

Lemma create_files_loop_app (root : Path) (pre post : list (string * json)) (st st1 : St) :
  create_files_loop root pre st = (Ret tt, st1) ->
  create_files_loop root (pre ++ post) st = create_files_loop root post st1.
Proof.
  revert st. induction pre as [|[path content] pre IH]; intros st H.
  - cbn in H. unfold ret in H. now injection H as <-.
  - cbn [create_files_loop app] in *. apply bind_inv in H.
    destruct H as [([] & s & Hitem & Hrest) | [(e & _ & [=]) | (_ & [=])]].
    unfold bind at 1. rewrite Hitem. now apply IH.
Qed.

(** Claim C2 (errors of create_files are per path), on the code: the loop
    over the payload has no handler.  When the pairs before some pair were
    processed and that pair's step raises, [execute_action] as a whole raises
    the same exception in the state reached at the failure; the pairs after
    it are never looked at. *)
Theorem create_files_error_aborts (root : Path) (pre post : list (string * json))
    (path : string) (content : json) (e : exn) (st st1 st2 : St) :
  root_dir st = Some root ->
  create_files_loop root pre st = (Ret tt, st1) ->
  create_item root path content st1 = (Raise e, st2) ->
  execute_action (action_of "create_files" (JObj (pre ++ (path, content) :: post))) st
  = (Raise e, st2).
Proof.
  intros Hr Hpre Hitem. unfold execute_action, action_of, bind, lift, gets. cbn.
  rewrite Hr. cbn. rewrite (create_files_loop_app root pre _ st st1 Hpre).
  cbn [create_files_loop]. unfold bind. now rewrite Hitem.
Qed.
End CreateFilesFacts.


(** ** Further properties of the program *)

Section ConversationInvariants.
Context {Jsn : Json} {Sys : Os}.
Variable srv : nat -> Reply.

Lemma try_block_parsed (r : Reply) (raw : string) (v : json) :
  try_block r = inr (raw, v) -> json_loads raw = Some v.
Proof.
  unfold try_block. destruct r as [err | [err|] content]; try discriminate.
  destruct (json_loads content) as [rj|]; [|discriminate].
  destruct (raw_content_of rj) as [e | rc]; [discriminate|]. cbn.
  destruct rc; try discriminate. cbn.
  destruct (json_loads s) eqn:E; [|discriminate]. now intros [= <- <-].
Qed.

Lemma loop_body_cases (lv : locals) (st st' : St) (r : res iteration) :
  loop_body srv lv st = (r, st') ->
  fs st' = fs st /\ inp st' = inp st /\ root_dir st' = root_dir st
  /\ API_KEY st' = API_KEY st
  /\ sent st' = sent st ++ [chat_history st]
  /\ ((exists raw v, r = Ret (Returned v) /\ json_loads raw = Some v
         /\ chat_history st' = chat_history st ++ [message "model" raw]
         /\ slept st' = slept st /\ out st' = out st)
      \/ (exists resp, r = Ret (Again (mkLocals (S (retries lv)) resp))
         /\ chat_history st' = chat_history st
         /\ slept st' = slept st ++ [(2 ^ Z.of_nat (S (retries lv)))%Z])
      \/ (exists lv' e, r = Ret (Again lv') /\ retries lv' = retries lv
         /\ chat_history st' = chat_history st ++ [message "user" (retry_prompt e)]
         /\ slept st' = slept st)
      \/ (exists e, r = Raise e /\ chat_history st' = chat_history st
         /\ slept st' = slept st)).
Proof.
  unfold loop_body, bind, post.
  generalize (srv (List.length (sent st))) as rp. intros rp.
  destruct (try_block rp) as [e | [raw v]] eqn:Et.
  - destruct e as [ | key | | | | | | | msg | msg | | ]; cbn.
    all: try (intros [= <- <-]; cbn; repeat split; right; right; right;
              eexists; repeat split; reflexivity).
    + intros [= <- <-]. cbn. repeat split. right. right. left.
      exists (assign_response rp lv), (KeyError key). repeat split.
      apply retries_assign_response.
    + intros [= <- <-]. cbn. repeat split. right. right. left.
      exists (assign_response rp lv), (JSONDecodeError msg). repeat split.
      apply retries_assign_response.
    + destruct rp as [err | he content]; cbn.
      * destruct (response lv) as [content|]; cbn.
        -- destruct (Str.nonempty content); [unfold bind; destruct (Py.decode content)|];
             cbn; intros [= <- <-]; cbn; repeat split;
             solve [right; left; eexists; repeat split
                   | right; right; right; eexists; repeat split].
        -- intros [= <- <-]. cbn. repeat split. right. right. right.
           eexists. repeat split.
      * destruct (Str.nonempty content); [unfold bind; destruct (Py.decode content)|];
          cbn; intros [= <- <-]; cbn; repeat split;
          solve [right; left; eexists; repeat split
                | right; right; right; eexists; repeat split].
  - cbn. intros [= <- <-]. cbn. repeat split. left. exists raw, v.
    repeat split. now apply try_block_parsed with rp.
Qed.

Lemma retry_loop_inv (fuel : nat) :
  forall (lv : locals) (st st' : St) (r : res json),
    retries lv <= 5 ->
    retry_loop srv fuel lv st = (r, st') ->
    fs st' = fs st /\ inp st' = inp st /\ root_dir st' = root_dir st
    /\ API_KEY st' = API_KEY st
    /\ exists (k : nat) (ext : list json) (reqs : list (list json)),
         retries lv + k <= 5
         /\ slept st' = slept st ++ backoff (retries lv) k
         /\ chat_history st' = chat_history st ++ ext
         /\ sent st' = sent st ++ reqs
         /\ Forall (fun body => exists e, body = chat_history st ++ e) reqs
         /\ (forall v, r = Ret v ->
               (exists raw h, chat_history st' = h ++ [message "model" raw]
                              /\ json_loads raw = Some v)
               \/ (v = JNull /\ retries lv + k = 5 /\ Forall corrective ext
                   /\ exists o, out st' = o ++ [failure_notice])).
Proof.
  induction fuel as [|fuel IH]; intros lv st st' r Hle H; cbn [retry_loop] in H;
    destruct (Nat.ltb_spec (retries lv) 5) as [Hlt | Hge].
  - injection H as <- <-. repeat split. exists 0, [], []. cbn [backoff].
    rewrite !app_nil_r. repeat split; [lia | constructor | discriminate].
  - cbn in H. injection H as <- <-. repeat split. exists 0, [], []. cbn [backoff].
    rewrite !app_nil_r. repeat split; [lia | constructor |].
    intros v [= <-]. right. repeat split; [lia | constructor | now exists (out st)].
  - apply bind_inv in H.
    destruct H as [(it & st1 & Hb & H) | [(e & Hb & ->) | (Hb & ->)]];
      apply loop_body_cases in Hb
        as (Hfs & Hinp & Hroot & Hkey & Hsent & Hcase).
    + destruct Hcase as [(raw & v & [= ->] & Hl & Hh & Hsl & Ho)
                        | [(resp & [= ->] & Hh & Hsl)
                        | [(lv' & e & [= ->] & Hrt & Hh & Hsl)
                        | (e & [=] & _)]]].
      * injection H as <- <-. rewrite Hfs, Hinp, Hroot, Hkey. repeat split.
        exists 0, [message "model" raw], [chat_history st]. cbn [backoff].
        rewrite app_nil_r. repeat split; auto; [lia | |].
        -- constructor; [|constructor]. exists []. now rewrite app_nil_r.
        -- intros w [= <-]. left. eauto.
      * apply IH in H as (Hfs' & Hinp' & Hroot' & Hkey' & k & ext & reqs
                          & Hk & Hsl' & Hh' & Hs' & Hreqs & Hres); [|cbn; lia].
        cbn [retries] in *.
        rewrite Hfs', Hinp', Hroot', Hkey', Hfs, Hinp, Hroot, Hkey. repeat split.
        exists (S k), ext, (chat_history st :: reqs). repeat split.
        -- lia.
        -- rewrite Hsl', Hsl, <- app_assoc. reflexivity.
        -- now rewrite Hh', Hh.
        -- rewrite Hs', Hsent, <- app_assoc. reflexivity.
        -- constructor; [exists []; now rewrite app_nil_r|]. now rewrite <- Hh.
        -- intros v Hv. destruct (Hres v Hv) as [Hok | (-> & Hk5 & Hc & Ho)];
             [now left|]. right. repeat split; auto. lia.
      * apply IH in H as (Hfs' & Hinp' & Hroot' & Hkey' & k & ext & reqs
                          & Hk & Hsl' & Hh' & Hs' & Hreqs & Hres); [|lia].
        rewrite Hrt in *.
        rewrite Hfs', Hinp', Hroot', Hkey', Hfs, Hinp, Hroot, Hkey. repeat split.
        exists k, (message "user" (retry_prompt e) :: ext), (chat_history st :: reqs).
        repeat split.
        -- lia.
        -- now rewrite Hsl', Hsl.
        -- rewrite Hh', Hh, <- app_assoc. reflexivity.
        -- rewrite Hs', Hsent, <- app_assoc. reflexivity.
        -- constructor; [exists []; now rewrite app_nil_r|].
           eapply Forall_impl; [exact Hreqs|]. cbn. intros body (x & ->).
           rewrite Hh, <- app_assoc. eauto.
        -- intros v Hv. destruct (Hres v Hv) as [Hok | (-> & Hk5 & Hc & Ho)];
             [now left|]. right. repeat split; auto.
           constructor; [now exists e | assumption].
    + rewrite Hfs, Hinp, Hroot, Hkey. repeat split.
      destruct Hcase as [(raw & v & [=] & _) | [(resp & [=] & _)
                        | [(lv' & e' & [=] & _) | (e' & _ & Hh & Hsl)]]].
      exists 0, [], [chat_history st]. cbn [backoff]. rewrite !app_nil_r.
      repeat split; auto; [lia | | discriminate].
      constructor; [|constructor]. exists []. now rewrite app_nil_r.
    + destruct Hcase as [(raw & v & [=] & _) | [(resp & [=] & _)
                        | [(lv' & e' & [=] & _) | (e' & [=] & _)]]].
  - cbn in H. injection H as <- <-. repeat split. exists 0, [], []. cbn [backoff].
    rewrite !app_nil_r. repeat split; [lia | constructor |].
    intros v [= <-]. right. repeat split; [lia | constructor | now exists (out st)].
Qed.

(** Property X4 (what [chat_with_ai] leaves alone). Whatever the endpoint
    does and however the call ends, [chat_with_ai] leaves the file system,
    the pending console input, the project root and the key alone; the
    history only grows, and starts growing with the user turn; every request
    carries the history with that turn; and the pauses taken are the first
    [k] of 2, 4, 8, 16, 32 seconds for some [k <= 5]. *)
Theorem chat_with_ai_invariants (fuel : nat) (user_input : string)
    (st st' : St) (r : res json) :
  chat_with_ai srv fuel user_input st = (r, st') ->
  fs st' = fs st /\ inp st' = inp st /\ root_dir st' = root_dir st
  /\ API_KEY st' = API_KEY st
  /\ (exists ext, chat_history st' = chat_history st ++ message "user" user_input :: ext)
  /\ (exists reqs,
        sent st' = sent st ++ reqs
        /\ Forall (fun body => exists ext,
                     body = chat_history st ++ message "user" user_input :: ext) reqs)
  /\ (exists k, k <= 5 /\ slept st' = slept st ++ backoff 0 k).
Proof.
  unfold chat_with_ai, bind, history_append, modify. intros H.
  apply retry_loop_inv in H
    as (Hfs & Hinp & Hroot & Hkey & k & ext & reqs & Hk & Hsl & Hh & Hs & Hreqs & _);
    [|cbn; lia].
  cbn in *. repeat split; auto.
  - exists ext. now rewrite Hh, <- app_assoc.
  - exists reqs. split; [assumption|].
    eapply Forall_impl; [exact Hreqs|]. cbn. intros body (x & ->).
    exists x. now rewrite <- app_assoc.
  - exists k. split; [lia | assumption].
Qed.

(** Property X3 (what [chat_with_ai] returns): either the value decoded from
    the text of the model message it has just put last in the history, or
    [None] after the fifth transport failure, with the pauses 2, 4, 8, 16,
    32 taken, the failure line printed last, and nothing but the user turn
    and corrective prompts added to the history (no model message). *)
Theorem chat_with_ai_result (fuel : nat) (user_input : string)
    (st st' : St) (v : json) :
  chat_with_ai srv fuel user_input st = (Ret v, st') ->
  (exists raw h,
      chat_history st' = h ++ [message "model" raw] /\ json_loads raw = Some v)
  \/ (v = JNull
      /\ slept st' = slept st ++ [2; 4; 8; 16; 32]%Z
      /\ (exists o, out st' = o ++ [failure_notice])
      /\ exists prompts,
           Forall corrective prompts
           /\ chat_history st' = chat_history st ++ message "user" user_input :: prompts).
Proof.
  unfold chat_with_ai, bind, history_append, modify. intros H.
  apply retry_loop_inv in H
    as (_ & _ & _ & _ & k & ext & reqs & Hk & Hsl & Hh & _ & _ & Hres);
    [|cbn; lia].
  cbn in *. destruct (Hres v eq_refl) as [Hok | (-> & Hk5 & Hc & Ho)]; [now left|].
  right. assert (k = 5) as -> by lia. repeat split; auto.
  exists ext. split; [assumption|]. now rewrite Hh, <- app_assoc.
Qed.

Lemma loop_body_failed (lv : locals) (st : St) :
  exchange_failed (srv (List.length (sent st))) = true ->
  exists content st',
    loop_body srv lv st = (Ret (Again (mkLocals (S (retries lv)) (Some content))), st')
    /\ sent st' = sent st ++ [chat_history st]
    /\ chat_history st' = chat_history st
    /\ slept st' = slept st ++ [2 ^ Z.of_nat (S (retries lv))]%Z
    /\ fs st' = fs st.
Proof.
  unfold exchange_failed, loop_body, bind, post.
  destruct (srv (List.length (sent st))) as [err | he content]; [discriminate|].
  destruct (Str.utf8 content) eqn:Hutf; [|discriminate].
  destruct (try_block (Response he content)) as [[] | ?]; try discriminate.
  intros _. exists content. cbn.
  destruct (Str.nonempty content); cbn; unfold bind; rewrite ?(decode_utf8 _ Hutf);
    cbn; eexists; repeat split.
Qed.

Lemma loop_body_accepts (lv : locals) (st : St) (raw : string) (parsed : json) :
  try_block (srv (List.length (sent st))) = inr (raw, parsed) ->
  exists st',
    loop_body srv lv st = (Ret (Returned parsed), st')
    /\ sent st' = sent st ++ [chat_history st]
    /\ chat_history st' = chat_history st ++ [message "model" raw]
    /\ slept st' = slept st /\ fs st' = fs st /\ out st' = out st.
Proof.
  intros Ht. unfold loop_body, bind, post. rewrite Ht. cbn.
  eexists. repeat split.
Qed.

Lemma retry_loop_retries (k : nat) :
  forall (lv : locals) (fuel : nat) (st : St) (raw : string) (parsed : json),
    retries lv + k < 5 -> k < fuel ->
    (forall i, i < k -> exchange_failed (srv (List.length (sent st) + i)) = true) ->
    try_block (srv (List.length (sent st) + k)) = inr (raw, parsed) ->
    exists st',
      retry_loop srv fuel lv st = (Ret parsed, st')
      /\ slept st' = slept st ++ backoff (retries lv) k
      /\ sent st' = sent st ++ List.repeat (chat_history st) (S k)
      /\ chat_history st' = chat_history st ++ [message "model" raw]
      /\ fs st' = fs st.
Proof.
  induction k as [|k IH]; intros lv fuel st raw parsed Hk Hfuel Hbad Hgood;
    (destruct fuel as [|fuel]; [lia|]); cbn [retry_loop];
    (destruct (Nat.ltb_spec (retries lv) 5); [|lia]).
  - rewrite Nat.add_0_r in Hgood.
    destruct (loop_body_accepts lv st raw parsed Hgood)
      as (st' & Hb & Hs & Hh & Hsl & Hfs & _).
    exists st'. unfold bind. rewrite Hb. cbn [backoff List.repeat].
    rewrite app_nil_r. auto.
  - destruct (loop_body_failed lv st) as (content & st1 & Hb & Hs & Hh & Hsl & Hfs).
    { rewrite <- (Nat.add_0_r (List.length (sent st))). apply Hbad. lia. }
    destruct (IH (mkLocals (S (retries lv)) (Some content)) fuel st1 raw parsed)
      as (st' & Hloop & Hsl' & Hs' & Hh' & Hfs').
    + cbn. lia.
    + lia.
    + intros i Hi. rewrite Hs, length_app. cbn [List.length].
      replace (List.length (sent st) + 1 + i) with (List.length (sent st) + S i) by lia.
      apply Hbad. lia.
    + rewrite Hs, length_app. cbn [List.length].
      now replace (List.length (sent st) + 1 + k) with (List.length (sent st) + S k) by lia.
    + exists st'. unfold bind at 1. rewrite Hb, Hloop.
      rewrite Hsl', Hs', Hh', Hfs', Hsl, Hs, Hh, Hfs, <- !app_assoc.
      cbn [retries backoff List.repeat app]. auto.
Qed.

(** Property X1 (transient transport failures). When the first [k < 5]
    exchanges of a turn fail with a response object (an HTTP error status, a
    body that is not JSON) whose body is UTF-8, so that the handler can
    decode it to show it, and the next reply is well formed, the call
    returns the parsed reply after [k + 1] requests that all carry the same
    history, having slept 2, 4, ... 2^k seconds; the history gains the user
    turn and the model's raw text, and nothing in between. *)
Theorem chat_with_ai_retries_then_succeeds (k fuel : nat) (user_input raw : string)
    (parsed : json) (st : St) :
  k < 5 -> k < fuel ->
  (forall i, i < k -> exchange_failed (srv (List.length (sent st) + i)) = true) ->
  try_block (srv (List.length (sent st) + k)) = inr (raw, parsed) ->
  exists st',
    chat_with_ai srv fuel user_input st = (Ret parsed, st')
    /\ slept st' = slept st ++ backoff 0 k
    /\ sent st'
       = sent st ++ List.repeat (chat_history st ++ [message "user" user_input]) (S k)
    /\ chat_history st'
       = chat_history st ++ [message "user" user_input; message "model" raw]
    /\ fs st' = fs st.
Proof.
  intros Hk Hfuel Hbad Hgood.
  destruct (retry_loop_retries k (mkLocals 0 None) fuel
              (set_chat_history (chat_history st ++ [message "user" user_input]) st)
              raw parsed)
    as (st' & Hloop & Hsl & Hs & Hh & Hfs); [cbn; lia | assumption.. |].
  exists st'. unfold chat_with_ai, bind, history_append, modify. rewrite Hloop.
  cbn in *. rewrite <- app_assoc in Hh. auto.
Qed.

Lemma retry_loop_repairs (n : nat) :
  forall (lv : locals) (fuel : nat) (st : St) (raw : string) (parsed : json),
    retries lv < 5 -> n < fuel ->
    (forall i, i < n -> reply_malformed (srv (List.length (sent st) + i)) = true) ->
    try_block (srv (List.length (sent st) + n)) = inr (raw, parsed) ->
    exists st' prompts,
      retry_loop srv fuel lv st = (Ret parsed, st')
      /\ List.length prompts = n /\ Forall corrective prompts
      /\ chat_history st' = chat_history st ++ prompts ++ [message "model" raw]
      /\ slept st' = slept st
      /\ List.length (sent st') = List.length (sent st) + n + 1
      /\ fs st' = fs st.
Proof.
  induction n as [|n IH]; intros lv fuel st raw parsed Hlt Hfuel Hbad Hgood;
    (destruct fuel as [|fuel]; [lia|]); cbn [retry_loop];
    (destruct (Nat.ltb_spec (retries lv) 5); [|lia]).
  - rewrite Nat.add_0_r in Hgood.
    destruct (loop_body_accepts lv st raw parsed Hgood)
      as (st' & Hb & Hs & Hh & Hsl & Hfs & _).
    exists st', []. unfold bind. rewrite Hb. rewrite Hs, length_app. cbn.
    repeat split; auto; lia.
  - destruct (loop_body_malformed srv lv st)
      as (e & st1 & Hb & Hs & Hh & Hsl & Hfs & _).
    { rewrite <- (Nat.add_0_r (List.length (sent st))). apply Hbad. lia. }
    destruct (IH (assign_response (srv (List.length (sent st))) lv) fuel st1 raw parsed)
      as (st' & prompts & Hloop & Hlen & Hc & Hh' & Hsl' & Hs' & Hfs').
    + now rewrite retries_assign_response.
    + lia.
    + intros i Hi. rewrite Hs, length_app. cbn [List.length].
      replace (List.length (sent st) + 1 + i) with (List.length (sent st) + S i) by lia.
      apply Hbad. lia.
    + rewrite Hs, length_app. cbn [List.length].
      now replace (List.length (sent st) + 1 + n) with (List.length (sent st) + S n) by lia.
    + exists st', (message "user" (retry_prompt e) :: prompts).
      unfold bind at 1. rewrite Hb, Hloop.
      rewrite Hh', Hsl', Hs', Hfs', Hh, Hsl, Hs, Hfs, length_app, <- app_assoc.
      cbn [List.length app]. repeat split; auto; [| lia].
      constructor; [now exists e | assumption].
Qed.

(** Property X2 (repair of malformed replies). When the first [n] replies of
    a turn do not parse and the next one does, the call returns the parsed
    reply after [n + 1] requests without sleeping; the history gains the
    user turn, one corrective prompt per malformed reply, and the raw text
    of the accepted reply: a reply that did not parse is neither returned
    nor recorded. *)
Theorem chat_with_ai_repairs_then_succeeds (n fuel : nat) (user_input raw : string)
    (parsed : json) (st : St) :
  n < fuel ->
  (forall i, i < n -> reply_malformed (srv (List.length (sent st) + i)) = true) ->
  try_block (srv (List.length (sent st) + n)) = inr (raw, parsed) ->
  exists st' prompts,
    chat_with_ai srv fuel user_input st = (Ret parsed, st')
    /\ List.length prompts = n /\ Forall corrective prompts
    /\ chat_history st'
       = chat_history st ++ message "user" user_input :: prompts ++ [message "model" raw]
    /\ slept st' = slept st
    /\ List.length (sent st') = List.length (sent st) + n + 1.
Proof.
  intros Hfuel Hbad Hgood.
  destruct (retry_loop_repairs n (mkLocals 0 None) fuel
              (set_chat_history (chat_history st ++ [message "user" user_input]) st)
              raw parsed)
    as (st' & prompts & Hloop & Hlen & Hc & Hh & Hsl & Hs & _);
    [cbn; lia | assumption.. |].
  exists st', prompts. unfold chat_with_ai, bind, history_append, modify. rewrite Hloop.
  cbn in *. rewrite <- app_assoc in Hh. repeat split; assumption.
Qed.

End ConversationInvariants.

Section SortedFacts.

Lemma ltb_lt (a b : string) : String.ltb a b = true <-> String_as_OT.lt a b.
Proof.
  unfold String.ltb. rewrite <- String_as_OT.cmp_lt. unfold String_as_OT.cmp.
  destruct (String.compare a b); split; congruence.
Qed.

Lemma ltb_trans (a b c : string) :
  String.ltb a b = true -> String.ltb b c = true -> String.ltb a c = true.
Proof. rewrite !ltb_lt. apply String_as_OT.lt_trans. Qed.

Lemma ltb_asym (a b : string) : String.ltb a b = true -> String.ltb b a = false.
Proof.
  intros H. destruct (String.ltb b a) eqn:E; [|reflexivity].
  pose proof (ltb_trans _ _ _ H E) as Hc. apply ltb_lt in Hc.
  exfalso. apply (String_as_OT.lt_not_eq _ _ Hc). reflexivity.
Qed.

Lemma ltb_total (a b c : string) :
  String.ltb a b = false -> String.ltb b c = false -> String.ltb a c = false.
Proof.
  unfold String.ltb. intros H1 H2.
  destruct (String.compare a c) eqn:E; try reflexivity. exfalso.
  apply String_as_OT.cmp_lt in E.
  destruct (String.compare a b) eqn:E1; [| discriminate |].
  - apply String_as_OT.cmp_eq in E1 as <-.
    apply String_as_OT.cmp_lt in E. unfold String_as_OT.cmp in E.
    now rewrite E in H2.
  - assert (String_as_OT.lt b a) as Hba.
    { apply String_as_OT.cmp_lt. unfold String_as_OT.cmp.
      rewrite String_as_OT.cmp_antisym. unfold String_as_OT.cmp. now rewrite E1. }
    pose proof (String_as_OT.lt_trans _ _ _ Hba E) as Hbc.
    apply String_as_OT.cmp_lt in Hbc. unfold String_as_OT.cmp in Hbc.
    now rewrite Hbc in H2.
Qed.

Context {A : Type} (key : A -> string).

Lemma insert_sorted_perm (x : A) (l : list A) :
  Permutation (insert_sorted key x l) (x :: l).
Proof.
  induction l as [|y l IH]; cbn; [reflexivity|].
  destruct (String.ltb (key x) (key y)); [reflexivity|].
  rewrite IH. apply perm_swap.
Qed.

Lemma insert_sorted_sorted (x : A) (l : list A) :
  StronglySorted (not_after key) l -> StronglySorted (not_after key) (insert_sorted key x l).
Proof.
  induction 1 as [|y l Hs IH Hy]; cbn.
  - constructor; constructor.
  - destruct (String.ltb (key x) (key y)) eqn:E.
    + constructor; [now constructor|]. constructor.
      * now apply ltb_asym.
      * eapply Forall_impl; [exact Hy|]. unfold not_after. cbn. intros z Hz.
        apply ltb_asym in E. eapply ltb_total; eassumption.
    + constructor; [exact IH|].
      rewrite insert_sorted_perm. constructor; [exact E | exact Hy].
Qed.

Lemma sorted_spec (l : list A) :
  Permutation (sorted key l) l /\ StronglySorted (not_after key) (sorted key l).
Proof.
  unfold sorted.
  assert (forall acc, StronglySorted (not_after key) acc ->
            Permutation (fold_left (fun acc x => insert_sorted key x acc) l acc) (l ++ acc)
            /\ StronglySorted (not_after key)
                 (fold_left (fun acc x => insert_sorted key x acc) l acc)) as H.
  { induction l as [|x l IH]; intros acc Hacc; cbn; [now split|].
    destruct (IH (insert_sorted key x acc) (insert_sorted_sorted x acc Hacc)) as [Hp Hs].
    split; [|exact Hs]. rewrite Hp, insert_sorted_perm.
    symmetry. apply Permutation_middle. }
  destruct (H [] (SSorted_nil _)) as [Hp Hs]. rewrite app_nil_r in Hp. now split.
Qed.

End SortedFacts.

Section ListingRuns.
Context {Jsn : Json} {Sys : Os}.

Lemma print_each_run (prefix : string) (l : list string) (st : St) :
  print_each prefix l st
  = (Ret tt, set_out (out st ++ map (fun x => prefix +:+ x) l) st).
Proof.
  revert st. induction l as [|x l IH]; intros st; cbn [print_each map].
  - rewrite app_nil_r. now destruct st.
  - unfold bind, print, modify. rewrite IH. cbn. now rewrite <- app_assoc.
Qed.

Lemma list_files_loop_run (root : Path)
    (items : list (string * list string * list string)) (st : St) :
  list_files_loop root items st
  = (Ret tt, set_out (out st ++ flat_map (dir_lines root) items) st).
Proof.
  revert st. induction items as [|[[d ds] fl] items IH]; intros st;
    cbn [list_files_loop flat_map].
  - rewrite app_nil_r. now destruct st.
  - unfold bind at 1. unfold print at 1, modify. unfold bind at 1.
    rewrite print_each_run, IH. unfold dir_lines. cbn.
    rewrite <- !app_assoc. reflexivity.
Qed.

End ListingRuns.

Section Frames.
Context {Jsn : Json} {Sys : Os}.

Lemma quiet_trans (s1 s2 s3 : St) : quiet s1 s2 -> quiet s2 s3 -> quiet s1 s3.
Proof.
  intros (H1 & H2 & H3 & H4 & l1 & H5) (G1 & G2 & G3 & G4 & l2 & G5).
  repeat split; try congruence. exists (l1 ++ l2). now rewrite G5, H5, app_assoc.
Qed.

Lemma steady_refl (st : St) : steady st st.
Proof. repeat split. exists []. now rewrite app_nil_r. Qed.

Lemma steady_trans (s1 s2 s3 : St) : steady s1 s2 -> steady s2 s3 -> steady s1 s3.
Proof.
  intros (H1 & H2 & H3) (G1 & G2 & G3).
  split; [eapply quiet_trans; eassumption | split; congruence].
Qed.

Lemma steady_set_fs (st : St) (f : FS) : steady st (set_fs f st).
Proof. repeat split. exists []. cbn. now rewrite app_nil_r. Qed.

Lemma steady_fs_out (st : St) (f : FS) (l : list string) :
  steady st (set_out (out st ++ l) (set_fs f st)).
Proof. repeat split. now exists l. Qed.

Lemma save_project_state_steady (st st' : St) (r : res unit) :
  save_project_state st = (r, st') -> steady st st'.
Proof.
  intros H. unfold save_project_state in H.
  repeat run_inv; auto using steady_refl, steady_set_fs.
  all: repeat split; cbn; exists []; now rewrite app_nil_r.
Qed.

Lemma create_item_steady (root : Path) (p : string) (c : json) (st st' : St)
    (r : res unit) :
  create_item root p c st = (r, st') -> steady st st'.
Proof.
  intros H. unfold create_item in H.
  repeat run_inv; auto using steady_refl, steady_set_fs, steady_fs_out.
  all: repeat split; cbn; first [ now eexists | exists []; now rewrite app_nil_r ].
Qed.

Lemma create_files_loop_steady (root : Path) (items : list (string * json)) :
  forall (st st' : St) (r : res unit),
    create_files_loop root items st = (r, st') -> steady st st'.
Proof.
  induction items as [|[p c] items IH]; intros st st' r H; cbn [create_files_loop] in H.
  - run_inv. apply steady_refl.
  - apply bind_inv in H.
    destruct H as [([] & s1 & Hi & Hr) | [(e & Hi & ->) | (Hi & ->)]];
      apply create_item_steady in Hi; [|assumption..].
    eapply steady_trans; [exact Hi | eapply IH; exact Hr].
Qed.

Lemma write_slides_steady (p : Path) (slides : list json) :
  forall (i : nat) (st st' : St) (r : res unit),
    write_slides p i slides st = (r, st') -> steady st st'.
Proof.
  induction slides as [|s slides IH]; intros i st st' r H; cbn [write_slides] in H.
  - run_inv. apply steady_refl.
  - repeat run_inv; auto using steady_refl, steady_set_fs.
    all: try (apply IH in H; eapply steady_trans; [|exact H]).
    all: repeat split; cbn; exists []; now rewrite app_nil_r.
Qed.

Ltac out_grows :=
  cbn;
  first [ eexists; eassumption
        | exists []; rewrite app_nil_r; reflexivity
        | eexists; reflexivity
        | eexists; rewrite <- app_assoc; reflexivity
        | match goal with
          | H : out _ = _ ++ _ |- _ =>
              eexists; rewrite H, <- ?app_assoc; reflexivity
          end ].

Ltac loop_frames :=
  repeat match goal with
  | H : save_project_state _ = _ |- _ => apply save_project_state_steady in H
  | H : create_files_loop _ _ _ = _ |- _ => apply create_files_loop_steady in H
  | H : write_slides _ _ _ _ = _ |- _ => apply write_slides_steady in H
  | H : list_files_loop _ _ _ = _ |- _ =>
      rewrite list_files_loop_run in H; simplify_eq
  | H : steady _ _ |- _ =>
      let l := fresh "l" in
      destruct H as ((? & ? & ? & ? & l & ?) & ? & ?)
  end; cbn [fs out inp sent slept root_dir chat_history API_KEY
            set_fs set_out set_inp set_sent set_slept set_root_dir
            set_chat_history set_API_KEY] in *.

(** The pending input is read by init_project only. *)
Lemma execute_action_inp (action : json) (st st' : St) (r : res unit) :
  execute_action action st = (r, st') ->
  (exists c, Py.get action "command" JNull = inr c
             /\ Py.eq_str c "init_project" = true)
  \/ inp st' = inp st.
Proof.
  intros H. unfold execute_action in H.
  repeat run_inv; loop_frames.
  all: first [ right; cbn; congruence
             | left; eexists; split; [reflexivity | assumption] ].
Qed.

(** Property X5 (what [execute_action] leaves alone), whatever the action
    and however the call ends: the history, the requests sent, the clock and
    the key are never touched and the console only gains lines; the project
    root and the pending input change only under init_project; the file
    system changes only under init_project, create_files, milestones and
    create_presentation_plan. *)
Theorem execute_action_frame (action : json) (st st' : St) (r : res unit) :
  execute_action action st = (r, st') ->
  quiet st st'
  /\ ((exists c, Py.get action "command" JNull = inr c
                 /\ Py.eq_str c "init_project" = true)
      \/ (root_dir st' = root_dir st /\ inp st' = inp st))
  /\ ((exists c, Py.get action "command" JNull = inr c /\ writes_files c = true)
      \/ fs st' = fs st).
Proof.
  intros H. unfold execute_action in H.
  repeat run_inv; loop_frames.
  all: split; [repeat split; cbn; try congruence; out_grows|].
  all: split;
    [first [ right; split; cbn; congruence
           | left; eexists; split; [reflexivity | assumption] ]|].
  all: first [ right; cbn; congruence
             | left; eexists; split; [reflexivity|]; unfold writes_files;
               repeat match goal with E : Py.eq_str _ _ = _ |- _ => rewrite E end;
               reflexivity ].
Qed.

(** Property X11 (list_files only prints). list_files cannot fail and only
    prints: the process is as before but for the console, which gains the
    header line (or the notice that no project exists) and the listing; the
    payload of the action plays no part. *)
Theorem list_files_only_prints (payload : json) (st : St) :
  exists first rest,
    execute_action (action_of "list_files" payload) st
    = (Ret tt, set_out (out st ++ first :: rest) st)
    /\ (forall root, root_dir st = Some root ->
          first = "Directory structure for '" +:+ path_name root +:+ "':")
    /\ forall payload',
         execute_action (action_of "list_files" payload') st
         = execute_action (action_of "list_files" payload) st.
Proof.
  unfold execute_action, action_of, bind, lift, gets, ret. cbn.
  destruct (root_dir st) as [root|] eqn:Hr.
  - unfold print, modify. rewrite list_files_loop_run. cbn. rewrite <- app_assoc.
    eexists _, _. split; [reflexivity | split; [now intros ? [= <-] | reflexivity]].
  - eexists _, []. split; [reflexivity | split; [discriminate | reflexivity]].
Qed.

End Frames.

Section ListingFacts.
Context {Jsn : Json} {Sys : Os}.

(** Property X10 (the listing). With a project root, list_files prints the
    header and then, for each directory that [os.walk] reports, taken in the
    order of the directory paths, one line for the directory followed by one
    line per file of it, the files in ascending order; the sub-directory
    names that [os.walk] gives with each entry are not printed. [sorted]
    keeps every entry, once, and puts no entry after one it precedes. *)
Theorem list_files_listing (payload : json) (root : Path) (st : St) :
  root_dir st = Some root ->
  execute_action (action_of "list_files" payload) st
  = (Ret tt,
     set_out (out st ++ ("Directory structure for '" +:+ path_name root +:+ "':")
                        :: flat_map (dir_lines root)
                             (sorted (fun it => fst (fst it)) (fs_walk (fs st) root)))
       st)
  /\ (forall files : list string,
        Permutation (sorted (fun f => f) files) files
        /\ StronglySorted (not_after (fun f => f)) (sorted (fun f => f) files))
  /\ (forall items : list (string * list string * list string),
        Permutation (sorted (fun it => fst (fst it)) items) items
        /\ StronglySorted (not_after (fun it => fst (fst it)))
             (sorted (fun it => fst (fst it)) items)).
Proof.
  intros Hr. split; [|split; intros; apply sorted_spec].
  unfold execute_action, action_of, bind, lift, gets, ret. cbn.
  rewrite Hr. unfold print, modify. rewrite list_files_loop_run. cbn.
  rewrite <- app_assoc. reflexivity.
Qed.

End ListingFacts.

Section ExecutorEdges.
Context {Jsn : Json} {Sys : Os}.

Lemma set_fs_same (st : St) : st = set_fs (fs st) st.
Proof. now destruct st. Qed.

Lemma write_slides_only_writes (p : Path) (slides : list json) :
  forall (i : nat) (st st' : St) (r : res unit),
    write_slides p i slides st = (r, st') ->
    out st' = out st /\ r <> OutOfFuel.
Proof.
  induction slides as [|s slides IH]; intros i st st' r H; cbn [write_slides] in H.
  - run_inv. now split.
  - repeat run_inv; try (now split).
    apply IH in H. exact H.
Qed.

(** Property X12 (errors of the milestones command are reported, not
    raised): with a project root the command always returns, and prints
    exactly one line, either its report or the text of the error of the
    [open] or [write] call that failed. *)
Theorem milestones_errors_are_reported (root : Path) (payload : json)
    (st st' : St) (r : res unit) :
  root_dir st = Some root ->
  execute_action (action_of "milestones" payload) st = (r, st') ->
  let p := path_div root MILESTONE_FILE in
  r = Ret tt
  /\ (out st' = out st ++ [milestones_report root]
      \/ exists e,
           out st' = out st ++ ["Error writing to milestone file: " +:+ exn_str e]
           /\ (fs_open_w (fs st) p = inl e
               \/ exists f, fs_open_w (fs st) p = inr f
                            /\ fs_write f p (json_dumps payload) = inl e)).
Proof.
  intros Hr H p. unfold execute_action, action_of in H.
  repeat run_inv; cbn in *; simplify_eq; split; try reflexivity.
  all: first [ left; reflexivity
             | right; eexists; split; [reflexivity|];
               first [ left; eassumption | right; eauto ] ].
Qed.


(** Property X15 (a title that is not a text). The file name is computed
    before the [try]: a title that is not a text has no [replace], and the
    [AttributeError] leaves [execute_action] with nothing printed and
    nothing written. *)
Theorem presentation_plan_title_must_be_text (root : Path) (payload v : json) (st : St) :
  root_dir st = Some root ->
  Py.get payload "title" (JStr "presentation-plan") = inr v ->
  (forall s, v <> JStr s) ->
  execute_action (action_of "create_presentation_plan" payload) st
  = (Raise (Py.no_attribute v "replace"), st).
Proof.
  intros Hr Ht Hv. unfold execute_action, action_of, bind, lift, gets, ret, raise. cbn.
  rewrite Hr, Ht. destruct v; try reflexivity. now destruct (Hv s).
Qed.

(** Property X8 (the root set by init_project). init_project takes the name
    from the payload when it has a true one, and otherwise from the
    operator's next line; when it returns, the global root is the working
    directory joined with that name, whatever it was before, the history is
    as it was, and the last line printed names the directory. *)
Theorem init_project_sets_root (payload : json) (st st' : St) :
  execute_action (action_of "init_project" payload) st = (Ret tt, st') ->
  exists name,
    root_dir st' = Some (path_div path_cwd name)
    /\ ((Py.get payload "project_name" JNull = inr (JStr name)
         /\ name <> "" /\ inp st' = inp st)
        \/ (inp st = name :: inp st'
            /\ exists v, Py.get payload "project_name" JNull = inr v
                         /\ Py.truthy v = false))
    /\ chat_history st' = chat_history st
    /\ exists o, out st' = o ++ ["Project directory created at: "
                                 +:+ path_str (path_div path_cwd name)].
Proof.
  intros H. unfold execute_action, action_of in H.
  repeat run_inv.
  all: match goal with
       | Hs : save_project_state ?s = (Ret tt, _) |- _ =>
           assert (exists f, st' = set_fs f s) as (f' & ->)
             by (unfold save_project_state in Hs; repeat run_inv;
                 first [ eexists; reflexivity | eexists; apply set_fs_same ])
       end.
  all: try match goal with
       | E : div_value _ ?v = inr _ |- _ => destruct v; cbn in E; simplify_eq
       end.
  all: cbn.
  - eexists. split; [reflexivity|]. split; [|split; [reflexivity | eexists; reflexivity]].
    left. repeat split. intros ->. discriminate.
  - eexists. split; [reflexivity|]. split; [|split; [reflexivity | eexists; reflexivity]].
    right. split; [reflexivity | eauto].
Qed.

(** Property X9 (init_project when [mkdir] fails). The global root is
    assigned before the directory is made: when [mkdir] fails its exception
    leaves [execute_action], nothing is printed or saved, and [root_dir]
    already names the directory that could not be made. *)
Theorem init_project_mkdir_failure (payload : json) (name : string) (e : exn) (st : St) :
  Py.get payload "project_name" JNull = inr (JStr name) ->
  name <> "" ->
  fs_mkdir_p (fs st) (path_div path_cwd name) = inl e ->
  execute_action (action_of "init_project" payload) st
  = (Raise e, set_root_dir (Some (path_div path_cwd name)) st).
Proof.
  intros Hn Hne Hm. unfold execute_action, action_of, bind, lift, gets, ret, raise. cbn.
  rewrite Hn. cbn. destruct name as [|c name]; [contradiction|]. cbn.
  unfold mkdir_p, on_fs. cbn. now rewrite Hm.
Qed.

End ExecutorEdges.

Section PlanDocument.
Context {Jsn : Json} {Sys : Os}.
Context {OL : OsLaws Sys}.

Ltac norm_text :=
  unfold Str.nl;
  repeat (progress (rewrite ?append_assoc; cbn [String.append])).

Lemma write_slides_text (p : Path) (slides : list json) :
  forall (i : nat) (st st' : St) (c : string),
    write_slides p i slides st = (Ret tt, st') ->
    fs_read (fs st) p = inr c ->
    exists t, slides_text i slides = inr t /\ fs_read (fs st') p = inr (c +:+ t).
Proof.
  induction slides as [|s slides IH]; intros i st st' c H Hc; cbn [write_slides] in H.
  - run_inv. exists "". split; [reflexivity|]. now rewrite append_nil_r.
  - repeat run_inv. cbn [fs set_fs] in *.
    chain_reads.
    match goal with
    | R : fs_read _ p = inr _ |- _ =>
        destruct (IH _ _ _ _ H R) as (t & Ht & Hread)
    end.
    cbn [slides_text]. unfold slide_text.
    repeat match goal with E : Py.get _ _ _ = inr _ |- _ => rewrite E; clear E end.
    cbn [and_then]. rewrite Ht. cbn [and_then].
    eexists. split; [reflexivity|]. rewrite Hread.
    norm_text. reflexivity.
Qed.

(** Property X13 (the presentation plan, for every payload whose title is
    an ASCII text, so that [str.lower] acts on the letters A to Z only):
    whenever the command reports the creation, the file [<slug>.md] under
    the root holds exactly the title heading (or its default), the audience
    line and a rule, followed by one numbered section per slide, each
    closed by a rule, defaults standing in for missing headings and
    contents. *)
Theorem presentation_plan_document (root : Path) (payload : json) (title : string)
    (st st' : St) (r : res unit) :
  root_dir st = Some root ->
  Py.get payload "title" (JStr "presentation-plan") = inr (JStr title) ->
  Str.is_ascii title = true ->
  execute_action (action_of "create_presentation_plan" payload) st = (r, st') ->
  out st' = out st ++ [presentation_report (plan_path root title)] ->
  exists text,
    plan_text payload = inr text
    /\ fs_read (fs st') (plan_path root title) = inr text.
Proof.
  intros Hr Ht _ H Hout. unfold execute_action, action_of in H.
  repeat run_inv; cbn in *; simplify_eq.
  all: repeat match goal with
       | Hw : write_slides _ _ _ _ = (?r, _) |- _ =>
           lazymatch r with
           | Ret _ => fail
           | _ => apply write_slides_only_writes in Hw as [Hw ?]; cbn in Hw
           end
       end.
  all: try congruence.
  all: try (rewrite ?Hw in Hout; apply last_line_inv in Hout; discriminate).
  all: try match goal with
       | Hw : out _ = out _ |- _ =>
           rewrite Hw in Hout; apply last_line_inv in Hout; discriminate
       end.
  repeat match goal with u : unit |- _ => destruct u end.
  chain_reads.
  match goal with
  | Hw : write_slides _ _ _ _ = (Ret tt, _), R : fs_read _ _ = inr _ |- _ =>
      destruct (write_slides_text _ _ _ _ _ _ Hw R) as (t & Hst & Hread)
  end.
  unfold plan_text, plan_path.
  repeat match goal with E : Py.get _ _ _ = inr _ |- _ => rewrite E; clear E end.
  cbn [and_then].
  match goal with E : Py.iter _ = inr _ |- _ => rewrite E end.
  cbn [and_then]. rewrite Hst. cbn [and_then].
  eexists. split; [reflexivity|]. cbn in Hread. cbn [Str.replace]. rewrite Hread.
  norm_text. reflexivity.
Qed.

End PlanDocument.

Section SlugFacts.
Context {Jsn : Json} {Sys : Os}.





End SlugFacts.

Section LoopFacts.
Context {Jsn : Json} {Sys : Os}.
Variable srv : nat -> Reply.

(** Property X18 (a reply without a message). The reply's message is read
    with [response['message']]: a reply that is true but has no such entry
    (or is no object at all) makes the turn raise before anything is printed
    and before its action is looked at. *)
Theorem handle_response_needs_message (response : json) (e : exn) (st : St) :
  Py.truthy response = true ->
  Py.getitem response "message" = inl e ->
  handle_response response st = (Raise e, st).
Proof.
  intros Ht Hm. unfold handle_response, bind, lift, raise. now rewrite Ht, Hm.
Qed.

(** Property X17 (actions not flagged for approval). Such an action runs at
    once: the turn is the printed message, the action, and the save, with no
    question asked; unless the command is init_project (which asks for a
    missing name) no input is read. *)
Theorem unflagged_action_runs_unprompted (response m action ra : json) (st : St) :
  Py.getitem response "message" = inr m ->
  Py.get response "action" JNull = inr action -> Py.truthy action = true ->
  Py.get response "requires_approval" (JBool false) = inr ra -> Py.truthy ra = false ->
  handle_response response st
  = (execute_action action;; save_project_state)
      (set_out (out st ++ [Str.nl +:+ "AI: " +:+ py_str m]) st)
  /\ forall r st',
       handle_response response st = (r, st') ->
       (exists c, Py.get action "command" JNull = inr c
                  /\ Py.eq_str c "init_project" = true)
       \/ inp st' = inp st.
Proof.
  intros Hm Ha Hta Hra Htr.
  assert (handle_response response st
          = (execute_action action;; save_project_state)
              (set_out (out st ++ [Str.nl +:+ "AI: " +:+ py_str m]) st)) as Heq.
  { unfold handle_response.
    assert (Py.truthy response = true) as ->.
    { destruct response as [ | | | | | [|kv kvs]]; try discriminate; reflexivity. }
    unfold bind at 1. unfold lift at 1. rewrite Hm. unfold ret at 1.
    unfold bind at 1. unfold print at 1, modify.
    unfold bind at 1. unfold lift at 1. rewrite Ha. unfold ret at 1.
    unfold bind at 1. unfold lift at 1. rewrite Hra. unfold ret at 1.
    rewrite Hta, Htr. reflexivity. }
  split; [exact Heq|]. intros r st' H. rewrite Heq in H.
  apply bind_inv in H.
  destruct H as [([] & s1 & He & Hs) | [(e & He & ->) | (He & ->)]];
    apply execute_action_inp in He as Hin;
    try apply save_project_state_steady in Hs as (_ & _ & Hs).
  all: destruct Hin as [Hin | Hin]; [now left | right; cbn in *; congruence].
Qed.

Lemma chat_with_ai_inp (fuel : nat) (u : string) (st st' : St) (r : res json) :
  chat_with_ai srv fuel u st = (r, st') -> inp st' = inp st.
Proof.
  unfold chat_with_ai, bind, history_append, modify. intros H.
  now apply retry_loop_inv in H as (_ & Hinp & _); [|cbn; lia].
Qed.

Lemma main_loop_step (fuel : nat) (st : St) :
  main_loop srv (S fuel) st
  = (user_input <- input (Str.nl +:+ "You: ");;
     if String.eqb (Str.lower user_input) "exit" || String.eqb (Str.lower user_input) "quit"
     then print "Goodbye!"
     else
       response <- chat_with_ai srv fuel user_input;;
       handle_response response;;
       main_loop srv fuel) st.
Proof. reflexivity. Qed.

Lemma main_loop_exit (fuel : nat) (line : string) (rest : list string) (st : St) :
  inp st = line :: rest ->
  Str.lower line = "exit" \/ Str.lower line = "quit" ->
  main_loop srv (S fuel) st
  = (Ret tt, set_out (out st ++ [Str.nl +:+ "You: "; "Goodbye!"]) (set_inp rest st)).
Proof.
  intros Hinp Hexit. rewrite main_loop_step. unfold bind, input. rewrite Hinp.
  assert (String.eqb (Str.lower line) "exit" || String.eqb (Str.lower line) "quit" = true)
    as ->.
  { destruct Hexit as [-> | ->]; reflexivity. }
  unfold print, modify. cbn [out inp set_out set_inp fs sent slept root_dir chat_history API_KEY].
  rewrite <- app_assoc. reflexivity.
Qed.

(** Property X19 (a failed turn does not end the session). A turn whose five
    attempts all fail with an HTTP error status and a body in UTF-8 (which
    the handler decodes to print it) does not end the session: the loop
    reports the error, keeps the user turn in the history, leaves the file
    system alone, and goes on to read the next line, here the operator's
    exit. *)
Theorem main_loop_continues_after_failed_turn (fuel : nat) (u line : string)
    (rest : list string) (st : St) :
  (forall n, exists err content,
      srv n = Response (Some err) content /\ Str.utf8 content = true) ->
  inp st = u :: line :: rest ->
  Str.lower u <> "exit" -> Str.lower u <> "quit" ->
  Str.lower line = "exit" \/ Str.lower line = "quit" ->
  5 <= fuel ->
  exists st',
    main_loop srv (S fuel) st = (Ret tt, st')
    /\ slept st' = slept st ++ [2; 4; 8; 16; 32]%Z
    /\ chat_history st' = chat_history st ++ [message "user" u]
    /\ fs st' = fs st /\ inp st' = rest
    /\ exists o, out st' = o ++ ["Sorry, I encountered an error. Please try again.";
                                Str.nl +:+ "You: "; "Goodbye!"].
Proof.
  intros Hsrv Hinp Hne Hnq Hexit Hfuel.
  destruct fuel as [|fuel]; [lia|].
  rewrite main_loop_step. unfold bind at 1. unfold input at 1. rewrite Hinp.
  apply String.eqb_neq in Hne, Hnq. rewrite Hne, Hnq. cbn [orb].
  set (st0 := set_inp (line :: rest) (set_out (out st ++ [Str.nl +:+ "You: "]) st)).
  destruct (chat_with_ai_http_errors_give_up srv Hsrv (S fuel) u st0 Hfuel)
    as (st1 & Hchat & Hsl & _ & Hh & Hfs).
  pose proof (chat_with_ai_inp _ _ _ _ _ Hchat) as Hi.
  unfold bind at 1. rewrite Hchat.
  unfold bind at 1. unfold handle_response at 1. cbn [Py.truthy].
  unfold print at 1, modify.
  rewrite (main_loop_exit fuel line rest); [| exact Hi | exact Hexit].
  eexists. split; [reflexivity|]. cbn [slept chat_history fs inp out set_out set_inp].
  rewrite Hsl, Hh, Hfs. repeat split.
  exists (out st1). rewrite <- !app_assoc. reflexivity.
Qed.

End LoopFacts.

Section DescriptionFacts.
Context {Jsn : Json} {Sys : Os}.

Lemma paths_where_length (keep : json -> bool) (items : list (string * json)) :
  List.length (paths_where keep items)
  + List.length (paths_where (fun c => negb (keep c)) items)
  = List.length items.
Proof.
  unfold paths_where. induction items as [|[k v] items IH]; [reflexivity|].
  cbn. destruct (keep v); cbn; lia.
Qed.

(** Property X7 (what the approval gate announces for create_files): every
    path of the payload is named exactly once, among the directories when
    its content is the sentinel and among the files otherwise; the
    announcement lists the directories, then the files, each list joined
    by ", " in the order of the payload, under the headings "create the
    following directories: " and "files: " (or "create the following
    files: " when there is no directory), and ends with a full stop; it is
    empty only for an empty payload. *)
Theorem create_files_description (items : list (string * json)) :
  let dirs := paths_where (fun c => Py.eq_str c CREATE_DIR) items in
  let files := paths_where (fun c => negb (Py.eq_str c CREATE_DIR)) items in
  Permutation (dirs ++ files) (map fst items)
  /\ (forall p c, In (p, c) items ->
        if Py.eq_str c CREATE_DIR then In p dirs else In p files)
  /\ exists d,
       action_description (JStr "create_files") (JObj items) = inr d
       /\ d = match dirs, files with
              | [], [] => ""
              | [], _ :: _ => "create the following files: " +:+ Str.join ", " files +:+ "."
              | _ :: _, [] =>
                  "create the following directories: " +:+ Str.join ", " dirs +:+ "."
              | _ :: _, _ :: _ =>
                  "create the following directories: " +:+ Str.join ", " dirs
                  +:+ " and files: " +:+ Str.join ", " files +:+ "."
              end
       /\ (d = "" <-> items = []).
Proof.
  cbn zeta. split; [|split].
  - unfold paths_where. induction items as [|[k v] items IH]; [constructor|].
    cbn. destruct (Py.eq_str v CREATE_DIR); cbn.
    + now constructor.
    + etransitivity; [symmetry; apply Permutation_middle | now constructor].
  - unfold paths_where. intros p c Hin.
    destruct (Py.eq_str c CREATE_DIR) eqn:E;
      apply (in_map fst _ (p, c)), filter_In; cbn; rewrite E; auto.
  - unfold action_description. cbn [Py.eq_str String.eqb Ascii.eqb Bool.eqb Py.items and_then].
    cbv iota.
    pose proof (paths_where_length (fun c => Py.eq_str c CREATE_DIR) items) as Hlen.
    destruct (paths_where (fun c => negb (Py.eq_str c CREATE_DIR)) items) as [|f fl];
      destruct (paths_where (fun c => Py.eq_str c CREATE_DIR) items) as [|d dl];
      eexists; (split; [reflexivity|]); (split; [reflexivity|]); cbn in Hlen.
    + destruct items; [tauto | discriminate].
    + split; [discriminate | intros ->; discriminate].
    + split; [discriminate | intros ->; discriminate].
    + split; [discriminate | intros ->; discriminate].
Qed.

End DescriptionFacts.

Section ApprovalFacts.
Context {Jsn : Json} {Sys : Os}.

(** Property X27 (an approved action). For a reply flagged for approval, the
    operator sees the model's message, the description derived from the
    command and its payload (when there is one), and the question; an answer
    that is "y" in either case makes the turn go on exactly as for an action
    that needs no approval: the action is executed, then the state is saved. *)
Theorem approved_action_runs (response m action ra command payload : json)
    (description answer : string) (rest : list string) (st : St) :
  Py.getitem response "message" = inr m ->
  Py.get response "action" JNull = inr action -> Py.truthy action = true ->
  Py.get response "requires_approval" (JBool false) = inr ra -> Py.truthy ra = true ->
  Py.get action "command" JNull = inr command ->
  Py.get action "payload" (JObj []) = inr payload ->
  action_description command payload = inr description ->
  inp st = answer :: rest ->
  Str.lower answer = "y" ->
  handle_response response st
  = (execute_action action;; save_project_state)
      (set_inp rest
         (set_out
            (out st
             ++ [Str.nl +:+ "AI: " +:+ py_str m]
             ++ (if Str.nonempty description
                 then [Str.nl +:+ "With your approval, I will " +:+ description]
                 else [])
             ++ ["Do you approve this action? (y/n): "])
            st)).
Proof.
  intros Hm Ha Hta Hra Htr Hc Hp Hd Hinp Hy. unfold handle_response.
  assert (Py.truthy response = true) as ->.
  { destruct response as [ | | | | | [|kv kvs]]; try discriminate; reflexivity. }
  unfold bind at 1. unfold lift at 1. rewrite Hm. unfold ret at 1.
  unfold bind at 1. unfold print at 1, modify.
  unfold bind at 1. unfold lift at 1. rewrite Ha. unfold ret at 1.
  unfold bind at 1. unfold lift at 1. rewrite Hra. unfold ret at 1.
  rewrite Hta, Htr. cbn [andb].
  unfold bind at 1. unfold lift at 1. rewrite Hc. unfold ret at 1.
  unfold bind at 1. unfold lift at 1. rewrite Hp. unfold ret at 1.
  unfold bind at 1. unfold lift at 1. rewrite Hd. unfold ret at 1.
  unfold bind at 1.
  destruct (Str.nonempty description).
  - unfold print at 1, modify. unfold bind at 1. unfold input at 1.
    cbn [inp set_out]. rewrite Hinp, Hy. cbn [String.eqb Ascii.eqb Bool.eqb].
    cbv iota. cbn [out set_out]. rewrite <- !app_assoc. reflexivity.
  - unfold ret at 1. unfold bind at 1. unfold input at 1.
    cbn [inp set_out]. rewrite Hinp, Hy. cbn [String.eqb Ascii.eqb Bool.eqb].
    cbv iota. cbn [out set_out]. rewrite <- !app_assoc. reflexivity.
Qed.

End ApprovalFacts.

Section StripFacts.

Lemma is_space2_lead (a b : ascii) :
  Str.is_space2 a b = true -> Str.is_space a = false.
Proof.
  unfold Str.is_space2, Str.is_space. intros H.
  apply andb_true_iff in H as [Ha _]. apply Nat.eqb_eq in Ha. now rewrite Ha.
Qed.

Lemma is_space3_lead (a b c : ascii) :
  Str.is_space3 a b c = true ->
  Str.is_space a = false /\ forall d, Str.is_space2 a d = false.
Proof.
  unfold Str.is_space3, Str.is_space2, Str.is_space. intros H.
  assert (Str.byte a = 225 \/ Str.byte a = 226 \/ Str.byte a = 227) as Ha.
  { repeat (apply orb_true_iff in H as [H | H]);
      repeat (apply andb_true_iff in H as [H ?]); apply Nat.eqb_eq in H; auto. }
  destruct Ha as [-> | [-> | ->]]; split; reflexivity.
Qed.

(** A white-space character at the head of a text is stripped. *)
Lemma lstrip_space (w r : string) :
  Str.space_char w = true -> Str.lstrip (w +:+ r) = Str.lstrip r.
Proof.
  destruct w as [|a [|b [|c [|d w]]]]; try discriminate; cbn [Str.space_char]; intros H.
  - cbn. now rewrite H.
  - cbn. now rewrite (is_space2_lead _ _ H), H.
  - destruct (is_space3_lead _ _ _ H) as [H1 H2]. cbn. now rewrite H1, H2, H.
Qed.

Lemma lstrip_cases (s : string) :
  (exists w r, Str.space_char w = true /\ s = w +:+ r /\ Str.lstrip s = Str.lstrip r)
  \/ (Str.lstrip s = s /\ ~ Str.starts_with_space s).
Proof.
  destruct s as [|a s1].
  { right. split; [reflexivity|]. intros (w & r & Hw & E).
    destruct w; [discriminate Hw | discriminate E]. }
  destruct (Str.is_space a) eqn:E1.
  { left. exists (String a ""), s1. cbn. rewrite E1. auto. }
  destruct s1 as [|b s2].
  { right. cbn. rewrite E1. split; [reflexivity|]. intros (w & r & Hw & E).
    destruct w as [|x [|y w]]; cbn in *; try discriminate; simplify_eq; congruence. }
  destruct (Str.is_space2 a b) eqn:E2.
  { left. exists (String a (String b "")), s2. cbn. rewrite E1, E2. auto. }
  destruct s2 as [|c s3].
  { right. cbn. rewrite E1, E2. split; [reflexivity|]. intros (w & r & Hw & E).
    destruct w as [|x [|y [|z w]]]; cbn in *; try discriminate; simplify_eq; congruence. }
  destruct (Str.is_space3 a b c) eqn:E3.
  { left. exists (String a (String b (String c ""))), s3. cbn. rewrite E1, E2, E3. auto. }
  right. cbn. rewrite E1, E2, E3. split; [reflexivity|]. intros (w & r & Hw & E).
  destruct w as [|x [|y [|z [|u w]]]]; cbn in *; try discriminate; simplify_eq; congruence.
Qed.

Lemma space_char_length (w : string) :
  Str.space_char w = true -> 0 < String.length w.
Proof. destruct w; [discriminate | cbn; lia]. Qed.

(** [lstrip] takes white space off the head, and all of it. *)
Lemma lstrip_spec (s : string) :
  exists l, s = l +:+ Str.lstrip s /\ Str.spaces l /\ ~ Str.starts_with_space (Str.lstrip s).
Proof.
  remember (String.length s) as n eqn:Hn. revert s Hn.
  induction n as [n IH] using lt_wf_ind. intros s ->.
  destruct (lstrip_cases s) as [(w & r & Hw & -> & E) | [E Hno]].
  - destruct (IH (String.length r)) with (s := r) as (l & Hl & Hsp & Hno); [|reflexivity|].
    { rewrite length_append. pose proof (space_char_length w Hw). lia. }
    exists (w +:+ l). rewrite E, append_assoc, <- Hl.
    repeat split; [now constructor | assumption].
  - exists "". rewrite E. repeat split; [constructor | assumption].
Qed.

Lemma blank_spaces (s : string) : Str.blank s = true <-> Str.spaces s.
Proof.
  unfold Str.blank. split.
  - destruct (lstrip_spec s) as (l & Hl & Hsp & _).
    destruct (Str.lstrip s); [|discriminate]. intros _.
    rewrite append_nil_r in Hl. now subst.
  - induction 1 as [|w s Hw _ IH]; [reflexivity|]. now rewrite lstrip_space.
Qed.

(** [rstrip] takes white space off the end, and all of it. *)
Lemma rstrip_spec (s : string) :
  exists r, s = Str.rstrip s +:+ r /\ Str.spaces r /\ ~ Str.ends_with_space (Str.rstrip s).
Proof.
  induction s as [|c s (r & Hr & Hsp & Hno)].
  - exists "". repeat split; [constructor|]. intros (w & p & Hw & E).
    destruct p; [destruct w; discriminate | discriminate].
  - cbn [Str.rstrip]. destruct (Str.blank (String c s)) eqn:B.
    + exists (String c s). repeat split; [now apply blank_spaces|].
      intros (w & p & Hw & E). destruct p; [destruct w; discriminate | discriminate].
    + exists r. cbn. rewrite <- Hr. repeat split; [assumption|].
      intros (w & p & Hw & E). destruct p as [|x p]; cbn in E.
      * assert (Str.blank (String c s) = true); [|congruence].
        apply blank_spaces. rewrite Hr.
        change (String c (Str.rstrip s +:+ r)) with (String c (Str.rstrip s) +:+ r).
        rewrite E. now constructor.
      * injection E as -> E. apply Hno. now exists w, p.
Qed.

(** What [strip] returns: the text between the white space at both ends. *)
Lemma strip_spec (s : string) :
  exists l r, s = l +:+ Str.strip s +:+ r /\ Str.spaces l /\ Str.spaces r
    /\ ~ Str.starts_with_space (Str.strip s) /\ ~ Str.ends_with_space (Str.strip s).
Proof.
  unfold Str.strip. destruct (lstrip_spec s) as (l & Hl & Hsl & Hnl).
  destruct (rstrip_spec (Str.lstrip s)) as (r & Hr & Hsr & Hnr).
  exists l, r. rewrite <- Hr. repeat split; auto.
  intros (w & t & Hw & E). apply Hnl. exists w, (t +:+ r).
  split; [assumption|]. now rewrite Hr at 1; rewrite E, append_assoc.
Qed.

Lemma is_space2_cont (a b : ascii) :
  Str.is_space2 a b = true -> Str.continuation b = true.
Proof.
  unfold Str.is_space2, Str.continuation. intros H.
  apply andb_true_iff in H as [_ H].
  apply orb_true_iff in H as [H | H]; apply Nat.eqb_eq in H; now rewrite H.
Qed.

Lemma is_space3_cont (a b c : ascii) :
  Str.is_space3 a b c = true -> Str.continuation b = true /\ Str.continuation c = true.
Proof.
  unfold Str.is_space3, Str.continuation. intros H.
  repeat (apply orb_true_iff in H as [H | H]);
    repeat match goal with
           | H : _ && _ = true |- _ => apply andb_true_iff in H as [? ?]
           | H : _ || _ = true |- _ => apply orb_true_iff in H as [? | ?]
           | H : (_ =? _)%nat = true |- _ => apply Nat.eqb_eq in H
           | H : (_ <=? _)%nat = true |- _ => apply Nat.leb_le in H
           end;
    split; apply andb_true_iff; split; apply Nat.leb_le; lia.
Qed.

(** A white-space character does not start with a continuation byte. *)
Lemma space_char_head (x : ascii) (w : string) :
  Str.space_char (String x w) = true -> Str.continuation x = false.
Proof.
  assert (forall n, n < 128 \/ 194 <= n -> (128 <=? n)%nat && (n <=? 191)%nat = false) as Hn.
  { intros n [H | H]; [apply andb_false_iff; left; apply Nat.leb_gt; lia
                      | apply andb_false_iff; right; apply Nat.leb_gt; lia]. }
  destruct w as [|b [|c [|d w]]]; cbn [Str.space_char]; try discriminate;
    unfold Str.is_space, Str.is_space2, Str.is_space3, Str.continuation; intros H;
    apply Hn;
    repeat match goal with
           | H : _ && _ = true |- _ => apply andb_true_iff in H as [? ?]
           | H : _ || _ = true |- _ => apply orb_true_iff in H as [? | ?]
           | H : (_ =? _)%nat = true |- _ => apply Nat.eqb_eq in H
           | H : (_ <=? _)%nat = true |- _ => apply Nat.leb_le in H
           end; lia.
Qed.

Lemma spaces_head (x : ascii) (s : string) :
  Str.spaces (String x s) -> Str.continuation x = false.
Proof.
  intros H. remember (String x s) as t eqn:Et. revert x s Et.
  induction H as [|w t Hw Hsp IH]; intros x s Et; [discriminate|].
  destruct w as [|y w]; [discriminate Hw|]. cbn in Et. injection Et as -> _.
  now apply space_char_head with w.
Qed.

(** Where a text goes on with white space only, a white-space character at
    its head lies within the text. *)
Lemma space_within (k r w t : string) :
  k <> "" -> Str.spaces r -> Str.space_char w = true -> k +:+ r = w +:+ t ->
  exists t', k = w +:+ t'.
Proof.
  intros Hk Hr Hw E.
  destruct w as [|a [|b [|c [|d w]]]]; try discriminate Hw; cbn [Str.space_char] in Hw.
  - destruct k as [|x k]; [congruence|]. cbn in E. injection E as -> _. now exists k.
  - destruct k as [|x [|y k]]; [congruence | |].
    + cbn in E. injection E as -> E. subst r.
      apply spaces_head in Hr. rewrite (is_space2_cont _ _ Hw) in Hr. discriminate.
    + cbn in E. injection E as -> -> _. now exists k.
  - destruct (is_space3_cont _ _ _ Hw) as [Hb Hc].
    destruct k as [|x [|y [|z k]]]; [congruence | | |].
    + cbn in E. injection E as -> E. subst r. apply spaces_head in Hr. congruence.
    + cbn in E. injection E as -> -> E. subst r. apply spaces_head in Hr. congruence.
    + cbn in E. injection E as -> -> -> _. now exists k.
Qed.

Lemma spaces_app (a b : string) : Str.spaces a -> Str.spaces b -> Str.spaces (a +:+ b).
Proof.
  induction 1 as [|w s Hw _ IH]; intros Hb; [assumption|].
  rewrite append_assoc. constructor; auto.
Qed.

Lemma lstrip_spaces (l s : string) : Str.spaces l -> Str.lstrip (l +:+ s) = Str.lstrip s.
Proof.
  induction 1 as [|w l Hw _ IH]; [reflexivity|].
  now rewrite append_assoc, lstrip_space.
Qed.

Lemma lstrip_fix (k : string) : ~ Str.starts_with_space k -> Str.lstrip k = k.
Proof.
  intros Hno. destruct (lstrip_cases k) as [(w & r & Hw & E & _) | [E _]]; [|exact E].
  destruct Hno. now exists w, r.
Qed.

(** White space after a text that does not start with white space is left
    alone by [lstrip]. *)
Lemma lstrip_keeps (k r : string) :
  k <> "" -> ~ Str.starts_with_space k -> Str.spaces r -> Str.lstrip (k +:+ r) = k +:+ r.
Proof.
  intros Hk Hno Hr. apply lstrip_fix. intros (w & t & Hw & E).
  destruct (space_within k r w t Hk Hr Hw E) as (t' & ->). apply Hno. now exists w, t'.
Qed.

Lemma spaces_inv (s : string) :
  Str.spaces s -> s = "" \/ exists w t, Str.space_char w = true /\ Str.spaces t /\ s = w +:+ t.
Proof. destruct 1 as [|w t Hw Ht]; [now left | right; eauto]. Qed.

Lemma spaces_cut (k r : string) : Str.spaces (k +:+ r) -> Str.spaces r -> Str.spaces k.
Proof.
  remember (String.length k) as n eqn:Hn. revert k Hn.
  induction n as [n IH] using lt_wf_ind. intros k -> Hkr Hr.
  destruct k as [|x k']; [constructor|]. set (k := String x k') in *.
  destruct (spaces_inv _ Hkr) as [E | (w & t & Hw & Ht & E)]; [discriminate E|].
  destruct (space_within k r w t) as (t' & Ek); [discriminate | assumption.. |].
  rewrite Ek in E |- *. rewrite append_assoc in E.
  assert (t' +:+ r = t) as Et.
  { clear -E. induction w as [|y w IHw]; cbn in E; [exact E | injection E; auto]. }
  constructor; [assumption|]. apply IH with (String.length t'); [|reflexivity| |assumption].
  - rewrite Ek, length_append. pose proof (space_char_length w Hw). lia.
  - now rewrite Et.
Qed.

Lemma blank_app (k r : string) : Str.spaces r -> Str.blank (k +:+ r) = Str.blank k.
Proof.
  intros Hr. destruct (Str.blank k) eqn:B.
  - apply blank_spaces. apply spaces_app; [now apply blank_spaces | assumption].
  - destruct (Str.blank (k +:+ r)) eqn:B'; [|reflexivity].
    apply blank_spaces in B'. apply (spaces_cut k r) in B'; [|assumption].
    apply blank_spaces in B'. congruence.
Qed.

Lemma rstrip_spaces (k r : string) : Str.spaces r -> Str.rstrip (k +:+ r) = Str.rstrip k.
Proof.
  intros Hr. induction k as [|c k IH].
  - cbn. destruct r as [|x r]; [reflexivity|]. cbn [Str.rstrip].
    now rewrite (proj2 (blank_spaces _) Hr).
  - change (String c k +:+ r) with (String c (k +:+ r)). cbn [Str.rstrip].
    change (String c (k +:+ r)) with (String c k +:+ r).
    now rewrite (blank_app _ _ Hr), IH.
Qed.

Lemma spaces_end (s : string) : Str.spaces s -> s <> "" -> Str.ends_with_space s.
Proof.
  induction 1 as [|w s Hw Hs IH]; [congruence|]. intros _.
  destruct s as [|x s'].
  - exists w, "". now rewrite append_nil_r.
  - destruct IH as (w' & p & Hw' & E); [discriminate|].
    exists w', (w +:+ p). split; [assumption|]. now rewrite E, append_assoc.
Qed.

Lemma rstrip_fix (k : string) : ~ Str.ends_with_space k -> Str.rstrip k = k.
Proof.
  induction k as [|c k IH]; [reflexivity|]. intros Hno. cbn [Str.rstrip].
  destruct (Str.blank (String c k)) eqn:B.
  - destruct Hno. apply spaces_end; [now apply blank_spaces | discriminate].
  - rewrite IH; [reflexivity|]. intros (w & p & Hw & E). apply Hno.
    exists w, (String c p). split; [assumption|]. cbn. now rewrite E.
Qed.

(** The text between the white space at both ends is what [strip] gives. *)
Lemma strip_unique (l k r : string) :
  Str.spaces l -> Str.spaces r ->
  ~ Str.starts_with_space k -> ~ Str.ends_with_space k ->
  Str.strip (l +:+ k +:+ r) = k.
Proof.
  intros Hl Hr Hs He. unfold Str.strip. rewrite (lstrip_spaces _ _ Hl).
  destruct k as [|x k'].
  - cbn [String.append]. apply blank_spaces in Hr. unfold Str.blank in Hr.
    destruct (Str.lstrip r); [reflexivity | discriminate].
  - rewrite lstrip_keeps; [|discriminate | assumption..].
    rewrite (rstrip_spaces _ _ Hr). now apply rstrip_fix.
Qed.

End StripFacts.

Ltac read_inv :=
  match goal with
  | H : read_text ?p ?s = (_, _) |- _ =>
      let E := fresh "Eread" in
      unfold read_text in H; destruct (fs_read (fs s) p) eqn:E; simplify_eq
  end.

Section StartFacts.
Context {Jsn : Json} {Sys : Os}.
Variable srv : nat -> Reply.

(** Property X20 (the key that [load_api_key] accepts). The key returned is
    the text of the key file between the white space at its two ends: the
    file reads [before +:+ key +:+ after] where [before] and [after] hold
    white-space characters only and [key] neither starts nor ends with one;
    the key has at least 30 characters; and the call has changed nothing.
    When no key is given, either the file is missing and the two lines that
    say so were printed, or its text has fewer than 30 characters once
    stripped and the line that says so was printed.  The call never
    writes. *)
Theorem load_api_key_accepts_trimmed_long_keys (st st' : St) (r : res (option string)) :
  load_api_key st = (r, st') ->
  fs st' = fs st
  /\ (forall key, r = Ret (Some key) ->
        st' = st /\ 30 <= Str.len key
        /\ ~ Str.starts_with_space key /\ ~ Str.ends_with_space key
        /\ exists before after,
             fs_read (fs st) (path_of_str API_KEY_FILE) = inr (before +:+ key +:+ after)
             /\ Str.spaces before /\ Str.spaces after)
  /\ (r = Ret None ->
        (exists m,
            fs_read (fs st) (path_of_str API_KEY_FILE) = inl (FileNotFoundError m)
            /\ st' = set_out (out st ++
                   ["Error: The API key file 'api_key.txt' was not found.";
                    "Please create a file named 'api_key.txt' in this directory and paste your API key inside."])
                   st)
        \/ (exists text,
               fs_read (fs st) (path_of_str API_KEY_FILE) = inr text
               /\ Str.len (Str.strip text) < 30
               /\ st' = set_out (out st ++
                      ["Error: The API key in 'api_key.txt' is invalid or incomplete."]) st)).
Proof.
  unfold load_api_key.
  destruct (fs_read (fs st) (path_of_str API_KEY_FILE)) as [e | text] eqn:Hread.
  - destruct e; intros [= <- <-]; (split; [reflexivity|]);
      (split; [discriminate|]); try discriminate.
    intros _. left. eexists. split; [reflexivity|]. cbn. now rewrite <- app_assoc.
  - destruct (negb (Str.nonempty (Str.strip text)) || (Str.len (Str.strip text) <? 30)%nat)
      eqn:Hbad; intros [= <- <-]; (split; [reflexivity|]).
    + split; [discriminate|]. intros _. right. exists text.
      split; [reflexivity|]. split; [|reflexivity].
      apply orb_true_iff in Hbad as [Hempty | Hlen]; [|now apply Nat.ltb_lt].
      destruct (Str.strip text); [cbn; lia | discriminate].
    + split; [|discriminate]. intros key [= <-].
      apply orb_false_iff in Hbad as [_ Hlen]. apply Nat.ltb_ge in Hlen.
      destruct (strip_spec text) as (l & t & Htext & Hl & Ht & Hs & He).
      repeat split; try assumption. exists l, t. now rewrite <- Htext.
Qed.

(** Property X21 (no key, no session). Without a usable key the program
    stops before its loop.  When the key file is missing, [main] returns
    having printed the two lines that say so; when the text between the
    white space at the two ends of the file has fewer than 30 characters,
    it returns having printed that the key is invalid or incomplete.  In
    both cases nothing else has happened: no input is read, no request is
    sent, the state file is not looked at. *)
Theorem main_stops_without_key (base_prompt : string) (fuel : nat) (st : St)
    (notice : list string) :
  ((exists m, fs_read (fs st) (path_of_str API_KEY_FILE) = inl (FileNotFoundError m))
   /\ notice = ["Error: The API key file 'api_key.txt' was not found.";
                "Please create a file named 'api_key.txt' in this directory and paste your API key inside."])
  \/ ((exists before key after,
          fs_read (fs st) (path_of_str API_KEY_FILE) = inr (before +:+ key +:+ after)
          /\ Str.spaces before /\ Str.spaces after
          /\ ~ Str.starts_with_space key /\ ~ Str.ends_with_space key
          /\ Str.len key < 30)
      /\ notice = ["Error: The API key in 'api_key.txt' is invalid or incomplete."]) ->
  main srv base_prompt fuel st
  = (Ret tt, set_API_KEY None (set_out (out st ++ notice) st)).
Proof.
  intros [[(m & Hm) ->] | [(l & key & t & Ht & Hl & Hsp & Hs & He & Hlen) ->]];
    unfold main, bind at 1, load_api_key; [rewrite Hm | rewrite Ht].
  - cbn. now rewrite <- app_assoc.
  - rewrite (strip_unique l key t Hl Hsp Hs He).
    apply Nat.ltb_lt in Hlen. rewrite Hlen, orb_true_r. reflexivity.
Qed.

(** Property X22 ([load_project_state] only reads): whatever it finds, the
    file system, the pending input, the requests sent and the key are as
    before; without a state file it answers [False] and changes nothing at
    all; and when it answers [True] its last two printed lines are the
    notice naming the root now in force and the resume line. *)
Theorem load_project_state_only_reads (st st' : St) (r : res bool) :
  load_project_state st = (r, st') ->
  fs st' = fs st /\ inp st' = inp st /\ sent st' = sent st /\ API_KEY st' = API_KEY st
  /\ (fs_exists (fs st) (path_of_str STATE_FILE) = false -> r = Ret false /\ st' = st)
  /\ (r = Ret false -> fs_exists (fs st) (path_of_str STATE_FILE) = false)
  /\ (r = Ret true ->
        out st' = out st ++ ["Loaded project state from '" +:+ STATE_FILE
                             +:+ "'. Current project directory is: "
                             +:+ str_of_root (root_dir st');
                            "Resuming previous conversation..."]).
Proof.
  intros H. unfold load_project_state in H.
  repeat first [run_inv | read_inv]; cbn; repeat split; try congruence; try discriminate.
  all: rewrite <- app_assoc; reflexivity.
Qed.

(** Property X23 (defaults of the state file). A state file without the two
    entries (an empty object, say): the load succeeds, the root directory
    stays as it was (and prints as "None" when there was none), and the
    history is replaced by the empty one. *)
Theorem load_project_state_defaults (text : string) (kvs : list (string * json))
    (rd : json) (st : St) :
  fs_exists (fs st) (path_of_str STATE_FILE) = true ->
  fs_read (fs st) (path_of_str STATE_FILE) = inr text ->
  json_loads text = Some (JObj kvs) ->
  Py.get (JObj kvs) "root_dir" JNull = inr rd -> Py.truthy rd = false ->
  Py.lookup kvs "chat_history" = None ->
  load_project_state st
  = (Ret true,
     set_out (out st ++ ["Loaded project state from '" +:+ STATE_FILE
                         +:+ "'. Current project directory is: "
                         +:+ str_of_root (root_dir st);
                         "Resuming previous conversation..."])
       (set_chat_history [] st)).
Proof.
  intros Hex Hread Hload Hrd Htr Hh.
  unfold load_project_state, bind, gets, read_text, lift, json_load_text, ret.
  rewrite Hex, Hread, Hload, Hrd, Htr. cbn [Py.get]. rewrite Hh.
  unfold modify, print, modify. cbn. rewrite <- app_assoc. reflexivity.
Qed.

(** Property X24 (a state file that is not JSON stops the program at start):
    the decoding error leaves [load_project_state], and [main], which calls
    it outside any handler, ends with it before the first prompt; nothing is
    printed and no request is sent. *)
Theorem main_stops_on_corrupt_state_file (base_prompt text key : string) (fuel : nat)
    (st : St) :
  load_api_key st = (Ret (Some key), st) ->
  fs_exists (fs st) (path_of_str STATE_FILE) = true ->
  fs_read (fs st) (path_of_str STATE_FILE) = inr text ->
  json_loads text = None ->
  load_project_state st = (Raise (JSONDecodeError (json_errmsg text)), st)
  /\ main srv base_prompt fuel st
     = (Raise (JSONDecodeError (json_errmsg text)), set_API_KEY (Some key) st).
Proof.
  intros Hkey Hex Hread Hload.
  assert (forall s, fs s = fs st ->
            load_project_state s = (Raise (JSONDecodeError (json_errmsg text)), s)) as Hl.
  { intros s Hs.
    unfold load_project_state. unfold bind at 1. unfold gets at 1.
    rewrite Hs, Hex. unfold bind at 1. unfold read_text at 1. rewrite Hs, Hread.
    unfold bind at 1. unfold lift at 1, json_load_text, raise. now rewrite Hload. }
  split; [now apply Hl|].
  unfold main. unfold bind at 1. rewrite Hkey. unfold bind at 1, modify.
  unfold bind at 1. now rewrite Hl.
Qed.

Lemma chat_with_ai_accepts (raw : string) (parsed : json) (fuel : nat)
    (user_input : string) (st : St) :
  try_block (srv (List.length (sent st))) = inr (raw, parsed) ->
  let history := chat_history st ++ [message "user" user_input] in
  chat_with_ai srv (S fuel) user_input st
  = (Ret parsed,
     set_chat_history (history ++ [message "model" raw])
       (set_sent (sent st ++ [history]) st)).
Proof.
  intros Ht. unfold chat_with_ai, bind, history_append, modify. cbn.
  unfold bind, loop_body, bind, post. cbn. rewrite Ht. reflexivity.
Qed.

(** Property X25 (a first start): with a key, no state file, and a
    well-formed first reply, [main] prints the welcome, sends one request
    whose body is the base prompt followed by "Greet me.", both as user
    turns, records the reply, prints its message and enters the loop. The
    action carried by that first reply is never executed: when the operator
    leaves at once the file system and the root are untouched. *)
Theorem main_fresh_start_greets (base_prompt raw key line : string) (parsed m : json)
    (fuel : nat) (rest : list string) (st : St) :
  load_api_key st = (Ret (Some key), st) ->
  fs_exists (fs st) (path_of_str STATE_FILE) = false ->
  try_block (srv (List.length (sent st))) = inr (raw, parsed) ->
  Py.truthy parsed = true ->
  Py.getitem parsed "message" = inr m ->
  inp st = line :: rest ->
  Str.lower line = "exit" \/ Str.lower line = "quit" ->
  let opening := chat_history st ++ [message "user" base_prompt;
                                     message "user" "Greet me."] in
  exists st',
    main srv base_prompt (S fuel) st = (Ret tt, st')
    /\ sent st' = sent st ++ [opening]
    /\ chat_history st' = opening ++ [message "model" raw]
    /\ out st' = out st ++ ["Welcome to the AI Dev Assistant! Type 'exit' to quit.";
                            Str.nl +:+ "AI: " +:+ py_str m;
                            Str.nl +:+ "You: "; "Goodbye!"]
    /\ fs st' = fs st /\ root_dir st' = root_dir st /\ inp st' = rest.
Proof.
  intros Hkey Hex Ht Htr Hm Hinp Hexit opening.
  unfold main. unfold bind at 1. rewrite Hkey. unfold bind at 1, modify.
  unfold bind at 1. unfold load_project_state at 1. unfold bind at 1, gets at 1.
  cbn [fs set_API_KEY]. rewrite Hex. unfold ret at 1.
  unfold bind at 1. unfold print at 1, modify.
  unfold bind at 1. unfold history_append at 1, modify.
  unfold bind at 1. unfold bind at 1.
  rewrite (chat_with_ai_accepts raw parsed); [|exact Ht].
  rewrite Htr. unfold bind at 1. unfold lift at 1. rewrite Hm. unfold ret at 1.
  unfold print at 1, modify.
  rewrite (main_loop_exit srv fuel line rest); [| exact Hinp | exact Hexit].
  eexists. split; [reflexivity|]. subst opening. cbn.
  rewrite <- !app_assoc. cbn. repeat split.
Qed.

End StartFacts.

Section ResumeFacts.
Context {Jsn : Json} {Sys : Os}.
Context {JL : JsonLaws Jsn} {OL : OsLaws Sys}.
Variable srv : nat -> Reply.

Lemma load_saved_state (r : Path) (h : list json) (st : St) :
  fs_exists (fs st) (path_of_str STATE_FILE) = true ->
  fs_read (fs st) (path_of_str STATE_FILE) = inr (json_dumps (state_document r h)) ->
  load_project_state st
  = (Ret true,
     set_out (out st ++ ["Loaded project state from '" +:+ STATE_FILE
                         +:+ "'. Current project directory is: " +:+ path_str r;
                         "Resuming previous conversation..."])
       (set_chat_history h (set_root_dir (Some r) st))).
Proof.
  intros Hex Hread.
  unfold load_project_state, bind, gets, read_text, lift, json_load_text.
  rewrite Hex, Hread, json_loads_dumps. cbn.
  rewrite (nonempty_true _ (path_str_nonempty r)). cbn.
  rewrite path_of_str_str, <- app_assoc. reflexivity.
Qed.

(** Property X26 (resuming). After a save, a new process that finds the
    state file (and a key) does not greet again: [main] restores the saved
    root and history, sends nothing, and goes straight to the prompt; here
    the operator leaves at once and the program returns with the restored
    state. *)
Theorem main_resumes_saved_session (base_prompt key line : string) (fuel : nat)
    (rest : list string) (r : Path) (st st1 st2 : St) :
  root_dir st = Some r ->
  save_project_state st = (Ret tt, st1) ->
  fs st2 = fs st1 ->
  load_api_key st2 = (Ret (Some key), st2) ->
  inp st2 = line :: rest ->
  Str.lower line = "exit" \/ Str.lower line = "quit" ->
  exists st3,
    main srv base_prompt (S fuel) st2 = (Ret tt, st3)
    /\ root_dir st3 = Some r /\ chat_history st3 = chat_history st
    /\ sent st3 = sent st2 /\ fs st3 = fs st2 /\ inp st3 = rest
    /\ API_KEY st3 = Some key.
Proof.
  intros Hr Hs Hfs Hkey Hinp Hexit.
  destruct (save_project_state_written st st1 r Hr Hs) as (_ & Hex & Hread).
  rewrite <- Hfs in Hex, Hread.
  unfold main. unfold bind at 1. rewrite Hkey. unfold bind at 1, modify.
  unfold bind at 1.
  rewrite (load_saved_state r (chat_history st)); [| exact Hex | exact Hread].
  unfold bind at 1, ret at 1.
  rewrite (main_loop_exit srv fuel line rest); [| exact Hinp | exact Hexit].
  eexists. split; [reflexivity|]. cbn. repeat split.
Qed.

End ResumeFacts.


(** ** Effects on the reference file system *)

Module RefFiles.
Import Ref.

#[local] Arguments mkdir : simpl never.
#[local] Arguments open_for_writing : simpl never.
#[local] Arguments append_text : simpl never.
#[local] Arguments read : simpl never.
#[local] Arguments exists_ : simpl never.
#[local] Arguments absolute : simpl never.
#[local] Arguments div : simpl never.
#[local] Arguments parent : simpl never.
#[local] Arguments of_str : simpl never.
#[local] Arguments str : simpl never.
#[local] Arguments print_value : simpl never.
#[local] Arguments loads : simpl never.
#[local] Arguments repr : simpl never.

Lemma mkdir_from_adds_dirs (fuel : nat) :
  forall files k files',
    mkdir_from fuel files k = inr files' ->
    files' !! k = Some Dir /\ only_adds_dirs files files'.
Proof.
  induction fuel as [|fuel IH]; intros files k files'; cbn [mkdir_from];
    destruct (files !! k) as [[|c]|] eqn:Ek; try discriminate.
  - intros [= <-]. split; [assumption | intros j; now left].
  - intros [= <-]. split; [assumption | intros j; now left].
  - destruct (mkdir_from fuel files (parent_str k)) as [e | files1] eqn:Em;
      [discriminate|]. intros [= <-].
    destruct (IH _ _ _ Em) as [_ Hadd]. split; [apply lookup_insert_eq|].
    intros j. destruct (decide (k = j)) as [<- | Hne].
    + right. split; [assumption | apply lookup_insert_eq].
    + rewrite lookup_insert_ne by assumption. apply Hadd.
Qed.

Lemma mkdir_adds_dirs (files files' : gmap string node) (p : path) :
  mkdir files p = inr files' ->
  files' !! absolute p = Some Dir /\ only_adds_dirs files files'.
Proof. apply mkdir_from_adds_dirs. Qed.

Lemma open_for_writing_inv (files files' : gmap string node) (p : path) :
  open_for_writing files p = inr files' ->
  files !! absolute p <> Some Dir /\ files' = <[absolute p := File ""]> files.
Proof.
  unfold open_for_writing.
  destruct (files !! absolute p) as [[|c]|] eqn:Ek; [discriminate | |];
    (destruct (files !! parent_str (absolute p)) as [[|c']|]; [|discriminate..]);
    intros [= <-]; split; congruence.
Qed.

Lemma append_text_inv (files files' : gmap string node) (p : path) (s : string) :
  append_text files p s = inr files' ->
  exists c, files !! absolute p = Some (File c)
            /\ files' = <[absolute p := File (c +:+ s)]> files.
Proof.
  unfold append_text. destruct (files !! absolute p) as [[|c]|] eqn:Ek;
    try discriminate. intros [= <-]. eauto.
Qed.

Lemma only_adds_dirs_sentinel (files files' : gmap string node) :
  only_adds_dirs files files' -> no_new_sentinel files files'.
Proof.
  intros Hadd k H. destruct (Hadd k) as [E | [_ E]]; congruence.
Qed.

(** Setting a file to a text other than the sentinel. *)
Lemma set_file_sentinel (files : gmap string node) (k c : string) :
  c <> CREATE_DIR -> no_new_sentinel files (<[k := File c]> files).
Proof.
  intros Hc j H. destruct (decide (k = j)) as [<- | Hne].
  - rewrite lookup_insert_eq in H. congruence.
  - now rewrite lookup_insert_ne in H.
Qed.

Lemma only_adds_dirs_kept (files files' : gmap string node) :
  only_adds_dirs files files' -> dirs_kept files files'.
Proof. intros Hadd k H. destruct (Hadd k) as [E | [E _]]; congruence. Qed.

Lemma set_file_dirs_kept (files : gmap string node) (k c : string) :
  files !! k <> Some Dir -> dirs_kept files (<[k := File c]> files).
Proof.
  intros Hk j H. destruct (decide (k = j)) as [<- | Hne]; [contradiction|].
  now rewrite lookup_insert_ne.
Qed.

Lemma eq_str_false (s : string) :
  Py.eq_str (JStr s) CREATE_DIR = false -> s <> CREATE_DIR.
Proof. cbn. intros H ->. discriminate. Qed.

Lemma benign_refl (files : gmap string node) : benign files files.
Proof. split; intros k H; exact H. Qed.

Lemma benign_trans (f1 f2 f3 : gmap string node) :
  benign f1 f2 -> benign f2 f3 -> benign f1 f3.
Proof. intros [H1 H2] [H3 H4]. split; intros k H; auto. Qed.

Lemma mkdir_benign (files files' : gmap string node) (p : path) :
  mkdir files p = inr files' ->
  benign files files' /\ files' !! absolute p = Some Dir.
Proof.
  intros H. apply mkdir_adds_dirs in H as [Hk Hadd].
  auto using only_adds_dirs_sentinel, only_adds_dirs_kept.
  repeat split; auto using only_adds_dirs_sentinel, only_adds_dirs_kept.
Qed.

Lemma open_benign (files files' : gmap string node) (p : path) :
  open_for_writing files p = inr files' ->
  benign files files' /\ files' !! absolute p = Some (File "").
Proof.
  intros H. apply open_for_writing_inv in H as [Hk ->].
  repeat split; [apply set_file_sentinel; discriminate
                | now apply set_file_dirs_kept | apply lookup_insert_eq].
Qed.

Lemma append_benign (files files' : gmap string node) (p : path) (c s : string) :
  files !! absolute p = Some (File c) -> c +:+ s <> CREATE_DIR ->
  append_text files p s = inr files' ->
  benign files files' /\ files' !! absolute p = Some (File (c +:+ s)).
Proof.
  intros Hc Hne H. apply append_text_inv in H as (c' & Hc' & ->).
  rewrite Hc in Hc'. injection Hc' as <-.
  repeat split; [now apply set_file_sentinel
                | apply set_file_dirs_kept; congruence | apply lookup_insert_eq].
Qed.

(** Facts about the successful file-system calls of a run; [side] proves
    that a written text is not the sentinel. *)
Ltac fs_facts side :=
  repeat match goal with
  | E : mkdir _ _ = inr _ |- _ => apply mkdir_benign in E as [? ?]
  | E : open_for_writing _ _ = inr _ |- _ => apply open_benign in E as [? ?]
  | E : append_text ?f ?p ?s = inr _, R : ?f !! absolute ?p = Some (File ?c) |- _ =>
      let Hne := fresh "Hne" in
      assert (c +:+ s <> CREATE_DIR) as Hne by side;
      apply (append_benign f _ p c s R Hne) in E as [? ?]; clear R Hne
  end.

(** One pair of a create_files payload. *)
Lemma create_item_effect (root : path) (p : string) (content : json)
    (st st' : St) (r : res unit) :
  create_item root p content st = (r, st') ->
  benign (fs st) (fs st')
  /\ (r = Ret tt -> content = JStr CREATE_DIR ->
      fs st' !! absolute (div root p) = Some Dir).
Proof.
  intros H. unfold create_item in H. repeat run_inv; cbn [fs set_out set_fs].
  all: fs_facts ltac:(now apply eq_str_false).
  all: split; eauto using benign_refl, benign_trans; try discriminate.
  all: try (intros _ E; apply eq_str_false in Eif; congruence).
Qed.

Lemma create_files_loop_effect (root : path) (items : list (string * json)) :
  forall (st st' : St) (r : res unit),
    create_files_loop root items st = (r, st') ->
    benign (fs st) (fs st')
    /\ (r = Ret tt -> forall p, In (p, JStr CREATE_DIR) items ->
        fs st' !! absolute (div root p) = Some Dir).
Proof.
  induction items as [|[p content] items IH]; intros st st' r H;
    cbn [create_files_loop] in H.
  - run_inv. split; [apply benign_refl | intros _ p []].
  - apply bind_inv in H.
    destruct H as [([] & st1 & Hitem & Hrest) | [(e & Hitem & ->) | (Hitem & ->)]].
    + apply create_item_effect in Hitem as [Hb1 Hdir1].
      apply IH in Hrest as [Hb2 Hdir2]. split; [eapply benign_trans; eassumption|].
      intros -> q [[= -> ->] | Hq]; [|auto].
      destruct Hb2 as [_ Hkept]. auto.
    + apply create_item_effect in Hitem as [Hb1 _]. split; [assumption | discriminate].
    + apply create_item_effect in Hitem as [Hb1 _]. split; [assumption | discriminate].
Qed.

Lemma print_value_not_sentinel (v : json) (c : string) :
  c = "" -> c +:+ print_value v <> CREATE_DIR.
Proof.
  intros -> H. cbn in H.
  destruct (RefFacts.print_value_head v) as (a & r & E & Ha).
  rewrite E in H. injection H as -> _. discriminate.
Qed.

Lemma save_project_state_effect (st st' : St) (r : res unit) :
  save_project_state st = (r, st') -> benign (fs st) (fs st').
Proof.
  intros H. unfold save_project_state in H. repeat run_inv; cbn [fs set_out set_fs].
  all: fs_facts ltac:(now apply print_value_not_sentinel).
  all: eauto using benign_refl, benign_trans.
Qed.

Lemma write_slides_effect (p : path) (slides : list json) :
  forall (i : nat) (st st' : St) (r : res unit) (c : string),
    fs st !! absolute p = Some (File (String "#" c)) ->
    write_slides p i slides st = (r, st') ->
    benign (fs st) (fs st').
Proof.
  induction slides as [|slide slides IH]; intros i st st' r c Hc H;
    cbn [write_slides] in H.
  - run_inv. apply benign_refl.
  - repeat run_inv; cbn [fs set_out set_fs] in *.
    all: fs_facts ltac:(unfold CREATE_DIR; cbn; discriminate).
    all: eauto using benign_refl, benign_trans.
    all: match goal with
         | Hw : write_slides _ _ _ ?s = _, R : _ !! absolute _ = Some (File _) |- _ =>
             cbn in R; pose proof (IH _ s _ _ _ R Hw)
         end.
    all: eauto using benign_refl, benign_trans.
Qed.

Lemma print_each_fs (prefix : string) (l : list string) :
  forall (st st' : St) (r : res unit),
    print_each prefix l st = (r, st') -> fs st' = fs st.
Proof.
  induction l as [|x l IH]; intros st st' r H; cbn [print_each] in H.
  - now run_inv.
  - repeat run_inv. apply IH in H. exact H.
Qed.

Lemma list_files_loop_fs (root : path)
    (items : list (string * list string * list string)) :
  forall (st st' : St) (r : res unit),
    list_files_loop root items st = (r, st') -> fs st' = fs st.
Proof.
  induction items as [|[[d ds] fsl] items IH]; intros st st' r H;
    cbn [list_files_loop] in H.
  - now run_inv.
  - repeat run_inv;
      repeat match goal with
             | Hp : print_each _ _ _ = _ |- _ => apply print_each_fs in Hp
             | Hl : list_files_loop _ _ _ = _ |- _ => apply IH in Hl
             end; cbn in *; congruence.
Qed.

Lemma execute_action_effect (action : json) (st st' : St) (r : res unit) :
  execute_action action st = (r, st') -> benign (fs st) (fs st').
Proof.
  intros H. unfold execute_action in H.
  repeat run_inv; cbn [fs set_out set_fs set_root_dir set_inp] in *.
  all: try match goal with
           | Hs : save_project_state _ = _ |- _ =>
               apply save_project_state_effect in Hs;
               cbn [fs set_out set_fs set_root_dir set_inp] in Hs
           | Hl : create_files_loop _ _ _ = _ |- _ =>
               apply create_files_loop_effect in Hl as [Hl _]
           | Hl : list_files_loop _ _ _ = _ |- _ =>
               apply list_files_loop_fs in Hl; cbn in Hl; rewrite Hl
           end.
  all: fs_facts ltac:(first [ now apply print_value_not_sentinel
                            | unfold CREATE_DIR; cbn; discriminate ]).
  all: try match goal with
           | Hw : write_slides _ _ _ ?s = _, R : _ !! absolute _ = Some (File _) |- _ =>
               cbn in R; pose proof (write_slides_effect _ _ _ s _ _ _ R Hw)
           end.
  all: eauto 7 using benign_refl, benign_trans.
Qed.
End RefFiles.

Import Ref.

Lemma run_eq {A B} (p : A * B) (a : A) : fst p = a -> p = (a, snd p).
Proof. intros <-. apply surjective_pairing. Qed.

(** Claim C10 (the directory sentinel), on the reference file system: no
    action leaves a file whose content is the sentinel text that did not hold
    it before; and when create_files returns, every path of its payload whose
    content is the sentinel is a directory. *)
Theorem sentinel_is_never_file_content (action : json) (st st' : St) (r : res unit) :
  execute_action action st = (r, st') ->
  no_new_sentinel (fs st) (fs st')
  /\ (forall root items p,
        r = Ret tt ->
        root_dir st = Some root ->
        Py.get action "command" JNull = inr (JStr "create_files") ->
        Py.get action "payload" (JObj []) = inr (JObj items) ->
        In (p, JStr CREATE_DIR) items ->
        fs st' !! absolute (div root p) = Some Dir).
Proof.
  intros H. split.
  - now destruct (RefFiles.execute_action_effect action st st' r H).
  - intros root items p -> Hroot Hc Hp Hin. unfold execute_action in H.
    unfold bind at 1 in H. unfold lift at 1 in H. rewrite Hc in H.
    unfold ret at 1 in H. unfold bind at 1 in H. unfold lift at 1 in H.
    rewrite Hp in H. unfold ret at 1 in H. cbn [Py.eq_str String.eqb Ascii.eqb Bool.eqb] in H.
    cbv iota in H. unfold bind, gets in H. rewrite Hroot in H. cbn [Py.items lift ret] in H.
    destruct (RefFiles.create_files_loop_effect root items st st' (Ret tt) H) as [_ Hd].
    now apply Hd.
Qed.


Module RefWrites.
Import RefFiles.

#[local] Arguments mkdir : simpl never.
#[local] Arguments open_for_writing : simpl never.
#[local] Arguments append_text : simpl never.
#[local] Arguments read : simpl never.
#[local] Arguments absolute : simpl never.
#[local] Arguments div : simpl never.
#[local] Arguments parent : simpl never.

Lemma mkdir_keeps (files files' : gmap string node) (p : path) (k c : string) :
  mkdir files p = inr files' ->
  files !! k = Some (File c) -> files' !! k = Some (File c).
Proof.
  intros H Hk. apply mkdir_adds_dirs in H as [_ H].
  destruct (H k) as [E | [E _]]; congruence.
Qed.

Lemma open_keeps (files files' : gmap string node) (p : path) (k c : string) :
  open_for_writing files p = inr files' -> absolute p <> k ->
  files !! k = Some (File c) -> files' !! k = Some (File c).
Proof.
  intros H Hne Hk. apply open_for_writing_inv in H as [_ ->].
  now rewrite lookup_insert_ne.
Qed.

Lemma append_keeps (files files' : gmap string node) (p : path) (s k c : string) :
  append_text files p s = inr files' -> absolute p <> k ->
  files !! k = Some (File c) -> files' !! k = Some (File c).
Proof.
  intros H Hne Hk. apply append_text_inv in H as (c0 & _ & ->).
  now rewrite lookup_insert_ne.
Qed.

(** A file other than the one an item names is not touched by that item. *)
Lemma create_item_keeps (root : path) (p : string) (content : json)
    (st st' : St) (r : res unit) (k c : string) :
  create_item root p content st = (r, st') ->
  absolute (div root p) <> k ->
  fs st !! k = Some (File c) ->
  fs st' !! k = Some (File c).
Proof.
  intros H Hne Hk. unfold create_item in H.
  repeat run_inv; cbn [fs set_out set_fs] in *.
  all: repeat first
         [ exact Hk
         | eapply append_keeps; [eassumption | exact Hne |]
         | eapply open_keeps; [eassumption | exact Hne |]
         | eapply mkdir_keeps; [eassumption |] ].
Qed.

Lemma create_files_loop_keeps (root : path) (items : list (string * json)) (k c : string) :
  forall (st st' : St) (r : res unit),
    create_files_loop root items st = (r, st') ->
    (forall q v, In (q, v) items -> absolute (div root q) <> k) ->
    fs st !! k = Some (File c) ->
    fs st' !! k = Some (File c).
Proof.
  induction items as [|[q v] items IH]; intros st st' r H Hne Hk;
    cbn [create_files_loop] in H.
  - now run_inv.
  - apply bind_inv in H.
    destruct H as [([] & s1 & Hi & Hr) | [(e & Hi & ->) | (Hi & ->)]];
      (eapply create_item_keeps in Hi; [| apply (Hne q v); now left | exact Hk]);
      [|assumption..].
    eapply IH; [exact Hr | | exact Hi]. intros q' v' Hin. apply (Hne q' v'). now right.
Qed.

(** An item with a text: the file holds the text, below a directory. *)
Lemma create_item_writes (root : path) (p c : string) (st st' : St) :
  c <> CREATE_DIR ->
  create_item root p (JStr c) st = (Ret tt, st') ->
  fs st' !! absolute (div root p) = Some (File c)
  /\ fs st' !! absolute (parent (div root p)) = Some Dir.
Proof.
  intros Hc H. rewrite create_item_text in H by assumption.
  unfold bind, mkdir_p, open_w, write, on_fs, print, modify in H. cbn in H.
  destruct (mkdir (fs st) (parent (div root p))) as [e | f0] eqn:Em; [discriminate|].
  cbn in H.
  destruct (open_for_writing f0 (div root p)) as [e | f1] eqn:Eo; [discriminate|].
  cbn in H.
  destruct (append_text f1 (div root p) c) as [e | f2] eqn:Ea; [discriminate|].
  injection H as <-. cbn.
  apply mkdir_adds_dirs in Em as [Hdir _].
  apply open_for_writing_inv in Eo as [Hnd ->].
  apply append_text_inv in Ea as (c0 & Hc0 & ->).
  rewrite lookup_insert_eq in Hc0. injection Hc0 as <-.
  split; [now rewrite lookup_insert_eq|].
  assert (absolute (div root p) <> absolute (parent (div root p))) as Hne
    by (intros E; rewrite E in Hnd; contradiction).
  now rewrite !lookup_insert_ne by assumption.
Qed.

Lemma read_file (files : gmap string node) (p : path) (c : string) :
  files !! absolute p = Some (File c) -> read files p = inr c.
Proof. intros H. unfold read. now rewrite H. Qed.

End RefWrites.

Module RefPaths.

#[local] Arguments absolute : simpl never.
#[local] Arguments div : simpl never.

Lemma plain_head (q : string) :
  plain q = true -> exists c r, q = String c r /\ c <> "/"%char.
Proof.
  destruct q as [|c r]; [discriminate|]. intros H. exists c, r. split; [reflexivity|].
  intros ->. discriminate H.
Qed.

Lemma append_inj (a x y : string) : a +:+ x = a +:+ y -> x = y.
Proof. induction a as [|c a IH]; cbn; [auto | intros [= E]; auto]. Qed.

(** Below a given root, the key of a plain path is a fixed text followed
    by the path. *)
Lemma absolute_div (root : path) :
  exists base, forall q, plain q = true -> absolute (div root q) = base +:+ q.
Proof.
  destruct root as [a t].
  exists ((if Ascii.eqb a "/" then "" else "/work/")
          +:+ String a t +:+ (if ends_with_slash (String a t) then "" else "/")).
  intros q Hq. destruct (plain_head q Hq) as (c & r & -> & Hc).
  unfold absolute, div, str. cbn [fst snd].
  apply Ascii.eqb_neq in Hc. rewrite Hc.
  assert (Ascii.eqb "/" a = Ascii.eqb a "/") as Hsym by apply Ascii.eqb_sym.
  destruct (ends_with_slash (String a t)); cbn [String.append of_str fst snd starts_with];
    rewrite Hsym; destruct (Ascii.eqb a "/") eqn:Ea; cbn [String.append];
    try reflexivity.
  all: unfold cwd; cbn; rewrite ?Ea; cbn; rewrite ?append_assoc; reflexivity.
Qed.

Lemma plain_keys (root : path) (p q : string) :
  plain p = true -> plain q = true -> q <> p ->
  absolute (div root q) <> absolute (div root p).
Proof.
  intros Hp Hq Hne. destruct (absolute_div root) as (base & Hb).
  rewrite (Hb p Hp), (Hb q Hq). intros E. now apply append_inj in E.
Qed.

End RefPaths.

(** Property X6 (what create_files leaves on disk), on the reference file
    system, for a payload of plain relative paths (no component empty, "."
    or "..", so that a path's text names its file): when the command
    returns, a path given a text holds exactly that text (the empty text
    included) unless a later pair of the payload names the same path, in
    which case the later one wins; and the directory above it exists,
    whether or not it did before. *)
Theorem create_files_last_write_wins (root : path) (pre post : list (string * json))
    (p c : string) (st st' : St) :
  root_dir st = Some root ->
  c <> CREATE_DIR ->
  (forall q v, In (q, v) (pre ++ (p, JStr c) :: post) -> plain q = true) ->
  (forall q v, In (q, v) post -> q <> p) ->
  execute_action (action_of "create_files" (JObj (pre ++ (p, JStr c) :: post))) st
  = (Ret tt, st') ->
  fs_read (fs st') (path_div root p) = inr c
  /\ fs st' !! absolute (parent (div root p)) = Some Dir.
Proof.
  intros Hr Hc Hplain Hne H.
  assert (forall q v, In (q, v) post -> absolute (div root q) <> absolute (div root p))
    as Hlater.
  { intros q v Hin. apply RefPaths.plain_keys.
    - apply (Hplain p (JStr c)), in_elt.
    - apply (Hplain q v), in_or_app. right. now right.
    - now apply (Hne q v). }
  unfold execute_action, action_of, bind, lift, gets in H. cbn in H.
  rewrite Hr in H. cbn in H.
  destruct (create_files_loop (Sys := os) root pre st) as [[[] | e | ] st1] eqn:Hpre.
  - rewrite (create_files_loop_app (Sys := os) root pre _ st st1 Hpre) in H.
    cbn [create_files_loop] in H. apply bind_inv in H.
    destruct H as [([] & st2 & Hi & Hpost) | [(e & _ & [=]) | (_ & [=])]].
    apply RefWrites.create_item_writes in Hi as [Hfile Hdir]; [|assumption].
    split.
    + eapply RefWrites.create_files_loop_keeps in Hpost; [| exact Hlater | exact Hfile].
      apply RefWrites.read_file. exact Hpost.
    + apply RefFiles.create_files_loop_effect in Hpost as [[_ Hkept] _]. now apply Hkept.
  - exfalso. revert H. clear -Hpre. revert st Hpre.
    induction pre as [|[q v] pre IH]; intros st Hpre; cbn [create_files_loop app] in *.
    + discriminate.
    + unfold bind in *. destruct (create_item (Sys := os) root q v st) as [[[] | e' | ] s1];
        [eauto | now intros [=] | discriminate].
  - exfalso. revert H. clear -Hpre. revert st Hpre.
    induction pre as [|[q v] pre IH]; intros st Hpre; cbn [create_files_loop app] in *.
    + discriminate.
    + unfold bind in *. destruct (create_item (Sys := os) root q v st) as [[[] | e' | ] s1];
        [eauto | discriminate | now intros [=]].
Qed.

(** ** The theorems at work on the reference implementation *)

(** Each theorem above that has a premise is applied here to a concrete
    run, its premises discharged by evaluation. *)

(** Garbled replies: seven passes, seven requests, and the call goes on. *)
Lemma chat_with_ai_malformed_replies_never_return_witness :
  exists st',
    chat_with_ai server_garbled 7 "hello" boot = (OutOfFuel, st')
    /\ List.length (sent st') = List.length (sent boot) + 7
    /\ List.length (chat_history st') = List.length (chat_history boot) + 1 + 7
    /\ slept st' = slept boot.
Proof.
  apply (chat_with_ai_malformed_replies_never_return server_garbled).
  intros n. vm_compute. reflexivity.
Defined.

(** No network: the first pass raises. *)
Lemma chat_with_ai_no_response_raises_witness :
  chat_with_ai server_down 5 "hello" boot
  = (Raise (UnboundLocalError "response"),
     set_out ["API communication error (attempt 1/5): Connection refused"]
       (set_sent [[message "user" "hello"]]
          (set_chat_history [message "user" "hello"] boot))).
Proof.
  apply (chat_with_ai_no_response_raises server_down "Connection refused" 4 "hello" boot).
  reflexivity.
Defined.

(** The clashing files: the second pair raises, the first file is there, the
    third is not. *)
Lemma create_files_error_aborts_witness :
  let st1 := snd (create_files_loop project_root [("a", JStr "x")] project) in
  let st2 := snd (create_item project_root "a/b" (JStr "y") st1) in
  execute_action
    (action_of "create_files"
       (JObj ([("a", JStr "x")] ++ ("a/b", JStr "y") :: [("c", JStr "z")])))
    project
  = (Raise (OSError "[Errno 17] File exists: '/work/proj/a'"), st2)
  /\ fs st2 !! "/work/proj/a" = Some (File "x")
  /\ fs st2 !! "/work/proj/c" = None.
Proof.
  intros st1 st2. split; [|split].
  - apply (create_files_error_aborts project_root [("a", JStr "x")] [("c", JStr "z")]
             "a/b" (JStr "y") (OSError "[Errno 17] File exists: '/work/proj/a'")
             project st1 st2).
    + vm_compute. reflexivity.
    + subst st1. apply run_eq. vm_compute. reflexivity.
    + subst st2. apply run_eq. vm_compute. reflexivity.
  - vm_compute. reflexivity.
  - vm_compute. reflexivity.
Defined.

(** Milestones before any project exists. *)
Lemma execute_action_without_root_witness :
  execute_action (action_of "milestones" mvp_payload) boot
  = (Ret tt, set_out (out boot ++ ["Please create a project first."]) boot)
  /\ execute_action (action_of "create_files" (JObj [("notes.txt", JStr "hi")])) boot
     = (Ret tt,
        set_out (out boot ++
          ["Error: You must first initialize a project. Please ask me to 'init_project' with a name."])
          boot).
Proof.
  split.
  - apply (execute_action_without_root _ "milestones" boot);
      [reflexivity | right; right; now left | reflexivity].
  - apply (execute_action_without_root _ "create_files" boot);
      [reflexivity | now left | reflexivity].
Defined.

(** The operator answers "n" to a request to create a file. *)
Lemma approval_gate_witness :
  let st := set_inp ["n"] project in
  let run := handle_response approval_request st in
  fst run = Ret tt
  /\ fs (snd run) = fs st
  /\ chat_history (snd run) = chat_history st ++ [message "user" decline_notice].
Proof.
  intros st run.
  apply (approval_gate approval_request (JBool true) st (snd run) (fst run)).
  - reflexivity.
  - reflexivity.
  - apply surjective_pairing.
  - exists "n". split; [vm_compute; reflexivity | vm_compute; discriminate].
Defined.

(** After init_project the state file is in step with the globals. *)
Lemma state_file_follows_executed_actions_witness : in_sync project.
Proof.
  apply (proj1 (state_file_follows_executed_actions
                  (JL := RefFacts.codec_laws) (OL := RefFacts.os_laws))
           (JObj [("project_name", JStr "proj")]) boot project).
  apply run_eq. vm_compute. reflexivity.
Defined.

(** Claim C6 as stated fails: from a project whose state file is in step
    with the globals, a declined approval leaves a state file that no longer
    is: the notice is in the history and not on disk. *)
Lemma decline_leaves_state_file_stale :
  let st := set_inp ["n"] project in
  let st' := snd (handle_response approval_request st) in
  in_sync st
  /\ declined st st'
  /\ ~ in_sync st'.
Proof.
  intros st st'. split; [|split].
  - exists project_root. split; vm_compute; reflexivity.
  - exists "n". split; [vm_compute; reflexivity | vm_compute; discriminate].
  - intros (r & Hr & Hp). vm_compute in Hr. injection Hr as <-.
    vm_compute in Hp. discriminate.
Qed.

(** The example payload of the milestones command. *)
Lemma milestones_file_holds_payload_witness :
  stored_milestones project_root
    (fs (snd (execute_action (action_of "milestones" mvp_payload) project)))
  = Some mvp_payload.
Proof.
  apply (proj1 (milestones_file_holds_payload
                  (JL := RefFacts.codec_laws) (OL := RefFacts.os_laws) project_root)
           project
           (snd (execute_action (action_of "milestones" mvp_payload) project))
           (fst (execute_action (action_of "milestones" mvp_payload) project))).
  - vm_compute. reflexivity.
  - apply surjective_pairing.
  - vm_compute. reflexivity.
Defined.

(** Claim C7 as stated fails: for the example payload the milestone file
    decodes to the payload object, not to the milestone list itself. *)
Lemma milestones_file_is_not_the_bare_list :
  let st' := snd (execute_action (action_of "milestones" mvp_payload) project) in
  stored_milestones project_root (fs st') = Some (JObj [("milestones", JArr [mvp])])
  /\ stored_milestones project_root (fs st') <> Some (JArr [mvp]).
Proof.
  intros st'. split.
  - vm_compute. reflexivity.
  - vm_compute. discriminate.
Qed.

(** The example payload of create_presentation_plan. *)
Lemma presentation_plan_q3_review_witness :
  let run := execute_action (action_of "create_presentation_plan" q3_payload) project in
  fst run = Ret tt
  /\ fs_read (fs (snd run)) (path_div project_root "q3-review.md") = inr q3_document.
Proof.
  intros run.
  apply (presentation_plan_q3_review (OL := RefFacts.os_laws)
           project_root project (snd run) (fst run)).
  - vm_compute. reflexivity.
  - apply surjective_pairing.
  - vm_compute. reflexivity.
Defined.

(** A state with a two-message history, saved and loaded by a new process. *)
Lemma save_then_load_roundtrip_witness :
  let st := set_chat_history [message "user" "hello"; message "model" "hi"] project in
  exists st3,
    load_project_state (set_fs (fs (snd (save_project_state st))) boot) = (Ret true, st3)
    /\ root_dir st3 = Some project_root
    /\ chat_history st3 = [message "user" "hello"; message "model" "hi"].
Proof.
  intros st.
  apply (save_then_load_roundtrip
           (JL := RefFacts.codec_laws) (OL := RefFacts.os_laws)
           st (snd (save_project_state st)) project_root).
  - vm_compute. reflexivity.
  - apply run_eq. vm_compute. reflexivity.
  - reflexivity.
Defined.

(** A payload whose only entry is a directory. *)
Lemma sentinel_is_never_file_content_witness :
  no_new_sentinel (fs project)
    (fs (snd (execute_action
                (action_of "create_files" (JObj [("src", JStr CREATE_DIR)])) project)))
  /\ fs (snd (execute_action
                (action_of "create_files" (JObj [("src", JStr CREATE_DIR)])) project))
     !! absolute (div project_root "src") = Some Dir.
Proof.
  destruct (sentinel_is_never_file_content
              (action_of "create_files" (JObj [("src", JStr CREATE_DIR)]))
              project
              (snd (execute_action
                      (action_of "create_files" (JObj [("src", JStr CREATE_DIR)])) project))
              (Ret tt)) as [Hn Hd].
  - apply run_eq. vm_compute. reflexivity.
  - split; [exact Hn|].
    apply (Hd project_root [("src", JStr CREATE_DIR)] "src");
      [reflexivity | vm_compute; reflexivity | reflexivity | reflexivity | now left].
Defined.

(** ** The whole program on the reference implementation *)

(** Started without network, the program ends in the first call of
    [chat_with_ai] (the greeting) with the unbound local. *)
Example main_without_network :
  let run := main server_down "You are an assistant." 10 keyed in
  fst run = Raise (UnboundLocalError "response")
  /\ slept (snd run) = []
  /\ List.length (sent (snd run)) = 1.
Proof. vm_compute. repeat split. Qed.

(** With an endpoint that never sends JSON text the greeting never ends. *)
Example main_with_garbled_replies :
  fst (main server_garbled "You are an assistant." 50 keyed) = OutOfFuel.
Proof. vm_compute. reflexivity. Qed.

(** A session that creates a project and then asks for the clashing files:
    the exception of the second pair ends the program; the first file
    exists, the third was never created. *)
Example main_with_clashing_files :
  let run := main server_script "You are an assistant." 10
               (set_inp ["start a project"; "y"; "add the files"; "exit"] keyed) in
  fst run = Raise (OSError "[Errno 17] File exists: '/work/proj/a'")
  /\ fs (snd run) !! "/work/proj/a" = Some (File "x")
  /\ fs (snd run) !! "/work/proj/c" = None
  /\ inp (snd run) = ["exit"].
Proof. vm_compute. repeat split. Qed.

(** ** The further properties at work on the reference implementation *)

Import Scenes.

Lemma load_api_key_ok {Jsn : Json} {Sys : Os} (text key : string) (st : St) :
  fs_read (fs st) (path_of_str API_KEY_FILE) = inr text ->
  Str.strip text = key -> 30 <= Str.len key ->
  load_api_key st = (Ret (Some key), st).
Proof.
  intros Hread <- Hlen. unfold load_api_key. rewrite Hread.
  apply Nat.ltb_ge in Hlen. rewrite Hlen.
  destruct (Str.strip text); [cbn in Hlen; lia | reflexivity].
Qed.

Ltac key_ok :=
  apply (load_api_key_ok "0123456789012345678901234567890123456789");
  [vm_compute; reflexivity | vm_compute; reflexivity | vm_compute; lia].

(** A body that is not UTF-8 ends the turn in the handler, at the first
    attempt and before any pause. *)
Example chat_with_ai_undecodable_body :
  let run := chat_with_ai server_binary 9 "hello" boot in
  fst run
  = Raise (UnicodeDecodeError
             "'utf-8' codec can't decode byte 0xff in position 0: invalid start byte")
  /\ slept (snd run) = [] /\ List.length (sent (snd run)) = 1.
Proof. vm_compute. repeat split. Qed.

Lemma chat_with_ai_invariants_witness :
  let st' := snd (chat_with_ai server_flaky 9 "hello" boot) in
  fs st' = fs boot
  /\ exists k, k <= 5 /\ slept st' = slept boot ++ backoff 0 k.
Proof.
  intros st'.
  destruct (chat_with_ai_invariants server_flaky 9 "hello" boot st'
              (fst (chat_with_ai server_flaky 9 "hello" boot)))
    as (Hfs & _ & _ & _ & _ & _ & Hk).
  - apply surjective_pairing.
  - split; assumption.
Defined.

Lemma chat_with_ai_result_witness :
  let st' := snd (chat_with_ai server_busy 9 "hello" boot) in
  (exists raw h,
      chat_history st' = h ++ [message "model" raw] /\ json_loads raw = Some JNull)
  \/ (JNull = JNull
      /\ slept st' = slept boot ++ [2; 4; 8; 16; 32]%Z
      /\ (exists o, out st' = o ++ [failure_notice])
      /\ exists prompts,
           Forall corrective prompts
           /\ chat_history st' = chat_history boot ++ message "user" "hello" :: prompts).
Proof.
  intros st'. apply (chat_with_ai_result server_busy 9 "hello" boot st' JNull).
  subst st'. apply run_eq. vm_compute. reflexivity.
Defined.

Lemma chat_with_ai_retries_then_succeeds_witness :
  exists st',
    chat_with_ai server_flaky 5 "hello" boot = (Ret greeting, st')
    /\ slept st' = slept boot ++ backoff 0 2
    /\ sent st'
       = sent boot ++ List.repeat (chat_history boot ++ [message "user" "hello"]) 3
    /\ chat_history st'
       = chat_history boot ++ [message "user" "hello";
                               message "model" (print_value greeting)]
    /\ fs st' = fs boot.
Proof.
  apply (chat_with_ai_retries_then_succeeds server_flaky 2 5 "hello"
           (print_value greeting) greeting boot).
  - lia.
  - lia.
  - intros [|[|i]] Hi; [reflexivity | reflexivity | lia].
  - vm_compute. reflexivity.
Defined.

Lemma chat_with_ai_repairs_then_succeeds_witness :
  exists st' prompts,
    chat_with_ai server_confused 5 "hello" boot = (Ret greeting, st')
    /\ List.length prompts = 2 /\ Forall corrective prompts
    /\ chat_history st'
       = chat_history boot ++ message "user" "hello"
                              :: prompts ++ [message "model" (print_value greeting)]
    /\ slept st' = slept boot
    /\ List.length (sent st') = List.length (sent boot) + 2 + 1.
Proof.
  apply (chat_with_ai_repairs_then_succeeds server_confused 2 5 "hello"
           (print_value greeting) greeting boot).
  - lia.
  - intros [|[|i]] Hi; [vm_compute; reflexivity | vm_compute; reflexivity | lia].
  - vm_compute. reflexivity.
Defined.

Lemma execute_action_frame_witness :
  quiet project
    (snd (execute_action (action_of "create_files" (JObj [("notes.txt", JStr "hi")]))
            project)).
Proof.
  apply (execute_action_frame
           (action_of "create_files" (JObj [("notes.txt", JStr "hi")])) project
           (snd (execute_action (action_of "create_files" (JObj [("notes.txt", JStr "hi")]))
                   project))
           (fst (execute_action (action_of "create_files" (JObj [("notes.txt", JStr "hi")]))
                   project))).
  apply surjective_pairing.
Defined.

Lemma milestones_errors_are_reported_witness :
  let run := execute_action (action_of "milestones" mvp_payload) lost in
  let p := path_div gone_root MILESTONE_FILE in
  fst run = Ret tt
  /\ (out (snd run) = out lost ++ [milestones_report gone_root]
      \/ exists e,
           out (snd run) = out lost ++ ["Error writing to milestone file: " +:+ exn_str e]
           /\ (fs_open_w (fs lost) p = inl e
               \/ exists f, fs_open_w (fs lost) p = inr f
                            /\ fs_write f p (json_dumps mvp_payload) = inl e)).
Proof.
  intros run p.
  apply (milestones_errors_are_reported gone_root mvp_payload lost
           (snd run) (fst run)).
  - reflexivity.
  - apply surjective_pairing.
Defined.


Lemma presentation_plan_title_must_be_text_witness :
  execute_action (action_of "create_presentation_plan" (JObj [("title", JNum 7)])) project
  = (Raise (Py.no_attribute (JNum 7) "replace"), project).
Proof.
  apply (presentation_plan_title_must_be_text project_root (JObj [("title", JNum 7)])
           (JNum 7) project).
  - vm_compute. reflexivity.
  - reflexivity.
  - discriminate.
Defined.

Lemma init_project_sets_root_witness :
  let st := set_inp ["demo"] boot in
  let st' := snd (execute_action (action_of "init_project" (JObj [])) st) in
  exists name,
    root_dir st' = Some (path_div path_cwd name)
    /\ ((Py.get (JObj []) "project_name" JNull = inr (JStr name)
         /\ name <> "" /\ inp st' = inp st)
        \/ (inp st = name :: inp st'
            /\ exists v, Py.get (JObj []) "project_name" JNull = inr v
                         /\ Py.truthy v = false))
    /\ chat_history st' = chat_history st
    /\ exists o, out st' = o ++ ["Project directory created at: "
                                 +:+ path_str (path_div path_cwd name)].
Proof.
  intros st st'.
  apply (init_project_sets_root (JObj []) st st').
  subst st'. apply run_eq. vm_compute. reflexivity.
Defined.

Lemma init_project_mkdir_failure_witness :
  execute_action (action_of "init_project" (JObj [("project_name", JStr "notes")])) cluttered
  = (Raise (OSError "[Errno 17] File exists: '/work/notes'"),
     set_root_dir (Some (path_div path_cwd "notes")) cluttered).
Proof.
  apply (init_project_mkdir_failure (JObj [("project_name", JStr "notes")]) "notes"
           (OSError "[Errno 17] File exists: '/work/notes'") cluttered).
  - reflexivity.
  - discriminate.
  - vm_compute. reflexivity.
Defined.

Lemma presentation_plan_document_witness :
  let run := execute_action (action_of "create_presentation_plan" q3_payload) project in
  exists text,
    plan_text q3_payload = inr text
    /\ fs_read (fs (snd run)) (plan_path project_root "Q3 Review") = inr text.
Proof.
  intros run.
  apply (presentation_plan_document (OL := RefFacts.os_laws)
           project_root q3_payload "Q3 Review" project (snd run) (fst run)).
  - vm_compute. reflexivity.
  - reflexivity.
  - reflexivity.
  - apply surjective_pairing.
  - vm_compute. reflexivity.
Defined.


Lemma create_files_description_witness :
  action_description (JStr "create_files")
    (JObj [("src", JStr CREATE_DIR); ("src/main.py", JStr "print(1)");
           ("docs", JStr CREATE_DIR); ("README.md", JStr "")])
  = inr "create the following directories: src, docs and files: src/main.py, README.md.".
Proof.
  destruct (create_files_description
              [("src", JStr CREATE_DIR); ("src/main.py", JStr "print(1)");
               ("docs", JStr CREATE_DIR); ("README.md", JStr "")])
    as (_ & _ & d & Hd & -> & _).
  exact Hd.
Defined.

Lemma handle_response_needs_message_witness :
  handle_response mute_reply project = (Raise (KeyError "'message'"), project).
Proof.
  apply (handle_response_needs_message mute_reply (KeyError "'message'") project).
  - reflexivity.
  - reflexivity.
Defined.

Lemma unflagged_action_runs_unprompted_witness :
  handle_response greeting project
  = (execute_action (action_of "no_action" (JObj []));; save_project_state)
      (set_out (out project ++ [Str.nl +:+ "AI: " +:+ py_str (JStr "Hello!")]) project).
Proof.
  apply (proj1 (unflagged_action_runs_unprompted greeting (JStr "Hello!")
                  (action_of "no_action" (JObj [])) (JBool false) project
                  eq_refl eq_refl eq_refl eq_refl eq_refl)).
Defined.

Lemma main_loop_continues_after_failed_turn_witness :
  let st := set_inp ["hi"; "exit"] boot in
  exists st',
    main_loop server_busy 6 st = (Ret tt, st')
    /\ slept st' = slept st ++ [2; 4; 8; 16; 32]%Z
    /\ chat_history st' = chat_history st ++ [message "user" "hi"]
    /\ fs st' = fs st /\ inp st' = []
    /\ exists o, out st' = o ++ ["Sorry, I encountered an error. Please try again.";
                                Str.nl +:+ "You: "; "Goodbye!"].
Proof.
  intros st.
  apply (main_loop_continues_after_failed_turn server_busy 5 "hi" "exit" [] st).
  - intros n. eexists _, _. split; reflexivity.
  - reflexivity.
  - vm_compute. discriminate.
  - vm_compute. discriminate.
  - left. reflexivity.
  - lia.
Defined.

(** A text that [strip] leaves alone has no white space at its ends. *)
Lemma strip_fixed (k : string) :
  Str.strip k = k -> ~ Str.starts_with_space k /\ ~ Str.ends_with_space k.
Proof.
  intros E. destruct (strip_spec k) as (_ & _ & _ & _ & _ & Hs & He).
  rewrite E in Hs, He. now split.
Qed.

Lemma load_api_key_accepts_trimmed_long_keys_witness :
  let key := "0123456789012345678901234567890123456789" in
  padded_key = padded_key /\ 30 <= Str.len key
  /\ ~ Str.starts_with_space key /\ ~ Str.ends_with_space key
  /\ exists before after,
       fs_read (fs padded_key) (path_of_str API_KEY_FILE) = inr (before +:+ key +:+ after)
       /\ Str.spaces before /\ Str.spaces after.
Proof.
  intros key.
  apply (proj1 (proj2 (load_api_key_accepts_trimmed_long_keys padded_key padded_key
                         (Ret (Some key))
                         ltac:(apply (load_api_key_ok
                                        (" 0123456789012345678901234567890123456789"
                                         +:+ Str.nl));
                               [vm_compute; reflexivity | vm_compute; reflexivity
                               | vm_compute; lia])))
           key eq_refl).
Defined.

Lemma main_stops_without_key_witness :
  main server_greets get_base_prompt 3 boot
  = (Ret tt,
     set_API_KEY None
       (set_out (out boot ++
          ["Error: The API key file 'api_key.txt' was not found.";
           "Please create a file named 'api_key.txt' in this directory and paste your API key inside."])
          boot))
  /\ main server_greets get_base_prompt 3 short_key
     = (Ret tt,
        set_API_KEY None
          (set_out (out short_key ++
             ["Error: The API key in 'api_key.txt' is invalid or incomplete."])
             short_key)).
Proof.
  split.
  - apply (main_stops_without_key server_greets get_base_prompt 3 boot).
    left. split; [|reflexivity]. eexists. vm_compute. reflexivity.
  - apply (main_stops_without_key server_greets get_base_prompt 3 short_key).
    right. split; [|reflexivity].
    exists unit_separator, "abcdefghijklmnopqrstuvwxyzabc", unit_separator.
    split; [vm_compute; reflexivity|].
    split; [apply blank_spaces; reflexivity|].
    split; [apply blank_spaces; reflexivity|].
    split; [apply strip_fixed; reflexivity|].
    split; [apply strip_fixed; reflexivity | vm_compute; lia].
Defined.

Lemma load_project_state_only_reads_witness :
  let run := load_project_state (set_root_dir None keyed_project) in
  fst run = Ret true /\ fs (snd run) = fs keyed_project
  /\ root_dir (snd run) = Some project_root.
Proof.
  intros run.
  destruct (load_project_state_only_reads (set_root_dir None keyed_project)
              (snd run) (fst run)) as (Hfs & _).
  - apply surjective_pairing.
  - split; [vm_compute; reflexivity | split; [exact Hfs | vm_compute; reflexivity]].
Defined.

Lemma load_project_state_defaults_witness :
  load_project_state (restarted "{}")
  = (Ret true,
     set_out (out (restarted "{}")
              ++ ["Loaded project state from '" +:+ STATE_FILE
                  +:+ "'. Current project directory is: "
                  +:+ str_of_root (root_dir (restarted "{}"));
                  "Resuming previous conversation..."])
       (set_chat_history [] (restarted "{}"))).
Proof.
  apply (load_project_state_defaults "{}" [] JNull (restarted "{}")).
  - vm_compute. reflexivity.
  - vm_compute. reflexivity.
  - vm_compute. reflexivity.
  - reflexivity.
  - reflexivity.
  - reflexivity.
Defined.

Lemma main_stops_on_corrupt_state_file_witness :
  load_project_state (restarted "oops")
  = (Raise (JSONDecodeError (json_errmsg "oops")), restarted "oops")
  /\ main server_greets get_base_prompt 3 (restarted "oops")
     = (Raise (JSONDecodeError (json_errmsg "oops")),
        set_API_KEY (Some "0123456789012345678901234567890123456789") (restarted "oops")).
Proof.
  apply (main_stops_on_corrupt_state_file server_greets get_base_prompt "oops"
           "0123456789012345678901234567890123456789" 3 (restarted "oops")).
  - key_ok.
  - vm_compute. reflexivity.
  - vm_compute. reflexivity.
  - vm_compute. reflexivity.
Defined.

Lemma main_fresh_start_greets_witness :
  let st := set_inp ["Exit"] keyed in
  let opening := chat_history st ++ [message "user" get_base_prompt;
                                     message "user" "Greet me."] in
  exists st',
    main server_greets get_base_prompt 1 st = (Ret tt, st')
    /\ sent st' = sent st ++ [opening]
    /\ chat_history st' = opening ++ [message "model" (print_value greeting)]
    /\ out st' = out st ++ ["Welcome to the AI Dev Assistant! Type 'exit' to quit.";
                            Str.nl +:+ "AI: " +:+ py_str (JStr "Hello!");
                            Str.nl +:+ "You: "; "Goodbye!"]
    /\ fs st' = fs st /\ root_dir st' = root_dir st /\ inp st' = [].
Proof.
  intros st.
  apply (main_fresh_start_greets server_greets get_base_prompt (print_value greeting)
           "0123456789012345678901234567890123456789" "Exit" greeting (JStr "Hello!")
           0 [] st).
  - key_ok.
  - vm_compute. reflexivity.
  - vm_compute. reflexivity.
  - reflexivity.
  - reflexivity.
  - reflexivity.
  - left. vm_compute. reflexivity.
Defined.

Lemma main_resumes_saved_session_witness :
  let st := set_chat_history [message "user" "hello"; message "model" "hi"] keyed_project in
  let st2 := set_inp ["quit"] (set_fs (fs (snd (save_project_state st))) boot) in
  exists st3,
    main server_down get_base_prompt 1 st2 = (Ret tt, st3)
    /\ root_dir st3 = Some project_root
    /\ chat_history st3 = chat_history st
    /\ sent st3 = sent st2 /\ fs st3 = fs st2 /\ inp st3 = []
    /\ API_KEY st3 = Some "0123456789012345678901234567890123456789".
Proof.
  intros st st2.
  apply (main_resumes_saved_session (JL := RefFacts.codec_laws) (OL := RefFacts.os_laws)
           server_down get_base_prompt "0123456789012345678901234567890123456789"
           "quit" 0 [] project_root st (snd (save_project_state st)) st2).
  - vm_compute. reflexivity.
  - apply run_eq. vm_compute. reflexivity.
  - reflexivity.
  - key_ok.
  - reflexivity.
  - right. reflexivity.
Defined.

Lemma create_files_last_write_wins_witness :
  let payload := JObj ([("a.txt", JStr "old")] ++ ("a.txt", JStr "new")
                       :: [("b", JStr CREATE_DIR)]) in
  let st' := snd (execute_action (action_of "create_files" payload) project) in
  fs_read (fs st') (path_div project_root "a.txt") = inr "new"
  /\ fs st' !! absolute (parent (div project_root "a.txt")) = Some Dir.
Proof.
  intros payload st'.
  apply (create_files_last_write_wins project_root [("a.txt", JStr "old")]
           [("b", JStr CREATE_DIR)] "a.txt" "new" project st').
  - vm_compute. reflexivity.
  - discriminate.
  - intros q v [[= <- <-] | [[= <- <-] | [[= <- <-] | []]]]; reflexivity.
  - intros q v [[= <- <-] | []]. discriminate.
  - subst st' payload. apply run_eq. vm_compute. reflexivity.
Defined.

Lemma list_files_listing_witness :
  execute_action (action_of "list_files" (JObj [("directory", JStr ".")])) project
  = (Ret tt,
     set_out (out project
              ++ ("Directory structure for '" +:+ path_name project_root +:+ "':")
                 :: flat_map (dir_lines project_root)
                      (sorted (fun it => fst (fst it)) (fs_walk (fs project) project_root)))
       project).
Proof.
  apply (proj1 (list_files_listing (JObj [("directory", JStr ".")]) project_root project
                  ltac:(vm_compute; reflexivity))).
Defined.

Lemma approved_action_runs_witness :
  let st := set_inp ["Y"] project in
  handle_response approval_request st
  = (execute_action (action_of "create_files" (JObj [("notes.txt", JStr "hi")]));;
     save_project_state)
      (set_inp []
         (set_out
            (out st
             ++ [Str.nl +:+ "AI: " +:+ py_str (JStr "I will add a notes file.")]
             ++ (if Str.nonempty "create the following files: notes.txt."
                 then [Str.nl +:+ "With your approval, I will "
                       +:+ "create the following files: notes.txt."]
                 else [])
             ++ ["Do you approve this action? (y/n): "])
            st)).
Proof.
  intros st.
  apply (approved_action_runs approval_request (JStr "I will add a notes file.")
           (action_of "create_files" (JObj [("notes.txt", JStr "hi")])) (JBool true)
           (JStr "create_files") (JObj [("notes.txt", JStr "hi")])
           "create the following files: notes.txt." "Y" [] st).
  all: reflexivity.
Defined.
